(** * Diabetes risk monitoring application: model and verified properties

  A shallow embedding of the offline partitioning scripts
  ([create_client_data.py], [federated_sim.py]) and of the request
  handlers of the web application ([app.py] over the tables of
  [models.py]), followed by the properties proved about them.

  Python [int] is [Z], Python [float] is the binary64 type [float] of the
  kernel, [str] is [string] (characters are the code points below 256),
  [dict]s used as maps are [gmap]s, and a handler is a program of a small
  state-and-exception monad over the database session. *)

From Stdlib Require Import ZArith Floats Ascii.
From stdpp Require Import gmap strings list pretty.

Local Open Scope string_scope.
Local Open Scope list_scope.
Local Open Scope Z_scope.

(** ** Part I: definitions *)

(** *** Python built-ins used by the sources *)
Module Py.

(** Normalisation of one bound of a slice [l[start:stop]] over a sequence
    of length [len]: a negative bound counts from the end, and both are
    clipped to the sequence. *)
Definition slice_bound (len i : Z) : Z :=
  if i <? 0 then Z.max 0 (len + i) else Z.min i len.

(** [l[start:stop]], also [df.iloc[start:stop]] on the rows of a frame. *)
Definition slice {A} (l : list A) (start stop : Z) : list A :=
  let len := Z.of_nat (length l) in
  let a := slice_bound len start in
  let b := slice_bound len stop in
  take (Z.to_nat (b - a)) (drop (Z.to_nat a) l).

(** [range(start, stop)] *)
Definition range (start stop : Z) : list Z := seqZ start (stop - start).

(** The values a JSON body or a service hands to the handlers. *)
#[local] Unset Elimination Schemes.
Inductive value :=
| VNone
| VBool (b : bool)
| VInt (z : Z)
| VFloat (f : float)
| VStr (s : string)
| VList (l : list value)
| VDict (items : list (string * value)).
#[local] Set Elimination Schemes.

(** [bool(v)], the test behind [if not v] *)
Definition truthy (v : value) : bool :=
  match v with
  | VNone => false
  | VBool b => b
  | VInt z => negb (z =? 0)
  | VFloat f => negb (PrimFloat.eqb f 0)
  | VStr s => negb (String.eqb s "")
  | VList l => match l with [] => false | _ => true end
  | VDict items => match items with [] => false | _ => true end
  end.

(** [d.get(key, default)] on the items of a dict (keys are distinct) *)
Fixpoint dict_get (items : list (string * value)) (key : string)
    (default : value) : value :=
  match items with
  | [] => default
  | (k, v) :: items' => if String.eqb k key then v else dict_get items' key default
  end.

(** [c.isspace()] for the code points below 256 *)
Definition isspace (c : Ascii.ascii) : bool :=
  let n := Z.of_N (Ascii.N_of_ascii c) in
  ((9 <=? n) && (n <=? 13)) || ((28 <=? n) && (n <=? 32))
  || (n =? 133) || (n =? 160).

Fixpoint lstrip (s : string) : string :=
  match s with
  | String c s' => if isspace c then lstrip s' else s
  | EmptyString => EmptyString
  end.

Fixpoint rstrip (s : string) : string :=
  match s with
  | String c s' =>
      let r := rstrip s' in
      if isspace c && String.eqb r "" then EmptyString else String c r
  | EmptyString => EmptyString
  end.

(** [s.strip()] *)
Definition strip (s : string) : string := rstrip (lstrip s).

(** [s.replace(old, new)] for a one-character [old] *)
Fixpoint replace (old : Ascii.ascii) (new : string) (s : string) : string :=
  match s with
  | String c s' =>
      if Ascii.eqb c old then new +:+ replace old new s'
      else String c (replace old new s')
  | EmptyString => EmptyString
  end.

(** [len(s)] *)
Definition len (s : string) : Z := Z.of_nat (String.length s).

(** [f"{z}"] for an [int] *)
Definition format_int (z : Z) : string := pretty z.

(** The integer nearest to [n * 2^e], ties to the even one. *)
Definition round_half_even (n e : Z) : Z :=
  if 0 <=? e then n * 2 ^ e
  else
    let d := 2 ^ (- e) in
    let q := n `div` d in
    let r := n `mod` d in
    if 2 * r <? d then q
    else if d <? 2 * r then q + 1
    else if Z.even q then q else q + 1.

Definition two_digits (n : Z) : string :=
  if n <? 10 then "0" +:+ pretty n else pretty n.

(** [f"{x:.2f}"]: the decimal with two fractional digits nearest to the
    exact value of the float. *)
Definition format_2f (x : float) : string :=
  match Prim2SF x with
  | S754_nan => "nan"
  | S754_infinity s => if s then "-inf" else "inf"
  | S754_zero s => (if s then "-" else "") +:+ "0.00"
  | S754_finite s m e =>
      let h := round_half_even (Z.pos m * 100) e in
      (if s then "-" else "") +:+ pretty (h `div` 100) +:+ "."
        +:+ two_digits (h `mod` 100)
  end.

(** A [datetime.datetime]: the fields of the naive value and the offset
    of an aware one, in seconds. *)
Record datetime := mk_datetime {
  year : Z; month : Z; day : Z;
  hour : Z; minute : Z; second : Z; microsecond : Z;
  utcoffset : option Z
}.

#[global] Instance datetime_eq_dec : EqDecision datetime.
Proof. solve_decision. Defined.

End Py.

(** *** The partitioning utility and the driver's inline split *)
Module Partition.

(** A data frame as the scripts use it: the header and the data rows
    (a row is the list of its cells). *)
Record DataFrame := mkDataFrame {
  columns : list string;
  rows : list (list string)
}.

(** The files below the script's directory, each CSV file by the frame
    [pd.read_csv] loads from it and [to_csv(index=False)] writes to it. *)
Abbreviation filesystem := (gmap string DataFrame).

Inductive outcome :=
| Returned (success : bool)
| ZeroDivisionError.

(** [data_dir / f"pima_client_{i}.csv"], relative to the base directory *)
Definition client_file (i : Z) : string :=
  "data/pima_client_" +:+ pretty i +:+ ".csv".

(** [len(df) // num_clients]; Python's [//] rounds down, as [Z.div]. *)
Definition chunk_size (df : DataFrame) (num_clients : Z) : Z :=
  Z.of_nat (length (rows df)) `div` num_clients.

Definition start_idx (df : DataFrame) (num_clients i : Z) : Z :=
  (i - 1) * chunk_size df num_clients.

Definition end_idx (df : DataFrame) (num_clients i : Z) : Z :=
  if i <? num_clients
  then start_idx df num_clients i + chunk_size df num_clients
  else Z.of_nat (length (rows df)).

(** [client_df = df.iloc[start_idx:end_idx]] *)
Definition client_df (df : DataFrame) (num_clients i : Z) : DataFrame :=
  {| columns := columns df;
     rows := Py.slice (rows df) (start_idx df num_clients i)
               (end_idx df num_clients i) |}.

(** The loop [for i in range(1, num_clients + 1)] of
    [create_client_data_files], one [to_csv] per turn. *)
Definition write_clients (df : DataFrame) (num_clients : Z)
    (fs : filesystem) : filesystem :=
  foldl (λ fs i, <[client_file i := client_df df num_clients i]> fs)
    fs (Py.range 1 (num_clients + 1)).

(** [create_client_data_files(num_clients, main_data)]: the value it
    returns (or the exception that leaves it) and the files afterwards.
    The warning about missing columns only prints. *)
Definition create_client_data_files (num_clients : Z) (main_data : string)
    (fs : filesystem) : outcome * filesystem :=
  match fs !! main_data with
  | None => (Returned false, fs)
  | Some df =>
      if num_clients =? 0 then (ZeroDivisionError, fs)
      else (Returned true, write_clients df num_clients fs)
  end.

(** The shards read back, in client order; [None] when one is missing. *)
Definition read_clients (num_clients : Z) (fs : filesystem)
    : option (list DataFrame) :=
  mapM (λ i, fs !! client_file i) (Py.range 1 (num_clients + 1)).

(** [simulate_federated_learning], the part before the processes are
    started: a client file that does not exist is cut from the main
    dataset when that exists, with the same bounds as above. *)
Definition ensure_client_file (num_clients : Z) (fs : filesystem) (i : Z)
    : filesystem :=
  match fs !! client_file i with
  | Some _ => fs
  | None =>
      match fs !! "data/pima_sample.csv" with
      | Some df => <[client_file i := client_df df num_clients i]> fs
      | None => fs
      end
  end.

Definition ensure_client_files (num_clients : Z) (fs : filesystem)
    : filesystem :=
  foldl (ensure_client_file num_clients) fs (Py.range 1 (num_clients + 1)).

End Partition.

(** *** The tables of [models.py] and the database session *)
Module Db.

(** Rows carry the columns the handlers assign or read. The columns filled
    only by a default ([created_at]) or never assigned (a profile's [age],
    [sex], [height_cm], [weight_kg]) are left out. *)
Record User := mkUser {
  u_id : Z;
  u_email : string;
  u_password_hash : string;
  u_role : string
}.

Record PatientProfile := mkPatientProfile {
  pp_id : Z;
  pp_user_id : Z;
  pp_first_name : string;
  pp_last_name : string;
  pp_name : string
}.

Record GlucoseReading := mkGlucoseReading {
  gr_id : Z;
  gr_user_id : Z;
  gr_timestamp : Py.datetime;
  gr_glucose : float;
  gr_source : string
}.

Record RiskPrediction := mkRiskPrediction {
  rp_id : Z;
  rp_user_id : Z;
  rp_prediction : Z;
  rp_probability : float
}.

Record Alert := mkAlert {
  al_id : Z;
  al_user_id : Z;
  al_message : string;
  al_level : string
}.

Record AuditLog := mkAuditLog {
  log_id : Z;
  log_user_id : option Z;
  log_action : string;
  log_details : option string;
  log_ip_address : option string
}.

Record tables := mkTables {
  users : list User;
  profiles : list PatientProfile;
  readings : list GlucoseReading;
  predictions : list RiskPrediction;
  alerts : list Alert;
  audit_logs : list AuditLog
}.

(** What the store is taken to be: the default one of [app.py], a SQLite
    file behind SQLAlchemy. Its [DateTime] column keeps the wall-clock
    fields of a [datetime] and drops the UTC offset of an aware value, in
    an inserted row and in the parameter of a query alike. *)
Definition as_stored (d : Py.datetime) : Py.datetime :=
  Py.mk_datetime (Py.year d) (Py.month d) (Py.day d) (Py.hour d)
    (Py.minute d) (Py.second d) (Py.microsecond d) None.

(** A [Float] column declared [nullable=False] takes every float but NaN,
    which the driver binds as NULL. *)
Definition storable_float (x : float) : bool := negb (PrimFloat.is_nan x).

(** The state a handler runs in. [session] is what the queries of the
    session see: the committed rows and the rows added since (the session
    flushes before every query, so an added row is visible to the next
    query and has its key). [committed] is what survives the request.
    [ticks] counts the calls of [datetime.now()], and [flashes] are the
    flashed messages with their categories. [failing] says that the
    session cannot flush: a row was added that the store refuses, and from
    the flush that meets it until a rollback every flush, the one before a
    query and the one of a commit, raises. *)
Record world := World {
  session : tables;
  committed : tables;
  ticks : nat;
  flashes : list (string * string);
  failing : bool
}.

(** A world whose session can flush; a request starts in one. *)
Definition mkWorld (session committed : tables) (ticks : nat)
    (flashes : list (string * string)) : world :=
  World session committed ticks flashes false.

Inductive exn :=
| BadRequest
| ValueError
| AttributeError
| UnicodeDecodeError
| ServiceError
| IntegrityError.

Inductive result (A : Type) :=
| Ok (a : A)
| Raise (e : exn).
Arguments Ok {A} a.
Arguments Raise {A} e.

(** Programs over the world that return or raise. *)
Definition M (A : Type) : Type := world → result A * world.

Definition ret {A} (a : A) : M A := λ w, (Ok a, w).

Definition bind {A B} (m : M A) (k : A → M B) : M B :=
  λ w, match m w with
       | (Ok a, w') => k a w'
       | (Raise e, w') => (Raise e, w')
       end.

Definition raise {A} (e : exn) : M A := λ w, (Raise e, w).

(** [try: body / except: handler] *)
Definition try_except {A} (body : M A) (handler : exn → M A) : M A :=
  λ w, match body w with
       | (Ok a, w') => (Ok a, w')
       | (Raise e, w') => handler e w'
       end.

(** A library call that returns or raises [e]. *)
Definition lift {A} (e : exn) (o : option A) : M A :=
  match o with Some a => ret a | None => raise e end.

Declare Scope prog_scope.
Delimit Scope prog_scope with prog.
Bind Scope prog_scope with M.
Notation "x <- m ;; k" := (bind m (λ x, k))
  (at level 100, m at next level, k at level 200, right associativity) : prog_scope.
Notation "m ;;; k" := (bind m (λ _, k))
  (at level 100, k at level 200, right associativity) : prog_scope.
Local Open Scope prog_scope.

(** [for x in l: body(x)] *)
Fixpoint for_each {A} (l : list A) (body : A → M unit) : M unit :=
  match l with
  | [] => ret tt
  | x :: l' => body x ;;; for_each l' body
  end.

(** The rows of the session, as [db.session.add] sees them: no flush. *)
Definition get_session : M tables := λ w, (Ok (session w), w).

Definition set_session (t : tables) : M unit :=
  λ w, (Ok tt, World t (committed w) (ticks w) (flashes w) (failing w)).

(** A row that the store refuses is added: it stays pending, and the
    session cannot flush. *)
Definition add_refused : M unit :=
  λ w, (Ok tt, World (session w) (committed w) (ticks w) (flashes w) true).

(** [db.session.flush()], also the flush before a query *)
Definition flush : M unit :=
  λ w, if failing w then (Raise IntegrityError, w) else (Ok tt, w).

(** The rows a query sees: the session flushes first. *)
Definition query : M tables := flush ;;; get_session.

(** [db.session.commit()] *)
Definition commit : M unit :=
  λ w, if failing w then (Raise IntegrityError, w)
       else (Ok tt, World (session w) (session w) (ticks w) (flashes w) false).

(** [db.session.rollback()] *)
Definition rollback : M unit :=
  λ w, (Ok tt, World (committed w) (committed w) (ticks w) (flashes w) false).

(** [flash(message, category)] *)
Definition flash (message category : string) : M unit :=
  λ w, (Ok tt, World (session w) (committed w) (ticks w)
                 (flashes w ++ [(message, category)]) (failing w)).

(** The key an integer primary key column gives to the next row. *)
Definition fresh_id (ids : list Z) : Z := 1 + foldr Z.max 0 ids.

(** [db.session.add(User(email=..., password_hash=..., role=...))]; the
    value is the [id] the object has once flushed. *)
Definition add_user (email password_hash role : string) : M Z :=
  t <- get_session ;;
  let id := fresh_id (u_id <$> users t) in
  set_session (mkTables (users t ++ [mkUser id email password_hash role])
                 (profiles t) (readings t) (predictions t) (alerts t)
                 (audit_logs t)) ;;;
  ret id.

Definition add_profile (user_id : Z) (first_name last_name name : string)
    : M unit :=
  t <- get_session ;;
  let id := fresh_id (pp_id <$> profiles t) in
  set_session (mkTables (users t)
                 (profiles t ++ [mkPatientProfile id user_id first_name last_name name])
                 (readings t) (predictions t) (alerts t) (audit_logs t)).

(** [db.session.add(GlucoseReading(...))]: the row as the store keeps it,
    or a pending row that the store refuses. *)
Definition add_reading (user_id : Z) (timestamp : Py.datetime)
    (glucose : float) (source : string) : M unit :=
  if storable_float glucose then
    t <- get_session ;;
    let id := fresh_id (gr_id <$> readings t) in
    set_session (mkTables (users t) (profiles t)
                   (readings t
                    ++ [mkGlucoseReading id user_id (as_stored timestamp)
                          glucose source])
                   (predictions t) (alerts t) (audit_logs t))
  else add_refused.

(** [db.session.add(RiskPrediction(...))]. The label and the probability
    are those of the model service, a binary label and a probability
    between 0 and 1 by its contract, which the columns take. *)
Definition add_prediction (user_id prediction : Z) (probability : float)
    : M unit :=
  t <- get_session ;;
  let id := fresh_id (rp_id <$> predictions t) in
  set_session (mkTables (users t) (profiles t) (readings t)
                 (predictions t ++ [mkRiskPrediction id user_id prediction probability])
                 (alerts t) (audit_logs t)).

Definition add_alert (user_id : Z) (message level : string) : M unit :=
  t <- get_session ;;
  let id := fresh_id (al_id <$> alerts t) in
  set_session (mkTables (users t) (profiles t) (readings t) (predictions t)
                 (alerts t ++ [mkAlert id user_id message level])
                 (audit_logs t)).

Definition add_audit_log (user_id : option Z) (action : string)
    (details ip_address : option string) : M unit :=
  t <- get_session ;;
  let id := fresh_id (log_id <$> audit_logs t) in
  set_session (mkTables (users t) (profiles t) (readings t) (predictions t)
                 (alerts t)
                 (audit_logs t ++ [mkAuditLog id user_id action details ip_address])).

(** [User.query.filter_by(email=email).first()] *)
Definition first_user_by_email (email : string) : M (option User) :=
  t <- query ;;
  ret (head (filter (λ u, u_email u = email) (users t))).

(** [PatientProfile] of a user, as the relationship [user.profile] loads it *)
Definition profile_of (user_id : Z) : M (option PatientProfile) :=
  t <- query ;;
  ret (head (filter (λ p, pp_user_id p = user_id) (profiles t))).

(** [GlucoseReading.query.filter_by(user_id=..., timestamp=..., source=...).first()];
    the timestamp is compared as the store keeps it. *)
Definition first_reading (user_id : Z) (timestamp : Py.datetime)
    (source : string) : M (option GlucoseReading) :=
  t <- query ;;
  ret (head (filter (λ r, gr_user_id r = user_id
                          ∧ gr_timestamp r = as_stored timestamp
                          ∧ gr_source r = source) (readings t))).

(** [GlucoseReading.query.filter_by(user_id=...)], before ordering *)
Definition readings_of (user_id : Z) (t : tables) : list GlucoseReading :=
  filter (λ r, gr_user_id r = user_id) (readings t).

End Db.

(** *** The handlers of [app.py] *)
Module App.
Import Db.
Local Open Scope prog_scope.

(** A point of a forecast: its [timestamp] entry and its [glucose] entry. *)
Record forecast_point := mkPoint {
  pt_timestamp : Py.value;
  pt_glucose : float
}.

(** Modelled from the spec: the services of the package [ml], whose files
    are not among the sources. [predict] of either service gives the label,
    the probability and the feature order for a payload; [is_available] of
    the federated service is a flag; [forecast_glucose] gives the sequence
    of forecast points for a sequence of readings. A [None] is the call
    raising. *)
Record services := mkServices {
  federated_is_available : bool;
  federated_predict : Py.value → option (Z * float * list string);
  standard_predict : Py.value → option (Z * float * list string);
  forecast_glucose : Py.value → option (list forecast_point)
}.

(** What the handlers take from outside the sources: the services above
    and the library calls, namely the clock ([clock n] is the value of the
    [n]-th call of [datetime.now()]), [datetime.fromisoformat],
    [datetime.strptime], [datetime.isoformat], [float] on a string,
    [generate_password_hash], and the [ORDER BY timestamp DESC] of the
    store. A [None] is the call raising. *)
Record environment := mkEnvironment {
  clock : nat → Py.datetime;
  fromisoformat : string → option Py.datetime;
  strptime : string → string → option Py.datetime;
  isoformat : Py.datetime → string;
  float_of_str : string → option float;
  generate_password_hash : string → string;
  order_by_timestamp_desc : list GlucoseReading → list GlucoseReading;
  ml : services
}.

(** An uploaded file as [csv.DictReader] presents it after
    [file.read().decode('utf-8')]: its rows by column name, or unreadable
    when reading, decoding or parsing raises. A column missing from the
    header or from a short row has no entry. *)
Inductive upload :=
| Unreadable
| CsvRows (rows : list (gmap string string)).

(** A request: [json] is what [get_json] gives ([None]: the body does not
    parse and the call aborts with 400). *)
Record request := mkRequest {
  method : string;
  form : gmap string string;
  is_json : bool;
  json : option Py.value;
  files : gmap string upload;
  remote_addr : option string
}.

(** The request with the user of the session ([None]: anonymous). *)
Record context := mkContext {
  req : request;
  current_user : option User
}.

Inductive response :=
| Template (name : string)
| RedirectTo (endpoint : string)
| JsonPrediction (prediction : Z) (probability : float) (features : list string)
| JsonForecast (forecast : list forecast_point) (cgm_stored : bool)
| JsonError (error : string) (status : Z)
| ErrorPage (status : Z).

Definition status_code (r : response) : Z :=
  match r with
  | Template _ | JsonPrediction _ _ _ | JsonForecast _ _ => 200
  | RedirectTo _ => 302
  | JsonError _ status | ErrorPage status => status
  end.

(** The state of the server between requests. *)
Record server := mkServer {
  db : tables;
  clock_ticks : nat;
  flashed : list (string * string)
}.

(** One request: the handler runs in a session opened on the stored rows;
    an exception that leaves it becomes an error page (400 for a bad
    request, 500 otherwise); the session is then removed, which drops what
    was not committed. *)
Definition dispatch (handler : M response) (s : server) : response * server :=
  match handler (mkWorld (db s) (db s) (clock_ticks s) (flashed s)) with
  | (r, w) =>
      (match r with
       | Ok resp => resp
       | Raise BadRequest => ErrorPage 400
       | Raise _ => ErrorPage 500
       end,
       mkServer (committed w) (ticks w) (flashes w))
  end.

Section handlers.
Context (env : environment).

(** [datetime.now()] *)
Definition datetime_now : M Py.datetime :=
  λ w, (Ok (clock env (ticks w)),
        World (session w) (committed w) (S (ticks w)) (flashes w) (failing w)).

(** [request.get_json()] *)
Definition get_json (request : request) : M Py.value :=
  lift BadRequest (json request).

(** [not v] for a form field or other optional string *)
Definition falsy (v : option string) : bool :=
  match v with
  | None => true
  | Some s => String.eqb s ""
  end.

(** [@login_required], with [login_view] set *)
Definition login_required (ctx : context) (view : User → M response)
    : M response :=
  match current_user ctx with
  | Some user => view user
  | None =>
      flash "Please log in to access this page." "message" ;;;
      ret (RedirectTo "login")
  end.

(** [@role_required], for the listed roles *)
Definition role_required (roles : list string) (ctx : context)
    (view : User → M response) : M response :=
  match current_user ctx with
  | None => ret (RedirectTo "login")
  | Some user =>
      if bool_decide (u_role user ∈ roles) then view user
      else flash "Unauthorized" "error" ;;; ret (RedirectTo "index")
  end.

(** [log_audit(user_id, action, details, ip_address)] *)
Definition log_audit (request : request) (user_id : option Z)
    (action : string) (details ip_address : option string) : M unit :=
  try_except
    (add_audit_log user_id action details
       (if falsy ip_address then remote_addr request else ip_address) ;;;
     commit)
    (λ e, rollback).

(** [register()] *)
Definition register (ctx : context) : M response :=
  let request := req ctx in
  if bool_decide (method request = "POST") then
    let email := form request !! "email" in
    let password := form request !! "password" in
    let confirm_password := form request !! "confirm_password" in
    if falsy email || falsy password then
      flash "Email and password are required" "error" ;;;
      ret (Template "register.html")
    else if bool_decide (password ≠ confirm_password) then
      flash "Passwords do not match" "error" ;;;
      ret (Template "register.html")
    else if Py.len (default "" password) <? 6 then
      flash "Password must be at least 6 characters long" "error" ;;;
      ret (Template "register.html")
    else
      let first_name := Py.strip (default "" (form request !! "first_name")) in
      let last_name := Py.strip (default "" (form request !! "last_name")) in
      if falsy (Some first_name) || falsy (Some last_name) then
        flash "First name and last name are required" "error" ;;;
        ret (Template "register.html")
      else
        existing <- first_user_by_email (default "" email) ;;
        if bool_decide (is_Some existing) then
          flash "Email already registered. Please login instead." "error" ;;;
          ret (RedirectTo "login")
        else
          user_id <- add_user (default "" email)
                       (generate_password_hash env (default "" password))
                       "patient" ;;
          flush ;;;
          let full_name := first_name +:+ " " +:+ last_name in
          add_profile user_id first_name last_name full_name ;;;
          commit ;;;
          log_audit request (Some user_id) "user_register"
            (Some ("New patient registered: " +:+ default "" email))
            (remote_addr request) ;;;
          flash "Registration successful! Please login." "success" ;;;
          ret (RedirectTo "login")
  else ret (Template "register.html").

(** [create_clinician()] *)
Definition create_clinician (ctx : context) : M response :=
  login_required ctx (λ _,
  role_required ["admin"] ctx (λ current_user,
  let request := req ctx in
  if bool_decide (method request = "POST") then
    let email := form request !! "email" in
    let password := form request !! "password" in
    if falsy email || falsy password then
      flash "Email and password are required" "error" ;;;
      ret (RedirectTo "admin_dashboard")
    else if Py.len (default "" password) <? 6 then
      flash "Password must be at least 6 characters long" "error" ;;;
      ret (RedirectTo "admin_dashboard")
    else
      existing <- first_user_by_email (default "" email) ;;
      if bool_decide (is_Some existing) then
        flash "Email already registered" "error" ;;;
        ret (RedirectTo "admin_dashboard")
      else
        add_user (default "" email)
          (generate_password_hash env (default "" password)) "clinician" ;;;
        commit ;;;
        log_audit request (Some (u_id current_user)) "clinician_created"
          (Some ("Admin created clinician: " +:+ default "" email))
          (remote_addr request) ;;;
        flash ("Clinician " +:+ default "" email +:+ " created successfully")
          "success" ;;;
        ret (RedirectTo "admin_dashboard")
  else ret (RedirectTo "admin_dashboard"))).

(** [seed_defaults()] *)
Definition seed_defaults : M unit :=
  admin <- first_user_by_email "admin@example.com" ;;
  (if bool_decide (is_Some admin) then ret tt
   else
     add_user "admin@example.com" (generate_password_hash env "admin123")
       "admin" ;;;
     ret tt) ;;;
  clinician <- first_user_by_email "clinician@example.com" ;;
  (if bool_decide (is_Some clinician) then ret tt
   else
     add_user "clinician@example.com"
       (generate_password_hash env "password123") "clinician" ;;;
     ret tt) ;;;
  patient <- first_user_by_email "patient@example.com" ;;
  (if bool_decide (is_Some patient) then ret tt
   else
     patient_id <- add_user "patient@example.com"
                     (generate_password_hash env "password123") "patient" ;;
     flush ;;;
     profile <- profile_of patient_id ;;
     if bool_decide (is_Some profile) then ret tt
     else add_profile patient_id "John" "Doe" "John Doe") ;;;
  commit.

(** The start of the application: the seeding runs in an application
    context, whose session is removed afterwards. *)
Definition run_seed_defaults (s : server) : server :=
  match seed_defaults (mkWorld (db s) (db s) (clock_ticks s) (flashed s)) with
  | (_, w) => mkServer (committed w) (ticks w) (flashes w)
  end.

(** [api_predict()]; the literal [0.7] is the binary64 value nearest to it,
    as in Python. *)
#[warnings="-inexact-float"]
Definition api_predict (ctx : context) : M response :=
  login_required ctx (λ current_user,
  let request := req ctx in
  payload <- get_json request ;;
  let model_service :=
    if federated_is_available (ml env) then federated_predict (ml env)
    else standard_predict (ml env) in
  r <- lift ServiceError (model_service payload) ;;
  let '(pred, prob, features_order) := r in
  add_prediction (u_id current_user) pred prob ;;;
  commit ;;;
  (if PrimFloat.leb 0.7 prob then
     add_alert (u_id current_user)
       ("High diabetes risk: " +:+ Py.format_2f prob) "high" ;;;
     commit
   else ret tt) ;;;
  log_audit request (Some (u_id current_user)) "prediction_made"
    (Some ("Risk prediction: " +:+ Py.format_int pred +:+ ", probability: "
           +:+ Py.format_2f prob))
    (remote_addr request) ;;;
  ret (JsonPrediction pred prob features_order)).

(** A row of the upload as the handler keeps it:
    [{'timestamp': row.get('timestamp'),
      'glucose': float(row.get('glucose', '0') or 0)}] *)
Record cgm_row := mkCgmRow {
  cr_timestamp : option string;
  cr_glucose : float
}.

Definition read_cgm_row (row : gmap string string) : M cgm_row :=
  let glucose := default "0" (row !! "glucose") in
  g <- (if falsy (Some glucose) then ret 0%float
        else lift ValueError (float_of_str env glucose)) ;;
  ret (mkCgmRow (row !! "timestamp") g).

Fixpoint read_cgm_rows (rows : list (gmap string string)) : M (list cgm_row) :=
  match rows with
  | [] => ret []
  | row :: rows' =>
      r <- read_cgm_row row ;;
      rs <- read_cgm_rows rows' ;;
      ret (r :: rs)
  end.

Definition read_upload (file : upload) : M (list cgm_row) :=
  match file with
  | Unreadable => raise UnicodeDecodeError
  | CsvRows rows => read_cgm_rows rows
  end.

(** The timestamp of an uploaded reading (lines 297 to 309). *)
Definition parse_cgm_timestamp (ts_str : option string) : M Py.datetime :=
  match ts_str with
  | Some ts_str =>
      try_except
        (lift ValueError (fromisoformat env (Py.replace "Z"%char "+00:00" ts_str)))
        (λ _,
           try_except
             (lift ValueError (strptime env ts_str "%Y-%m-%d %H:%M:%S"))
             (λ _, lift ValueError (strptime env ts_str "%Y-%m-%dT%H:%M:%S")))
  | None => datetime_now
  end.

(** The body of the loop that stores the uploaded readings. *)
Definition store_cgm_reading (user : User) (reading : cgm_row) : M unit :=
  try_except
    (ts <- parse_cgm_timestamp (cr_timestamp reading) ;;
     existing <- first_reading (u_id user) ts "cgm" ;;
     if bool_decide (is_Some existing) then ret tt
     else add_reading (u_id user) ts (cr_glucose reading) "cgm")
    (λ e, ret tt).

Definition cgm_row_value (r : cgm_row) : Py.value :=
  Py.VDict [("timestamp", from_option Py.VStr Py.VNone (cr_timestamp r));
            ("glucose", Py.VFloat (cr_glucose r))].

Definition db_reading_value (r : GlucoseReading) : Py.value :=
  Py.VDict [("timestamp", Py.VStr (isoformat env (gr_timestamp r)));
            ("glucose", Py.VFloat (gr_glucose r))].

(** [data.get('readings', [])] *)
Definition get_readings (data : Py.value) : M Py.value :=
  match data with
  | Py.VDict items => ret (Py.dict_get items "readings" (Py.VList []))
  | _ => raise AttributeError
  end.

(** The body of the loop that caches the forecast points. *)
Definition cache_forecast_point (user : User) (now : Py.datetime)
    (pt : forecast_point) : M unit :=
  ts <- match pt_timestamp pt with
        | Py.VStr s => lift ValueError (fromisoformat env s)
        | _ => ret now
        end ;;
  add_reading (u_id user) ts (pt_glucose pt) "forecast".

(** The readings to forecast from (lines 335 to 339): those of the request
    or, when it has none, the user's latest 50 stored ones, oldest first. *)
Definition readings_or_stored (user : User) (data : Py.value) : M Py.value :=
  readings <- get_readings data ;;
  if negb (Py.truthy readings) then
    t <- query ;;
    let db_readings :=
      take 50 (order_by_timestamp_desc env (readings_of (u_id user) t)) in
    ret (Py.VList (db_reading_value <$> reverse db_readings))
  else ret readings.

(** [api_forecast()] from line 335 on. *)
Definition forecast_and_cache (user : User) (data : Py.value)
    (cgm_uploaded : bool) : M response :=
  readings <- readings_or_stored user data ;;
  forecast_points <- lift ServiceError (forecast_glucose (ml env) readings) ;;
  now <- datetime_now ;;
  for_each forecast_points (cache_forecast_point user now) ;;;
  commit ;;;
  ret (JsonForecast forecast_points cgm_uploaded).

(** [api_forecast()] *)
Definition api_forecast (ctx : context) : M response :=
  login_required ctx (λ current_user,
  let request := req ctx in
  if is_json request then
    data <- get_json request ;;
    forecast_and_cache current_user data false
  else
    match files request !! "file" with
    | Some file =>
        readings <- read_upload file ;;
        for_each readings (store_cgm_reading current_user) ;;;
        commit ;;;
        log_audit request (Some (u_id current_user)) "cgm_uploaded"
          (Some ("CGM data uploaded: "
                 +:+ Py.format_int (Z.of_nat (length readings)) +:+ " readings"))
          (remote_addr request) ;;;
        forecast_and_cache current_user
          (Py.VDict [("readings", Py.VList (cgm_row_value <$> readings))]) true
    | None => ret (JsonError "No data provided" 400)
    end).

End handlers.

End App.

(** *** Vocabulary of the properties *)
Module Spec.
Import Db App.

(** The three roles of [models.py]. *)
Definition valid_role (role : string) : Prop :=
  role = "patient" ∨ role = "clinician" ∨ role = "admin".

(** The stored readings of a user at a stored timestamp that came from an
    upload. *)
Definition is_cgm_at (user_id : Z) (t : Py.datetime) (r : GlucoseReading) : Prop :=
  gr_user_id r = user_id ∧ gr_timestamp r = t ∧ gr_source r = "cgm".

#[global] Instance is_cgm_at_dec user_id t r : Decision (is_cgm_at user_id t r).
Proof. unfold is_cgm_at. apply _. Defined.

Definition count_cgm_at (user_id : Z) (t : Py.datetime)
    (rs : list GlucoseReading) : nat :=
  length (filter (is_cgm_at user_id t) rs).

Definition cgm_count (user_id : Z) (t : Py.datetime) (tbl : tables) : nat :=
  count_cgm_at user_id t (readings tbl).

(** How a count moves along a step that adds a [cgm] reading only where
    there was none: it stays, or it goes from zero to one. *)
Definition count_kept (uid : Z) (rs rs' : list GlucoseReading) : Prop :=
  ∀ t, count_cgm_at uid t rs' = count_cgm_at uid t rs ∨
       (count_cgm_at uid t rs = 0%nat ∧ count_cgm_at uid t rs' = 1%nat).

(** The tables with the readings replaced. *)
Definition with_readings (t : tables) (rs : list GlucoseReading) : tables :=
  mkTables (users t) (profiles t) rs (predictions t) (alerts t) (audit_logs t).

(** The first of the attempts, in order, that gives a value. *)
Fixpoint first_success {A} (attempts : list (option A)) : option A :=
  match attempts with
  | [] => None
  | Some a :: _ => Some a
  | None :: rest => first_success rest
  end.

(** Following the documentation: ISO-8601 with [Z] rewritten to [+00:00],
    then [%Y-%m-%d %H:%M:%S], then [%Y-%m-%dT%H:%M:%S]. *)
Definition timestamp_attempts (env : environment) (ts_str : string)
    : list (option Py.datetime) :=
  [fromisoformat env (Py.replace "Z"%char "+00:00" ts_str);
   strptime env ts_str "%Y-%m-%d %H:%M:%S";
   strptime env ts_str "%Y-%m-%dT%H:%M:%S"].

(** A reading of an upload at time [ts] is added as a [cgm] reading unless
    the user has one at that time as the store keeps it; in a session that
    cannot flush the look-up raises and the reading is passed over. *)
Definition add_unless_present (user : User) (ts : Py.datetime)
    (glucose : float) (w : world) : world :=
  if failing w then w
  else if bool_decide (Exists (is_cgm_at (u_id user) (as_stored ts))
                         (readings (session w)))
  then w
  else (add_reading (u_id user) ts glucose "cgm" w).2.

(** What becomes of one uploaded row in world [w]: a row without a
    timestamp string takes the clock's time, a row whose string parses takes
    the parsed time, and either is added unless present; a row whose string
    fails every attempt is skipped. *)
Definition stored_row (env : environment) (user : User) (row : cgm_row)
    (w : world) : world :=
  match cr_timestamp row with
  | None =>
      add_unless_present user (clock env (ticks w)) (cr_glucose row)
        (datetime_now env w).2
  | Some ts_str =>
      match first_success (timestamp_attempts env ts_str) with
      | Some ts => add_unless_present user ts (cr_glucose row) w
      | None => w
      end
  end.

(** The calls of the clock that the ingestion of the rows makes: one for
    each row without a timestamp string. *)
Definition clock_reads (rows : list cgm_row) : nat :=
  length (filter (λ row, cr_timestamp row = None) rows).

(** A row that the ingestion skips: its timestamp is a string that fails
    every attempt. *)
Definition skipped (env : environment) (row : cgm_row) : Prop :=
  ∃ ts_str, cr_timestamp row = Some ts_str ∧
            first_success (timestamp_attempts env ts_str) = None.

#[global] Instance skipped_dec env row : Decision (skipped env row).
Proof.
  unfold skipped. destruct (cr_timestamp row) as [ts_str|].
  - destruct (first_success (timestamp_attempts env ts_str)) as [t|] eqn:E.
    + right. intros (s & [= <-] & H). congruence.
    + left. by exists ts_str.
  - right. by intros (s & [=] & _).
Defined.

(** Every glucose value of the rows is a number that the store takes. *)
Definition numbers (rows : list cgm_row) : Prop :=
  Forall (λ row, storable_float (cr_glucose row) = true) rows.

(** The rows of a readable upload as the handler keeps them, when every
    glucose cell converts. *)
Definition cgm_row_of (env : environment) (row : gmap string string)
    : option cgm_row :=
  let glucose := default "0" (row !! "glucose") in
  g ← (if falsy (Some glucose) then Some 0%float else float_of_str env glucose);
  Some (mkCgmRow (row !! "timestamp") g).

Definition rows_of_upload (env : environment) (file : upload)
    : option (list cgm_row) :=
  match file with
  | Unreadable => None
  | CsvRows rows => mapM (cgm_row_of env) rows
  end.

(** The request with other uploaded files. *)
Definition with_files (fs : gmap string upload) (ctx : context) : context :=
  mkContext
    (mkRequest (method (req ctx)) (form (req ctx)) (is_json (req ctx))
       (json (req ctx)) fs (remote_addr (req ctx)))
    (current_user ctx).

(** The timestamp the caching gives a point: the point's own when that is
    a string ([None]: the string does not parse), [now] for any other
    value. *)
Definition point_time (env : environment) (now : Py.datetime)
    (pt : forecast_point) : option Py.datetime :=
  match pt_timestamp pt with
  | Py.VStr s => fromisoformat env s
  | _ => Some now
  end.

(** A stored reading caches a forecast point for [user]: it carries the
    point's glucose value and, as the store keeps it, the point's own
    timestamp when that is a string (which then has parsed), [now]
    otherwise. *)
Definition caches (env : environment) (user : User) (now : Py.datetime)
    (pt : forecast_point) (r : GlucoseReading) : Prop :=
  gr_user_id r = u_id user ∧ gr_source r = "forecast" ∧
  gr_glucose r = pt_glucose pt ∧
  ∃ ts, point_time env now pt = Some ts ∧ gr_timestamp r = as_stored ts.

End Spec.

(** *** Sample inputs *)

(** A five-row source file, and the 100-row source of the documentation's
    example. *)
Definition sample_frame : Partition.DataFrame :=
  {| Partition.columns := ["Glucose"; "Outcome"];
     Partition.rows :=
       [["85"; "0"]; ["168"; "1"]; ["122"; "0"]; ["97"; "0"]; ["180"; "1"]] |}.

Definition sample_files : Partition.filesystem :=
  {[ "data/pima_sample.csv" := sample_frame ]}.

Definition hundred_rows : Partition.DataFrame :=
  {| Partition.columns := ["Glucose"];
     Partition.rows := (λ i, [pretty i]) <$> seqZ 0 100 |}.

(** An environment for the examples: a clock that advances by a second per
    call, and library calls given by their values on the strings the
    examples use (any other string is rejected). *)
Definition sample_clock (n : nat) : Py.datetime :=
  Py.mk_datetime 2024 5 1 12 0 (Z.of_nat n) 0 None.

Definition morning : Py.datetime := Py.mk_datetime 2024 1 1 8 0 0 0 None.
Definition morning_utc : Py.datetime := Py.mk_datetime 2024 1 1 8 0 0 0 (Some 0).
Definition later : Py.datetime := Py.mk_datetime 2024 1 1 8 5 0 0 None.
Definition noon : Py.datetime := Py.mk_datetime 2024 1 1 12 0 0 0 None.

Definition sample_fromisoformat (s : string) : option Py.datetime :=
  if String.eqb s "2024-01-01T08:00:00" then Some morning
  else if String.eqb s "2024-01-01T08:00:00+00:00" then Some morning_utc
  else if String.eqb s "2024-01-01 08:05:00" then Some later
  else if String.eqb s "2024-01-01T12:00:00" then Some noon
  else None.

Definition sample_strptime (s format : string) : option Py.datetime :=
  if String.eqb format "%Y-%m-%d %H:%M:%S" then
    if String.eqb s "2024-01-01 08:05:00" then Some later
    else if String.eqb s "2024-1-1 8:05:00" then Some later
    else None
  else if String.eqb format "%Y-%m-%dT%H:%M:%S" then
    if String.eqb s "2024-01-01T08:00:00" then Some morning
    else if String.eqb s "2024-1-1T12:00:00" then Some noon
    else None
  else None.

Definition sample_two_digits (n : Z) : string :=
  if n <? 10 then "0" +:+ pretty n else pretty n.

(** [isoformat] of a naive value without microseconds, years from 1000 *)
Definition sample_isoformat (d : Py.datetime) : string :=
  pretty (Py.year d) +:+ "-" +:+ sample_two_digits (Py.month d) +:+ "-"
  +:+ sample_two_digits (Py.day d) +:+ "T" +:+ sample_two_digits (Py.hour d)
  +:+ ":" +:+ sample_two_digits (Py.minute d) +:+ ":"
  +:+ sample_two_digits (Py.second d).

Definition sample_float_of_str (s : string) : option float :=
  if String.eqb s "0" then Some 0%float
  else if String.eqb s "110" then Some 110%float
  else if String.eqb s "95.5" then Some 95.5%float
  else if String.eqb s "140" then Some 140%float
  else if String.eqb s "nan" then Some nan
  else None.

(** Seconds since the start of the year, enough to order the sample
    timestamps. *)
Definition sample_key (d : Py.datetime) : Z :=
  ((((Py.year d * 12 + Py.month d) * 31 + Py.day d) * 24 + Py.hour d) * 60
   + Py.minute d) * 60 + Py.second d.

Fixpoint sample_insert_desc (r : Db.GlucoseReading)
    (l : list Db.GlucoseReading) : list Db.GlucoseReading :=
  match l with
  | [] => [r]
  | x :: l' =>
      if sample_key (Db.gr_timestamp x) <? sample_key (Db.gr_timestamp r)
      then r :: l else x :: sample_insert_desc r l'
  end.

Definition sample_order_desc (l : list Db.GlucoseReading)
    : list Db.GlucoseReading :=
  foldr sample_insert_desc [] l.

Definition sample_features : list string :=
  ["Pregnancies"; "Glucose"; "BloodPressure"; "SkinThickness"; "Insulin";
   "BMI"; "DiabetesPedigreeFunction"; "Age"].

(** A stand-in classifier: high risk from a glucose entry of 140 on. *)
Definition sample_predict (payload : Py.value)
    : option (Z * float * list string) :=
  match payload with
  | Py.VDict items =>
      match Py.dict_get items "Glucose" Py.VNone with
      | Py.VInt g =>
          if 140 <=? g then Some (1, 0.875%float, sample_features)
          else Some (0, 0.125%float, sample_features)
      | _ => None
      end
  | _ => None
  end.

(** A stand-in forecaster: two points, the second without a timestamp
    string. *)
Definition sample_forecast (readings : Py.value)
    : option (list App.forecast_point) :=
  match readings with
  | Py.VList _ =>
      Some [App.mkPoint (Py.VStr "2024-01-01T12:00:00") 118%float;
            App.mkPoint Py.VNone 121%float]
  | _ => None
  end.

Definition sample_env : App.environment :=
  {| App.clock := sample_clock;
     App.fromisoformat := sample_fromisoformat;
     App.strptime := sample_strptime;
     App.isoformat := sample_isoformat;
     App.float_of_str := sample_float_of_str;
     App.generate_password_hash := λ p, "hash:" +:+ p;
     App.order_by_timestamp_desc := sample_order_desc;
     App.ml :=
       {| App.federated_is_available := false;
          App.federated_predict := λ _, None;
          App.standard_predict := sample_predict;
          App.forecast_glucose := sample_forecast |} |}.

Definition patient_zero : Db.User :=
  Db.mkUser 1 "patient@example.com" "hash:password123" "patient".

Definition admin_zero : Db.User :=
  Db.mkUser 2 "admin@example.com" "hash:admin123" "admin".

Definition sample_server : App.server :=
  {| App.db := Db.mkTables [patient_zero; admin_zero] [] [] [] [] [];
     App.clock_ticks := 0;
     App.flashed := [] |}.

Definition json_request (body : Py.value) : App.request :=
  {| App.method := "POST"; App.form := ∅; App.is_json := true;
     App.json := Some body; App.files := ∅;
     App.remote_addr := Some "127.0.0.1" |}.

Definition form_request (fields : list (string * string)) : App.request :=
  {| App.method := "POST"; App.form := list_to_map fields;
     App.is_json := false; App.json := None; App.files := ∅;
     App.remote_addr := Some "127.0.0.1" |}.

Definition upload_request (rows : list (list (string * string))) : App.request :=
  {| App.method := "POST"; App.form := ∅; App.is_json := false;
     App.json := None;
     App.files := {[ "file" := App.CsvRows (list_to_map <$> rows) ]};
     App.remote_addr := Some "127.0.0.1" |}.

Definition empty_request : App.request :=
  {| App.method := "POST"; App.form := ∅; App.is_json := false;
     App.json := None; App.files := ∅;
     App.remote_addr := Some "127.0.0.1" |}.

Definition as_patient (r : App.request) : App.context :=
  App.mkContext r (Some patient_zero).

Definition as_admin (r : App.request) : App.context :=
  App.mkContext r (Some admin_zero).

Definition anonymous (r : App.request) : App.context :=
  App.mkContext r None.

Definition high_risk_payload : Py.value :=
  Py.VDict [("Glucose", Py.VInt 168); ("BMI", Py.VFloat 33.5%float)].

Definition good_form : App.request :=
  form_request [("email", "ana@example.com"); ("password", "secret1");
                ("confirm_password", "secret1"); ("first_name", "  Ana ");
                ("last_name", "Lopez")].

Definition short_password_form : App.request :=
  form_request [("email", "ana@example.com"); ("password", "abc");
                ("confirm_password", "abc"); ("first_name", "Ana");
                ("last_name", "Lopez")].

(** An upload of four rows: two with the same timestamp, one whose
    timestamp is no date, one without a timestamp. *)
Definition sample_upload : App.request :=
  upload_request
    [[("timestamp", "2024-01-01T08:00:00"); ("glucose", "110")];
     [("timestamp", "2024-01-01T08:00:00"); ("glucose", "95.5")];
     [("timestamp", "not a date"); ("glucose", "140")];
     [("glucose", "140")]].

Definition no_date_upload : App.request :=
  upload_request [[("timestamp", "not a date"); ("glucose", "110")]].

Definition sample_world : Db.world :=
  Db.mkWorld (App.db sample_server) (App.db sample_server) 0 [].

Definition sample_readings : Py.value :=
  Py.VDict
    [("readings",
      Py.VList [Py.VDict [("timestamp", Py.VStr "2024-01-01T08:00:00");
                          ("glucose", Py.VInt 110)]])].

(** A JSON request that also carries a file. *)
Definition json_with_file : App.request :=
  {| App.method := "POST"; App.form := ∅; App.is_json := true;
     App.json := Some sample_readings;
     App.files := App.files sample_upload;
     App.remote_addr := Some "127.0.0.1" |}.

Definition sample_points : list App.forecast_point :=
  [App.mkPoint (Py.VStr "2024-01-01T12:00:00") 118%float;
   App.mkPoint Py.VNone 121%float].

(** *** The configuration at the head of [app.py] *)
Module Config.

(** The string without its first [n] characters. *)
Fixpoint skip (n : nat) (s : string) : string :=
  match n, s with
  | S n', String _ s' => skip n' s'
  | _, _ => s
  end.

(** [s.startswith(prefix)] *)
Definition startswith (s prefix : string) : bool := String.prefix prefix s.

(** [s.replace(old, new, 1)]: the first occurrence only *)
Fixpoint replace_first (old new s : string) : string :=
  if String.prefix old s then new +:+ skip (String.length old) s
  else match s with
       | String c s' => String c (replace_first old new s')
       | EmptyString => EmptyString
       end.

(** The value of [SQLALCHEMY_DATABASE_URI] (lines 24 to 30) for the
    variable [DATABASE_URL] ([None]: unset) and the path of the local
    database file. *)
Definition database_uri (database_url : option string) (db_path : string)
    : string :=
  match database_url with
  | Some url =>
      if negb (String.eqb url "") then
        if startswith url "postgres://"
        then replace_first "postgres://" "postgresql://" url
        else url
      else "sqlite:///" +:+ db_path
  | None => "sqlite:///" +:+ db_path
  end.

End Config.

(** *** The other handlers of [app.py] and the accessor of [models.py] *)
Module Pages.
Import Db App.
Local Open Scope prog_scope.

(** Modelled from the spec: [explain_prediction] of the package [ml], whose
    files are not among the sources. It gives the attribution values for a
    payload and a feature order ([None]: the call raises); the model it
    explains is the one of the standard service. *)
Record explainer := mkExplainer {
  explain_prediction : Py.value → list string → option Py.value
}.

(** Further library calls: [check_password_hash] on a stored hash and the
    submitted password ([None] for a missing password, and for the call
    raising), the orderings of the store that the pages ask for, the text
    [csv.writer] writes for a float, and what the session does to the
    tables when a user is deleted and committed ([None]: the commit
    raises). *)
Record libraries := mkLibraries {
  check_password_hash : string → option string → option bool;
  order_by_timestamp_asc : list GlucoseReading → list GlucoseReading;
  predictions_by_created_at_desc : list RiskPrediction → list RiskPrediction;
  alerts_by_created_at_desc : list Alert → list Alert;
  logs_by_created_at_desc : list AuditLog → list AuditLog;
  users_by_created_at_desc : list User → list User;
  float_repr : float → string;
  delete_and_commit : User → tables → option tables
}.

(** What [login_user] and [logout_user] do to the session cookie. *)
Inductive cookie :=
| Unchanged
| SignedIn (user_id : Z)
| SignedOut.

(** The answers of the pages that carry data; [Plain] is an answer of the
    handlers modelled before. *)
Inductive page :=
| Plain (r : response)
| PatientPage (readings : list GlucoseReading)
    (predictions : list RiskPrediction) (alerts : list Alert)
| ClinicianPage (patients : list User)
    (latest_predictions : list (Z * option RiskPrediction))
| AdminPage (total_users total_patients total_clinicians total_admins : Z)
    (audit_logs : list AuditLog) (users : list User)
| CsvDownload (download_name mimetype : string) (rows : list (list string))
| JsonExplanation (prediction : Z) (probability : float)
    (shap_values : Py.value) (features : list string).

(** One request, as [dispatch], for a handler with answers of type [A];
    [plain] embeds the error pages. *)
Definition dispatch_as {A} (plain : response → A) (handler : M A)
    (s : server) : A * server :=
  match handler (mkWorld (db s) (db s) (clock_ticks s) (flashed s)) with
  | (r, w) =>
      (match r with
       | Ok a => a
       | Raise BadRequest => plain (ErrorPage 400)
       | Raise _ => plain (ErrorPage 500)
       end,
       mkServer (committed w) (ticks w) (flashes w))
  end.

(** [PatientProfile.get_full_name]; a column without a value reads as the
    empty string, which the tests of the method treat alike. *)
Definition get_full_name (p : PatientProfile) : option string :=
  if negb (falsy (Some (pp_first_name p))) && negb (falsy (Some (pp_last_name p)))
  then Some (pp_first_name p +:+ " " +:+ pp_last_name p)
  else if negb (falsy (Some (pp_name p))) then Some (pp_name p)
  else None.

(** [get_user_display_name(user)] *)
Definition get_user_display_name (user : User) : M string :=
  if bool_decide (u_role user = "patient") then
    profile <- profile_of (u_id user) ;;
    match profile with
    | Some profile =>
        let name := get_full_name profile in
        if negb (falsy name) then ret (default "" name) else ret (u_email user)
    | None => ret (u_email user)
    end
  else ret (u_email user).

(** [f"{v}"] for an optional string *)
Definition format_opt (v : option string) : string := default "None" v.

Section pages.
Context (env : environment) (lib : libraries) (ex : explainer).

(** [@login_required] and [@role_required] around a view with answers of
    type [A]. *)
Definition login_required_as {A} (plain : response → A) (ctx : context)
    (view : User → M A) : M A :=
  match current_user ctx with
  | Some user => view user
  | None =>
      flash "Please log in to access this page." "message" ;;;
      ret (plain (RedirectTo "login"))
  end.

Definition role_required_as {A} (plain : response → A) (roles : list string)
    (ctx : context) (view : User → M A) : M A :=
  match current_user ctx with
  | None => ret (plain (RedirectTo "login"))
  | Some user =>
      if bool_decide (u_role user ∈ roles) then view user
      else flash "Unauthorized" "error" ;;; ret (plain (RedirectTo "index"))
  end.

(** [index()] *)
Definition index (ctx : context) : M response :=
  login_required ctx (λ current_user,
  if bool_decide (u_role current_user = "admin") then
    ret (RedirectTo "admin_dashboard")
  else if bool_decide (u_role current_user = "clinician") then
    ret (RedirectTo "clinician_dashboard")
  else ret (RedirectTo "patient_dashboard")).

(** [login()]; the query for an absent email finds no user. *)
Definition login (ctx : context) : M (response * cookie) :=
  let request := req ctx in
  if bool_decide (method request = "POST") then
    let email := form request !! "email" in
    let password := form request !! "password" in
    user <- match email with
            | Some email => first_user_by_email email
            | None => ret None
            end ;;
    ok <- match user with
          | Some user =>
              lift AttributeError
                (check_password_hash lib (u_password_hash user) password)
          | None => ret false
          end ;;
    match user with
    | Some user =>
        if ok then
          log_audit request (Some (u_id user)) "user_login"
            (Some ("User " +:+ format_opt email +:+ " logged in"))
            (remote_addr request) ;;;
          ret (RedirectTo "index", SignedIn (u_id user))
        else
          log_audit request None "login_failed"
            (Some ("Failed login attempt for " +:+ format_opt email))
            (remote_addr request) ;;;
          flash "Invalid credentials" "error" ;;;
          ret (Template "login.html", Unchanged)
    | None =>
        log_audit request None "login_failed"
          (Some ("Failed login attempt for " +:+ format_opt email))
          (remote_addr request) ;;;
        flash "Invalid credentials" "error" ;;;
        ret (Template "login.html", Unchanged)
    end
  else ret (Template "login.html", Unchanged).

(** [logout()] *)
Definition logout (ctx : context) : M (response * cookie) :=
  login_required_as (λ r, (r, Unchanged)) ctx (λ current_user,
  log_audit (req ctx) (Some (u_id current_user)) "user_logout"
    (Some ("User " +:+ u_email current_user +:+ " logged out"))
    (remote_addr (req ctx)) ;;;
  ret (RedirectTo "login", SignedOut)).

(** [patient_dashboard()] *)
Definition patient_dashboard (ctx : context) : M page :=
  login_required_as Plain ctx (λ _,
  role_required_as Plain ["patient"] ctx (λ current_user,
  t <- query ;;
  let readings :=
    take 100 (order_by_timestamp_desc env (readings_of (u_id current_user) t)) in
  let predictions :=
    take 20 (predictions_by_created_at_desc lib
               (filter (λ p, rp_user_id p = u_id current_user) (predictions t))) in
  let alerts :=
    take 10 (alerts_by_created_at_desc lib
               (filter (λ a, al_user_id a = u_id current_user) (alerts t))) in
  ret (PatientPage readings predictions alerts))).

(** [clinician_dashboard()] *)
Definition clinician_dashboard (ctx : context) : M page :=
  login_required_as Plain ctx (λ _,
  role_required_as Plain ["clinician"] ctx (λ _,
  t <- query ;;
  let patients := filter (λ u, u_role u = "patient") (users t) in
  let latest_predictions :=
    (λ p, (u_id p,
           head (predictions_by_created_at_desc lib
                   (filter (λ r, rp_user_id r = u_id p) (predictions t)))))
    <$> patients in
  ret (ClinicianPage patients latest_predictions))).

(** [export_patient_csv(patient_id)]: the rows handed to the writer, a
    float cell as the writer converts it. *)
Definition export_patient_csv (patient_id : Z) (ctx : context) : M page :=
  login_required_as Plain ctx (λ _,
  role_required_as Plain ["clinician"] ctx (λ _,
  t <- query ;;
  let readings := order_by_timestamp_asc lib (readings_of patient_id t) in
  let rows :=
    ["timestamp"; "glucose"]
    :: ((λ r, [isoformat env (gr_timestamp r); float_repr lib (gr_glucose r)])
        <$> readings) in
  let filename := "patient_" +:+ Py.format_int patient_id +:+ "_glucose.csv" in
  ret (CsvDownload filename "text/csv" rows))).

(** [api_explain()] *)
Definition api_explain (ctx : context) : M page :=
  login_required_as Plain ctx (λ _,
  payload <- get_json (req ctx) ;;
  r <- lift ServiceError (standard_predict (ml env) payload) ;;
  let '(pred, prob, features_order) := r in
  shap_values <- lift ServiceError
                   (explain_prediction ex payload features_order) ;;
  ret (JsonExplanation pred prob shap_values features_order)).

(** [admin_dashboard()] *)
Definition admin_dashboard (ctx : context) : M page :=
  login_required_as Plain ctx (λ _,
  role_required_as Plain ["admin"] ctx (λ _,
  t <- query ;;
  let count_role (role : string) : Z :=
    Z.of_nat (length (filter (λ u, u_role u = role) (users t))) in
  let total_users := Z.of_nat (length (users t)) in
  let total_patients := count_role "patient" in
  let total_clinicians := count_role "clinician" in
  let total_admins := count_role "admin" in
  let audit_logs := take 100 (logs_by_created_at_desc lib (audit_logs t)) in
  let users := users_by_created_at_desc lib (users t) in
  ret (AdminPage total_users total_patients total_clinicians total_admins
         audit_logs users))).

(** [db.session.delete(user)] followed by [db.session.commit()] *)
Definition delete_then_commit (user : User) : M unit :=
  t <- get_session ;;
  t' <- lift ValueError (delete_and_commit lib user t) ;;
  set_session t' ;;;
  commit.

(** [delete_user(user_id)]; [get_or_404] answers 404 for an unknown key. *)
Definition delete_user (user_id : Z) (ctx : context) : M response :=
  login_required ctx (λ _,
  role_required ["admin"] ctx (λ current_user,
  t <- query ;;
  match head (filter (λ u, u_id u = user_id) (users t)) with
  | None => ret (ErrorPage 404)
  | Some user =>
      if bool_decide (u_id user = u_id current_user) then
        flash "You cannot delete your own account" "error" ;;;
        ret (RedirectTo "admin_dashboard")
      else
        let email := u_email user in
        delete_then_commit user ;;;
        log_audit (req ctx) (Some (u_id current_user)) "user_deleted"
          (Some ("Admin deleted user: " +:+ email)) (remote_addr (req ctx)) ;;;
        flash ("User " +:+ email +:+ " deleted successfully") "success" ;;;
        ret (RedirectTo "admin_dashboard")
  end)).

End pages.

(** The views behind the endpoints the landing page redirects to. *)
Definition dashboard_of (env : environment) (lib : libraries)
    (endpoint : string) : option (context → M page) :=
  if String.eqb endpoint "admin_dashboard" then Some (admin_dashboard lib)
  else if String.eqb endpoint "clinician_dashboard"
       then Some (clinician_dashboard lib)
  else if String.eqb endpoint "patient_dashboard"
       then Some (patient_dashboard env lib)
  else None.

End Pages.

(** *** Vocabulary of the further properties *)
Module Spec2.
Import Db App.

(** Every table of [t'] starts with the rows of the same table of [t]:
    rows were added at the end, none removed or changed. *)
Definition grows (t t' : tables) : Prop :=
  users t `prefix_of` users t' ∧
  profiles t `prefix_of` profiles t' ∧
  readings t `prefix_of` readings t' ∧
  predictions t `prefix_of` predictions t' ∧
  alerts t `prefix_of` alerts t' ∧
  audit_logs t `prefix_of` audit_logs t'.

(** No two users share an email. *)
Definition unique_emails (t : tables) : Prop := NoDup (u_email <$> users t).

(** An account with this email is stored. *)
Definition has_account (email : string) (t : tables) : Prop :=
  email ∈ u_email <$> users t.

(** The tables with the audit log replaced. *)
Definition with_audit_logs (t : tables) (logs : list AuditLog) : tables :=
  mkTables (users t) (profiles t) (readings t) (predictions t) (alerts t) logs.

(** The entry [log_audit] adds to the tables [t]. *)
Definition audit_entry (t : tables) (user_id : option Z) (action : string)
    (details : string) (ip_address : option string) : AuditLog :=
  mkAuditLog (fresh_id (log_id <$> audit_logs t)) user_id action
    (Some details) ip_address.

(** Every timestamp string among the points parses. *)
Definition timestamps_parse (env : environment) (pts : list forecast_point)
    : Prop :=
  Forall (λ pt, match pt_timestamp pt with
                | Py.VStr s => is_Some (fromisoformat env s)
                | _ => True
                end) pts.

(** The stored readings handed to the forecast when the request has none. *)
Definition stored_readings_value (env : environment) (user : User)
    (t : tables) : Py.value :=
  Py.VList
    (db_reading_value env
     <$> reverse (take 50 (order_by_timestamp_desc env
                             (readings_of (u_id user) t)))).

End Spec2.

(** *** Further sample inputs *)

Definition stale_files : Partition.filesystem :=
  <[ Partition.client_file 1 := Partition.mkDataFrame ["Glucose"] [["1"]] ]>
    sample_files.

(** An environment whose federated service is available and raises, and
    whose forecast raises. *)
Definition silent_env : App.environment :=
  App.mkEnvironment sample_clock sample_fromisoformat sample_strptime
    sample_isoformat sample_float_of_str (λ p, "hash:" +:+ p)
    sample_order_desc
    (App.mkServices true (λ _, None) sample_predict (λ _, None)).

(** An environment whose federated service is available and answers high
    risk for every payload. *)
Definition federated_env : App.environment :=
  App.mkEnvironment sample_clock sample_fromisoformat sample_strptime
    sample_isoformat sample_float_of_str (λ p, "hash:" +:+ p)
    sample_order_desc
    (App.mkServices true (λ _, Some (1, 0.875%float, sample_features))
       sample_predict sample_forecast).

Definition low_risk_payload : Py.value := Py.VDict [("Glucose", Py.VInt 100)].

(** Library calls for the examples: a hash matches the password it was
    made from; the store removes a user who has no profile and clears the
    user of that user's audit entries, and refuses a user with a profile. *)
Definition sample_check_password_hash (hash : string)
    (password : option string) : option bool :=
  match password with
  | Some p => Some (String.eqb hash ("hash:" +:+ p))
  | None => None
  end.

Definition sample_float_repr (x : float) : string :=
  if PrimFloat.eqb x 110%float then "110.0"
  else if PrimFloat.eqb x 95.5%float then "95.5"
  else if PrimFloat.eqb x 140%float then "140.0"
  else "0.0".

Definition sample_delete (user : Db.User) (t : Db.tables) : option Db.tables :=
  if bool_decide (Exists (λ p, Db.pp_user_id p = Db.u_id user) (Db.profiles t))
  then None
  else
    Some (Db.mkTables
            (filter (λ u, Db.u_id u ≠ Db.u_id user) (Db.users t))
            (Db.profiles t) (Db.readings t) (Db.predictions t) (Db.alerts t)
            ((λ l, if bool_decide (Db.log_user_id l = Some (Db.u_id user))
                   then Db.mkAuditLog (Db.log_id l) None (Db.log_action l)
                          (Db.log_details l) (Db.log_ip_address l)
                   else l) <$> Db.audit_logs t)).

Definition sample_lib : Pages.libraries :=
  {| Pages.check_password_hash := sample_check_password_hash;
     Pages.order_by_timestamp_asc := λ l, reverse (sample_order_desc l);
     Pages.predictions_by_created_at_desc := reverse;
     Pages.alerts_by_created_at_desc := reverse;
     Pages.logs_by_created_at_desc := reverse;
     Pages.users_by_created_at_desc := reverse;
     Pages.float_repr := sample_float_repr;
     Pages.delete_and_commit := sample_delete |}.

Definition sample_explainer : Pages.explainer :=
  {| Pages.explain_prediction :=
       λ _ features, Some (Py.VList ((λ _, Py.VInt 0) <$> features)) |}.

Definition clinician_zero : Db.User :=
  Db.mkUser 3 "clinician@example.com" "hash:clinician123" "clinician".

Definition nurse_zero : Db.User :=
  Db.mkUser 4 "nurse@example.com" "hash:nurse123" "nurse".

Definition as_clinician (r : App.request) : App.context :=
  App.mkContext r (Some clinician_zero).

Definition login_form (email password : string) : App.request :=
  form_request [("email", email); ("password", password)].

(** A server with three users, a profile for the patient, and readings,
    predictions and alerts of two owners. *)
Definition busy_server : App.server :=
  {| App.db :=
       Db.mkTables [patient_zero; admin_zero; clinician_zero]
         [Db.mkPatientProfile 1 1 "Pat" "Zero" "Pat Zero"]
         [Db.mkGlucoseReading 1 1 later 95.5%float "manual";
          Db.mkGlucoseReading 2 7 noon 140%float "manual";
          Db.mkGlucoseReading 3 1 morning 110%float "cgm"]
         [Db.mkRiskPrediction 1 1 0 0.125%float;
          Db.mkRiskPrediction 2 7 1 0.875%float;
          Db.mkRiskPrediction 3 1 1 0.875%float]
         [Db.mkAlert 1 7 "High diabetes risk: 0.88" "high"]
         [Db.mkAuditLog 1 (Some 3) "user_login"
            (Some "User clinician@example.com logged in") (Some "127.0.0.1")];
     App.clock_ticks := 4;
     App.flashed := [] |}.

(** A server whose patient has 52 readings, one a second, the [i]-th with
    the value [i]; and an environment whose forecaster answers with the
    values of the first and of the last reading it is given. *)
Definition long_server : App.server :=
  {| App.db :=
       Db.mkTables [patient_zero; admin_zero] []
         ((λ i, Db.mkGlucoseReading i 1 (Py.mk_datetime 2024 1 1 8 0 i 0 None)
                  (PrimFloat.of_uint63 (Uint63.of_Z i)) "manual")
          <$> seqZ 1 52)
         [] [] [];
     App.clock_ticks := 0;
     App.flashed := [] |}.

Definition echo_forecast (readings : Py.value)
    : option (list App.forecast_point) :=
  match readings with
  | Py.VList l =>
      Some ((λ v, App.mkPoint Py.VNone
                    match v with
                    | Py.VDict items =>
                        match Py.dict_get items "glucose" Py.VNone with
                        | Py.VFloat g => g
                        | _ => 0%float
                        end
                    | _ => 0%float
                    end)
            <$> (option_list (head l) ++ option_list (last l)))
  | _ => None
  end.

Definition echo_env : App.environment :=
  App.mkEnvironment sample_clock sample_fromisoformat sample_strptime
    sample_isoformat sample_float_of_str (λ p, "hash:" +:+ p)
    sample_order_desc
    (App.mkServices false (λ _, None) sample_predict echo_forecast).

(** An upload of one row without a timestamp whose glucose cell reads as
    NaN, one of a row without a timestamp and a row whose cell is no
    number, one of a repeated timestamp with a cell that is no number, one
    whose first row reads as NaN, and one that gives a time once as it is
    and once with the marker of UTC. *)
Definition nan_upload : App.request :=
  upload_request [[("glucose", "nan")]].

Definition absent_and_bad_upload : App.request :=
  upload_request
    [[("glucose", "110")];
     [("timestamp", "2024-01-01T08:00:00"); ("glucose", "abc")]].

Definition repeated_and_bad_upload : App.request :=
  upload_request
    [[("timestamp", "2024-01-01T08:00:00"); ("glucose", "110")];
     [("timestamp", "2024-01-01T08:00:00"); ("glucose", "95.5")];
     [("timestamp", "2024-01-01 08:05:00"); ("glucose", "abc")]].

Definition nan_first_upload : App.request :=
  upload_request
    [[("timestamp", "2024-01-01T08:00:00"); ("glucose", "nan")];
     [("timestamp", "2024-01-01T08:00:00"); ("glucose", "110")]].

Definition zulu_upload : App.request :=
  upload_request
    [[("timestamp", "2024-01-01T08:00:00"); ("glucose", "110")];
     [("timestamp", "2024-01-01T08:00:00Z"); ("glucose", "95.5")]].

(** An upload whose second row has a glucose cell that is no number. *)
Definition bad_glucose_upload : App.request :=
  upload_request
    [[("timestamp", "2024-01-01T08:00:00"); ("glucose", "110")];
     [("timestamp", "2024-01-01 08:05:00"); ("glucose", "abc")]].

(** ** Part II: properties *)

(** *** Strings and slices *)

Lemma string_length_app (s t : string) :
  String.length (s +:+ t) = (String.length s + String.length t)%nat.
Proof. induction s as [|c s IH]; simpl; [done | by rewrite IH]. Qed.

Lemma string_app_inj_r (t s1 s2 : string) : s1 +:+ t = s2 +:+ t → s1 = s2.
Proof.
  revert s2. induction s1 as [|c s1 IH]; intros [|d s2] H; simpl in H.
  - done.
  - apply (f_equal String.length) in H.
    rewrite ?string_length_app in H. simpl in H. rewrite ?string_length_app in H. lia.
  - apply (f_equal String.length) in H.
    rewrite ?string_length_app in H. simpl in H. rewrite ?string_length_app in H. lia.
  - injection H as -> H. f_equal. by apply IH.
Qed.

Lemma slice_inner {A} (l : list A) (a b : Z) :
  0 ≤ a ≤ b → b ≤ Z.of_nat (length l) →
  Py.slice l a b = take (Z.to_nat (b - a)) (drop (Z.to_nat a) l).
Proof.
  intros Hab Hb. unfold Py.slice, Py.slice_bound.
  destruct (Z.ltb_spec a 0), (Z.ltb_spec b 0); try lia.
  by rewrite !Z.min_l by lia.
Qed.

Lemma length_slice_inner {A} (l : list A) (a b : Z) :
  0 ≤ a ≤ b → b ≤ Z.of_nat (length l) →
  Z.of_nat (length (Py.slice l a b)) = b - a.
Proof.
  intros Hab Hb. rewrite slice_inner by done.
  rewrite length_take, length_drop. lia.
Qed.

(** Consecutive chunks of width [c] add up to a prefix. *)
Lemma concat_chunks {A} (l : list A) (c : Z) (n : nat) :
  0 ≤ c → Z.of_nat n * c ≤ Z.of_nat (length l) →
  concat ((λ i, Py.slice l ((i - 1) * c) ((i - 1) * c + c)) <$> seqZ 1 (Z.of_nat n))
  = take (Z.to_nat (Z.of_nat n * c)) l.
Proof.
  intros Hc. induction n as [|n IH]; intros Hn.
  - by rewrite seqZ_nil by lia.
  - rewrite seqZ_S, fmap_app, concat_app, IH by lia. simpl.
    rewrite app_nil_r, slice_inner by lia.
    replace (1 + Z.of_nat n - 1) with (Z.of_nat n) by lia.
    replace (Z.of_nat n * c + c - Z.of_nat n * c) with c by lia.
    rewrite take_take_drop. f_equal. lia.
Qed.

(** *** The partitioning utility *)

Section partition_facts.
Import Partition.

Lemma client_file_inj i j : client_file i = client_file j → i = j.
Proof.
  unfold client_file. intros H.
  apply (inj (String.app "data/pima_client_")) in H.
  apply string_app_inj_r in H.
  by apply (inj pretty) in H.
Qed.

Lemma foldl_write_other (df : DataFrame) k (l : list Z) (fs : filesystem) p :
  (∀ i, i ∈ l → p ≠ client_file i) →
  foldl (λ fs i, <[client_file i := client_df df k i]> fs) fs l !! p = fs !! p.
Proof.
  revert fs. induction l as [|x l IH]; intros fs Hp; simpl; [done|].
  rewrite IH by (intros; apply Hp; set_solver).
  apply lookup_insert_ne. intros E. by apply (Hp x); [set_solver|].
Qed.

Lemma foldl_write_lookup (df : DataFrame) k (l : list Z) (fs : filesystem) i :
  i ∈ l →
  foldl (λ fs i, <[client_file i := client_df df k i]> fs) fs l
    !! client_file i = Some (client_df df k i).
Proof.
  revert fs. induction l as [|x l IH]; intros fs Hi; simpl; [set_solver|].
  destruct (decide (i ∈ l)) as [Hl|Hl]; [by apply IH|].
  apply elem_of_cons in Hi as [Hx|Hx]; [subst i | done].
  rewrite foldl_write_other.
  - apply lookup_insert_eq.
  - intros j Hj E. apply client_file_inj in E. by subst.
Qed.

Lemma write_clients_lookup df k (fs : filesystem) i :
  1 ≤ i ≤ k → write_clients df k fs !! client_file i = Some (client_df df k i).
Proof.
  intros Hi. apply foldl_write_lookup. unfold Py.range.
  apply elem_of_seqZ. lia.
Qed.

Lemma write_clients_other df k (fs : filesystem) p :
  (∀ i, 1 ≤ i ≤ k → p ≠ client_file i) → write_clients df k fs !! p = fs !! p.
Proof.
  intros Hp. apply foldl_write_other. intros i Hi. apply Hp.
  unfold Py.range in Hi. apply elem_of_seqZ in Hi. lia.
Qed.

Lemma read_clients_written df k (fs : filesystem) :
  read_clients k (write_clients df k fs)
  = Some (client_df df k <$> Py.range 1 (k + 1)).
Proof.
  unfold read_clients. apply mapM_Some_2.
  apply Forall2_fmap_r, Forall_Forall2_diag, Forall_forall.
  intros i Hi. apply write_clients_lookup.
  unfold Py.range in Hi. apply elem_of_seqZ in Hi. lia.
Qed.

Lemma chunk_size_bounds df k :
  1 ≤ k →
  0 ≤ chunk_size df k ∧ k * chunk_size df k ≤ Z.of_nat (length (rows df)).
Proof.
  intros Hk. unfold chunk_size. split.
  - apply Z.div_pos; lia.
  - apply Z.mul_div_le. lia.
Qed.

(** The shards, in client order, concatenate to the source rows. *)
Lemma concat_client_rows df k :
  1 ≤ k →
  concat (rows <$> (client_df df k <$> Py.range 1 (k + 1))) = rows df.
Proof.
  intros Hk. destruct (chunk_size_bounds df k Hk) as [Hc Hkc].
  unfold Py.range. replace (k + 1 - 1) with (Z.of_nat (S (Z.to_nat (k - 1)))) by lia.
  rewrite seqZ_S, !fmap_app, concat_app. simpl. rewrite app_nil_r.
  rewrite <- list_fmap_compose.
  rewrite (list_fmap_ext _
    (λ i, Py.slice (rows df) ((i - 1) * chunk_size df k)
            ((i - 1) * chunk_size df k + chunk_size df k))).
  2:{ intros n i Hi. apply lookup_seqZ in Hi. simpl.
      unfold end_idx, start_idx. destruct (Z.ltb_spec i k); [done | lia]. }
  rewrite concat_chunks by nia.
  unfold end_idx, start_idx. destruct (Z.ltb_spec (1 + Z.of_nat (Z.to_nat (k - 1))) k); [lia|].
  rewrite slice_inner by nia.
  replace (1 + Z.of_nat (Z.to_nat (k - 1)) - 1) with (Z.of_nat (Z.to_nat (k - 1))) by lia.
  rewrite (take_ge (drop _ _)) by (rewrite length_drop; lia).
  apply take_drop.
Qed.

(** C5: for a source of [R] rows and [1 <= k <= R] clients the utility
    succeeds and writes the [k] client files and nothing else; shard [i] is
    the row range from [(i-1) * (R/k)] up to [i * (R/k)] (up to [R] for the
    last one), so consecutive ranges meet without overlap; shards [1..k-1]
    hold [R/k] rows each and shard [k] the remaining [R - (k-1) * (R/k)];
    read back in client order the shards concatenate to the source rows. *)
Theorem create_client_data_files_partitions
    (fs : filesystem) (main_data : string) (df : DataFrame) (k : Z) :
  fs !! main_data = Some df →
  1 ≤ k ≤ Z.of_nat (length (rows df)) →
  let R := Z.of_nat (length (rows df)) in
  let c := R `div` k in
  ∃ fs',
    create_client_data_files k main_data fs = (Returned true, fs') ∧
    (∀ p, (∀ i, 1 ≤ i ≤ k → p ≠ client_file i) → fs' !! p = fs !! p) ∧
    (∀ i, 1 ≤ i ≤ k →
       ∃ shard lo hi,
         fs' !! client_file i = Some shard ∧
         columns shard = columns df ∧
         lo = (i - 1) * c ∧ hi = (if decide (i < k) then i * c else R) ∧
         0 ≤ lo ≤ hi ∧ hi ≤ R ∧
         rows shard = take (Z.to_nat (hi - lo)) (drop (Z.to_nat lo) (rows df)) ∧
         Z.of_nat (length (rows shard))
         = (if decide (i < k) then c else R - (k - 1) * c)) ∧
    ∃ shards,
      read_clients k fs' = Some shards ∧
      Z.of_nat (length shards) = k ∧
      concat (rows <$> shards) = rows df.
Proof.
  intros Hmain Hk R c.
  destruct (chunk_size_bounds df k) as [Hc Hkc]; [lia|].
  fold R in Hkc. change (chunk_size df k) with c in Hc, Hkc.
  exists (write_clients df k fs). split; [|split; [|split]].
  - unfold create_client_data_files. rewrite Hmain.
    destruct (Z.eqb_spec k 0); [lia | done].
  - intros p Hp. by apply write_clients_other.
  - intros i Hi.
    exists (client_df df k i), ((i - 1) * c),
      (if decide (i < k) then i * c else R).
    assert (0 ≤ (i - 1) * c ∧ (i - 1) * c ≤ (if decide (i < k) then i * c else R)
            ∧ (if decide (i < k) then i * c else R) ≤ R) as (H1 & H2 & H3).
    { case_decide; nia. }
    assert (rows (client_df df k i)
            = Py.slice (rows df) ((i - 1) * c) (if decide (i < k) then i * c else R))
      as Hrows.
    { simpl. unfold end_idx, start_idx. change (chunk_size df k) with c.
      f_equal. destruct (Z.ltb_spec i k); case_decide; lia || done. }
    split; [by apply write_clients_lookup|].
    split; [done|]. split; [done|]. split; [done|]. split; [lia|]. split; [done|].
    split.
    + rewrite Hrows. apply slice_inner; [lia | done].
    + rewrite Hrows, length_slice_inner by (done || lia).
      case_decide; [lia|]. replace i with k by lia. done.
  - exists (client_df df k <$> Py.range 1 (k + 1)).
    split; [apply read_clients_written|]. split.
    + rewrite length_fmap. unfold Py.range. rewrite length_seqZ. lia.
    + apply concat_client_rows. lia.
Qed.

Lemma client_file_not_main i : client_file i ≠ "data/pima_sample.csv".
Proof.
  unfold client_file. intros E.
  apply (f_equal (String.get 10)) in E. vm_compute in E. discriminate.
Qed.

(** The inline split of the simulation driver: when no client file exists
    yet and the main dataset does, it writes the shards of the utility. *)
Lemma ensure_client_files_fresh (fs : filesystem) (df : DataFrame) (k : Z) :
  fs !! "data/pima_sample.csv" = Some df →
  (∀ i, 1 ≤ i ≤ k → fs !! client_file i = None) →
  ensure_client_files k fs = write_clients df k fs.
Proof.
  intros Hmain Hnone. unfold ensure_client_files, write_clients, Py.range.
  assert (∀ i, i ∈ seqZ 1 (k + 1 - 1) → fs !! client_file i = None) as Hl.
  { intros i Hi. apply Hnone. apply elem_of_seqZ in Hi. lia. }
  pose proof (NoDup_seqZ 1 (k + 1 - 1)) as Hnd.
  clear Hnone. revert fs Hmain Hl Hnd.
  induction (seqZ 1 (k + 1 - 1)) as [|x l IH]; intros fs Hmain Hl Hnd; [done|].
  simpl. apply NoDup_cons in Hnd as [Hx Hnd].
  unfold ensure_client_file at 2.
  rewrite (Hl x) by left. rewrite Hmain.
  apply IH; [| |done].
  - rewrite lookup_insert_ne; [done|]. apply client_file_not_main.
  - intros i Hi. rewrite lookup_insert_ne; [apply Hl; by right|].
    intros E. apply client_file_inj in E. by subst.
Qed.

Lemma create_client_data_files_partitions_witness :
  ∃ fs',
    create_client_data_files 2 "data/pima_sample.csv" sample_files
    = (Returned true, fs') ∧
    ∃ shards, read_clients 2 fs' = Some shards ∧
      concat (rows <$> shards) = rows sample_frame.
Proof.
  destruct (create_client_data_files_partitions sample_files
              "data/pima_sample.csv" sample_frame 2)
    as (fs' & H1 & _ & _ & shards & H2 & _ & H3).
  - reflexivity.
  - simpl. lia.
  - exists fs'. split; [exact H1|]. exists shards. split; [exact H2 | exact H3].
Defined.

(** The documentation's example: 100 rows over 3 clients give shards of
    33, 33 and 34 rows. *)
Example hundred_rows_three_clients :
  read_clients 3 (write_clients hundred_rows 3 ∅)
  = Some (client_df hundred_rows 3 <$> [1; 2; 3]) ∧
  (λ i, length (rows (client_df hundred_rows 3 i))) <$> [1; 2; 3]
  = [33; 33; 34]%nat.
Proof. split; vm_compute; reflexivity. Qed.

(** C10: with fewer rows than clients ([R < k], [k >= 1]) the utility still
    returns success; the chunk size is [0], the files of clients [1..k-1]
    are written with no data rows, and the file of client [k] receives all
    [R] rows. *)
Theorem create_client_data_files_more_clients_than_rows
    (fs : filesystem) (main_data : string) (df : DataFrame) (k : Z) :
  fs !! main_data = Some df →
  1 ≤ k → Z.of_nat (length (rows df)) < k →
  chunk_size df k = 0 ∧
  ∃ fs',
    create_client_data_files k main_data fs = (Returned true, fs') ∧
    (∀ i, 1 ≤ i < k →
       fs' !! client_file i = Some {| columns := columns df; rows := [] |}) ∧
    fs' !! client_file k = Some df.
Proof.
  intros Hmain Hk HR.
  assert (chunk_size df k = 0) as Hc by (apply Z.div_small; lia).
  split; [done|]. exists (write_clients df k fs). split; [|split].
  - unfold create_client_data_files. rewrite Hmain.
    destruct (Z.eqb_spec k 0); [lia | done].
  - intros i Hi. rewrite write_clients_lookup by lia.
    unfold client_df, end_idx, start_idx. rewrite Hc.
    destruct (Z.ltb_spec i k); [|lia].
    do 2 f_equal. rewrite slice_inner by lia.
    by replace ((i - 1) * 0 + 0 - (i - 1) * 0) with 0 by lia.
  - rewrite write_clients_lookup by lia.
    unfold client_df, end_idx, start_idx. rewrite Hc.
    destruct (Z.ltb_spec k k); [lia|].
    destruct df as [cols rs]. simpl. do 2 f_equal.
    rewrite slice_inner by (simpl; lia).
    replace ((k - 1) * 0) with 0 by lia. simpl. apply take_ge. lia.
Qed.

Lemma create_client_data_files_more_clients_than_rows_witness :
  chunk_size sample_frame 7 = 0 ∧
  ∃ fs',
    create_client_data_files 7 "data/pima_sample.csv" sample_files
    = (Returned true, fs') ∧
    (∀ i, 1 ≤ i < 7 →
       fs' !! client_file i
       = Some {| columns := columns sample_frame; rows := [] |}) ∧
    fs' !! client_file 7 = Some sample_frame.
Proof.
  apply (create_client_data_files_more_clients_than_rows sample_files
           "data/pima_sample.csv" sample_frame 7).
  - reflexivity.
  - lia.
  - simpl. lia.
Defined.

End partition_facts.

(** *** Floats *)

Lemma SFcompare_lt_swap (x y : spec_float) :
  SFcompare x y = Some Lt → SFcompare y x = Some Gt.
Proof.
  destruct x as [[]|[]| |[] mx ex], y as [[]|[]| |[] my ey]; simpl;
    try discriminate; try reflexivity.
  all: rewrite (Z.compare_antisym ey ex); destruct (Z.compare ey ex) eqn:E;
    simpl; try discriminate; try reflexivity.
  all: change (PosDef.Pos.compare_cont Eq mx my) with (Pos.compare mx my);
    change (PosDef.Pos.compare_cont Eq my mx) with (Pos.compare my mx);
    rewrite (Pos.compare_antisym mx my); destruct (Pos.compare mx my); simpl;
    try discriminate; reflexivity.
Qed.

(** [x < y] excludes [y <= x]. *)
Lemma ltb_not_leb (x y : float) :
  PrimFloat.ltb x y = true → PrimFloat.leb y x = false.
Proof.
  rewrite ltb_spec, leb_spec. unfold SFltb, SFleb.
  destruct (SFcompare (Prim2SF x) (Prim2SF y)) as [[]|] eqn:E; try discriminate.
  intros _. apply SFcompare_lt_swap in E. by rewrite E.
Qed.

(** *** The prediction API *)

Section predict_facts.
Import Db App.
Context (env : environment).

(** C1, as the code has it: a call of the prediction API by a logged-in
    user whose body parses and whose model service returns
    [(pred, prob, features)] stores exactly
    one RiskPrediction, owned by that user; when [prob >= 0.7] it also
    stores exactly one Alert, of level [high] and with the message
    ["High diabetes risk: "] followed by [prob] with two decimals; when
    [prob >= 0.7] does not hold, in particular when [prob < 0.7], it stores
    no alert. *)
#[warnings="-inexact-float"]
Theorem api_predict_persists
    (ctx : context) (user : User) (payload : Py.value)
    (pred : Z) (prob : float) (features : list string) (s : server) :
  current_user ctx = Some user →
  json (req ctx) = Some payload →
  (if federated_is_available (ml env) then federated_predict (ml env)
   else standard_predict (ml env)) payload = Some (pred, prob, features) →
  ∃ s',
    dispatch (api_predict env ctx) s = (JsonPrediction pred prob features, s') ∧
    predictions (db s')
    = predictions (db s)
      ++ [mkRiskPrediction (fresh_id (rp_id <$> predictions (db s)))
            (u_id user) pred prob] ∧
    alerts (db s')
    = alerts (db s)
      ++ (if PrimFloat.leb 0.7 prob
          then [mkAlert (fresh_id (al_id <$> alerts (db s))) (u_id user)
                  ("High diabetes risk: " +:+ Py.format_2f prob) "high"]
          else []) ∧
    (PrimFloat.ltb prob 0.7 = true → alerts (db s') = alerts (db s)).
Proof.
  intros Huser Hjson Hpredict.
  unfold dispatch, api_predict, login_required. rewrite Huser.
  unfold get_json. rewrite Hjson. cbn.
  rewrite Hpredict. cbn.
  destruct (PrimFloat.leb _ prob) eqn:Hge; cbn.
  - eexists. split; [reflexivity|]. cbn. split; [done|]. split; [done|].
    intros Hlt. apply ltb_not_leb in Hlt. congruence.
  - eexists. split; [reflexivity|]. cbn. by rewrite app_nil_r.
Qed.

End predict_facts.

Lemma api_predict_persists_witness :
  ∃ s',
    App.dispatch (App.api_predict sample_env (as_patient (json_request high_risk_payload)))
      sample_server
    = (App.JsonPrediction 1 0.875%float sample_features, s') ∧
    Db.predictions (App.db s') = [Db.mkRiskPrediction 1 1 1 0.875%float] ∧
    Db.alerts (App.db s') = [Db.mkAlert 1 1 "High diabetes risk: 0.88" "high"].
Proof.
  destruct (api_predict_persists sample_env
              (as_patient (json_request high_risk_payload)) patient_zero
              high_risk_payload 1 0.875%float sample_features sample_server)
    as (s' & H1 & H2 & H3 & _).
  - reflexivity.
  - reflexivity.
  - reflexivity.
  - exists s'. split; [exact H1|]. split; [exact H2 | exact H3].
Defined.

(** *** Running a handler *)

(** Case analysis on the conditions of a handler, outermost first. *)
Ltac unfold_prog :=
  cbv beta delta
    [Db.bind Db.ret Db.raise Db.lift Db.try_except Db.flush Db.query Db.flash
     Db.commit Db.rollback Db.get_session Db.set_session Db.add_refused
     Db.add_user Db.add_profile Db.add_reading Db.add_prediction Db.add_alert
     Db.add_audit_log Db.first_user_by_email Db.profile_of Db.first_reading
     Db.mkWorld App.log_audit];
  cbn.

Ltac run_handler :=
  unfold_prog;
  repeat (match goal with
          | |- context [if ?b then _ else _] => destruct b eqn:?
          end; unfold_prog).

Lemma bind_run {A B} (m : Db.M A) (k : A → Db.M B) (w : Db.world) :
  Db.bind m k w
  = match m w with
    | (Db.Ok a, w') => k a w'
    | (Db.Raise e, w') => (Db.Raise e, w')
    end.
Proof. done. Qed.

(** Every user of a literal list has one of the three roles. *)
Ltac roles_ok :=
  repeat first [apply Forall_nil_2 | apply Forall_cons_2; [cbn; auto |]].

Lemma first_user_by_email_absent (email : string) (l : list Db.User) :
  (∀ u, u ∈ l → Db.u_email u ≠ email) →
  head (filter (λ u, Db.u_email u = email) l) = None.
Proof.
  intros H. apply head_None.
  destruct (filter _ l) as [|u l'] eqn:E; [done|].
  assert (u ∈ filter (λ u, Db.u_email u = email) l) as Hu by (rewrite E; left).
  apply list_elem_of_filter in Hu as [Hu1 Hu2]. by destruct (H u Hu2).
Qed.

(** *** User creation *)

Section user_facts.
Import Db App Spec.
Context (env : environment).

Lemma register_users (ctx : context) (s : server) :
  ∃ new, users (db (dispatch (register env ctx) s).2) = users (db s) ++ new ∧
    Forall (λ u, valid_role (u_role u)) new.
Proof.
  unfold dispatch, register, valid_role. run_handler.
  all: try (exists []; split; [by rewrite app_nil_r | constructor]).
  all: eexists [_]; split; [reflexivity | roles_ok].
Qed.

Lemma create_clinician_users (ctx : context) (s : server) :
  ∃ new,
    users (db (dispatch (create_clinician env ctx) s).2) = users (db s) ++ new ∧
    Forall (λ u, valid_role (u_role u)) new.
Proof.
  unfold dispatch, create_clinician, login_required, role_required, valid_role.
  destruct (current_user ctx) as [user|]; run_handler.
  all: try (exists []; split; [by rewrite app_nil_r | constructor]).
  all: eexists [_]; split; [reflexivity | roles_ok].
Qed.

Lemma seed_defaults_users (s : server) :
  ∃ new, users (db (run_seed_defaults env s)) = users (db s) ++ new ∧
    Forall (λ u, valid_role (u_role u)) new.
Proof.
  unfold run_seed_defaults, seed_defaults, valid_role. run_handler.
  all: rewrite <- ?app_assoc.
  all: eexists; split; [reflexivity || (by rewrite app_nil_r) |].
  all: roles_ok.
Qed.

(** C8: registration, clinician creation by an administrator and the
    seeding of the default accounts only ever add users whose role is
    [patient], [clinician] or [admin]: the users stored afterwards are the
    users stored before followed by new ones with one of these roles. *)
Theorem created_users_have_valid_roles (ctx : context) (s : server) :
  (∃ new, users (db (dispatch (register env ctx) s).2) = users (db s) ++ new ∧
     Forall (λ u, valid_role (u_role u)) new) ∧
  (∃ new,
     users (db (dispatch (create_clinician env ctx) s).2) = users (db s) ++ new ∧
     Forall (λ u, valid_role (u_role u)) new) ∧
  (∃ new, users (db (run_seed_defaults env s)) = users (db s) ++ new ∧
     Forall (λ u, valid_role (u_role u)) new).
Proof.
  split; [apply register_users|].
  split; [apply create_clinician_users | apply seed_defaults_users].
Qed.

End user_facts.

(** *** Registration *)

Section register_facts.
Import Db App Spec.
Context (env : environment).

Lemma falsy_false (v : option string) :
  falsy v = false → ∃ s, v = Some s ∧ s ≠ "".
Proof.
  destruct v as [s|]; [|done]. simpl. intros H. exists s. split; [done|].
  intros ->. done.
Qed.

(** C4: a registration POST that fails a validation (email or password
    missing or empty, confirmation different from the password, password
    shorter than 6 characters, first or last name absent or blank) leaves
    the stored tables as they were, so no User and no PatientProfile is
    created; a POST that passes them, for an email that is not registered,
    adds exactly one User, with role [patient], and exactly one
    PatientProfile, owned by that user, whose name is the stripped first
    name, a space, and the stripped last name. *)
Theorem register_creates_rows_only_when_valid (ctx : context) (s : server) :
  method (req ctx) = "POST" →
  let email := form (req ctx) !! "email" in
  let password := form (req ctx) !! "password" in
  let confirm_password := form (req ctx) !! "confirm_password" in
  let first_name := Py.strip (default "" (form (req ctx) !! "first_name")) in
  let last_name := Py.strip (default "" (form (req ctx) !! "last_name")) in
  let s' := (dispatch (register env ctx) s).2 in
  ((email = None ∨ email = Some "" ∨ password = None ∨ password = Some "" ∨
    password ≠ confirm_password ∨ Py.len (default "" password) < 6 ∨
    first_name = "" ∨ last_name = "") →
   db s' = db s) ∧
  (∀ e p,
     email = Some e → e ≠ "" → password = Some p → p ≠ "" →
     confirm_password = Some p → 6 ≤ Py.len p →
     first_name ≠ "" → last_name ≠ "" →
     (∀ u, u ∈ users (db s) → u_email u ≠ e) →
     users (db s')
     = users (db s)
       ++ [mkUser (fresh_id (u_id <$> users (db s))) e
             (generate_password_hash env p) "patient"] ∧
     profiles (db s')
     = profiles (db s)
       ++ [mkPatientProfile (fresh_id (pp_id <$> profiles (db s)))
             (fresh_id (u_id <$> users (db s))) first_name last_name
             (first_name +:+ " " +:+ last_name)]).
Proof.
  intros Hpost email password confirm_password first_name last_name s'.
  subst s'. unfold dispatch, register.
  rewrite bool_decide_eq_true_2 by done. cbn zeta.
  fold email password confirm_password first_name last_name.
  split.
  - intros Hbad.
    destruct (falsy email || falsy password) eqn:E1; [done|].
    apply orb_false_iff in E1 as [[e [He He']]%falsy_false [p [Hp Hp']]%falsy_false].
    case_bool_decide as E2; [done|].
    destruct (Py.len (default "" password) <? 6) eqn:E3; [done|].
    apply Z.ltb_ge in E3.
    destruct (falsy (Some first_name) || falsy (Some last_name)) eqn:E4; [done|].
    apply orb_false_iff in E4 as [[f [Hf Hf']]%falsy_false [l [Hl Hl']]%falsy_false].
    exfalso. destruct Hbad as [H|[H|[H|[H|[H|[H|[H|H]]]]]]]; try congruence.
    lia.
  - intros e p He He' Hp Hp' Hc Hlen Hf Hl Hfree.
    rewrite He, Hp, Hc. cbn.
    destruct e as [|c e]; [done|]. destruct p as [|d p]; [done|]. cbn.
    rewrite bool_decide_eq_false_2 by (intros E; by apply E).
    cbn in Hlen |- *.
    destruct (Py.len (String d p) <? 6) eqn:E3; [apply Z.ltb_lt in E3; lia|].
    destruct first_name as [|c1 f1] eqn:Ef; [done|].
    destruct last_name as [|c2 l1] eqn:El; [done|].
    unfold_prog.
    rewrite first_user_by_email_absent by done. cbn. done.
Qed.

End register_facts.

Lemma register_creates_rows_only_when_valid_witness :
  App.db (App.dispatch (App.register sample_env (anonymous short_password_form))
            sample_server).2
  = App.db sample_server ∧
  Db.users (App.db (App.dispatch (App.register sample_env (anonymous good_form))
                      sample_server).2)
  = [patient_zero; admin_zero;
     Db.mkUser 3 "ana@example.com" "hash:secret1" "patient"] ∧
  Db.profiles (App.db (App.dispatch (App.register sample_env (anonymous good_form))
                         sample_server).2)
  = [Db.mkPatientProfile 1 3 "Ana" "Lopez" "Ana Lopez"].
Proof.
  split.
  - apply (proj1 (register_creates_rows_only_when_valid sample_env
                    (anonymous short_password_form) sample_server eq_refl)).
    do 5 right. left. vm_compute. reflexivity.
  - apply (proj2 (register_creates_rows_only_when_valid sample_env
                    (anonymous good_form) sample_server eq_refl)
             "ana@example.com" "secret1").
    + vm_compute. reflexivity.
    + discriminate.
    + vm_compute. reflexivity.
    + discriminate.
    + vm_compute. reflexivity.
    + vm_compute. discriminate.
    + vm_compute. discriminate.
    + vm_compute. discriminate.
    + intros u Hu. apply list_elem_of_In in Hu. simpl in Hu.
      destruct Hu as [<-|[<-|[]]]; discriminate.
Defined.

(** *** The forecast API without data *)

Section forecast_no_data.
Import Db App Spec.
Context (env : environment).

Lemma api_forecast_no_data (ctx : context) (user : User) (s : server) :
  current_user ctx = Some user →
  is_json (req ctx) = false →
  files (req ctx) !! "file" = None →
  dispatch (api_forecast env ctx) s = (JsonError "No data provided" 400, s).
Proof.
  intros Huser Hjson Hfile. unfold dispatch, api_forecast, login_required.
  rewrite Huser, Hjson, Hfile. cbn. by destruct s.
Qed.

(** C6: a forecast request of a logged-in user that is not JSON and has no
    part [file] is answered with the error payload and status 400, and
    leaves the server as it was: no reading of any source is stored. *)
Theorem api_forecast_without_data
    (ctx : context) (user : User) (s : server) :
  current_user ctx = Some user →
  is_json (req ctx) = false →
  files (req ctx) !! "file" = None →
  dispatch (api_forecast env ctx) s = (JsonError "No data provided" 400, s) ∧
  status_code (dispatch (api_forecast env ctx) s).1 = 400 ∧
  readings (db (dispatch (api_forecast env ctx) s).2) = readings (db s).
Proof.
  intros Huser Hjson Hfile.
  by rewrite (api_forecast_no_data ctx user s Huser Hjson Hfile).
Qed.

End forecast_no_data.

Lemma api_forecast_without_data_witness :
  App.dispatch (App.api_forecast sample_env (as_patient empty_request))
    sample_server
  = (App.JsonError "No data provided" 400, sample_server).
Proof.
  apply (api_forecast_without_data sample_env (as_patient empty_request)
           patient_zero sample_server); reflexivity.
Defined.

(** *** Ingestion of an uploaded file *)

Section cgm_facts.
Import Db App Spec Spec2.
Context (env : environment).

Lemma is_Some_head_filter {A} (P : A → Prop) `{!∀ x, Decision (P x)} (l : list A) :
  is_Some (head (filter P l)) ↔ Exists P l.
Proof.
  rewrite head_is_Some, Exists_exists. split.
  - intros Hne. destruct (filter P l) as [|x l'] eqn:E; [done|].
    assert (x ∈ filter P l) as Hx by (rewrite E; left).
    apply list_elem_of_filter in Hx as [? ?]. by exists x.
  - intros (x & Hx & HP) E.
    assert (x ∈ filter P l) as Hin by (by apply list_elem_of_filter).
    rewrite E in Hin. by apply not_elem_of_nil in Hin.
Qed.

(** The nested [try] blocks take the first attempt that parses. *)
Lemma parse_cgm_timestamp_first_success (ts_str : string) (w : world) :
  parse_cgm_timestamp env (Some ts_str) w
  = (match first_success (timestamp_attempts env ts_str) with
     | Some ts => Ok ts
     | None => Raise ValueError
     end, w).
Proof.
  unfold parse_cgm_timestamp, timestamp_attempts, try_except, lift. simpl.
  destruct (fromisoformat env _); [done|].
  destruct (strptime env ts_str "%Y-%m-%d %H:%M:%S"); [done|].
  by destruct (strptime env ts_str "%Y-%m-%dT%H:%M:%S").
Qed.

(** A string whose only [Z] is its last character has it rewritten to the
    UTC offset. *)
Lemma replace_trailing_Z (s : string) :
  Py.replace "Z"%char "+00:00" s = s →
  Py.replace "Z"%char "+00:00" (s +:+ "Z") = s +:+ "+00:00".
Proof.
  induction s as [|c s IH]; simpl; [done|].
  destruct (Ascii.eqb c "Z") eqn:E.
  - intros H. apply (f_equal String.length) in H.
    rewrite string_length_app in H. simpl in H.
    assert (∀ t, String.length t ≤ String.length (Py.replace "Z"%char "+00:00" t))%nat
      as Hlen.
    { clear. induction t as [|d t IH]; simpl; [lia|].
      destruct (Ascii.eqb d "Z"); rewrite ?string_length_app; simpl; lia. }
    specialize (Hlen s). lia.
  - intros H. injection H as H'. by rewrite IH.
Qed.

(** The store keeps a value without offset as it is, and keeping is
    idempotent. *)
Lemma as_stored_naive (d : Py.datetime) : Py.utcoffset d = None → as_stored d = d.
Proof. destruct d. simpl. by intros ->. Qed.

Lemma as_stored_idemp (d : Py.datetime) : as_stored (as_stored d) = as_stored d.
Proof. done. Qed.

Lemma store_cgm_reading_stored_row (user : User) (row : cgm_row) (w : world) :
  store_cgm_reading env user row w = (Ok tt, stored_row env user row w).
Proof.
  assert (∀ ts w,
    try_except
      (existing <- first_reading (u_id user) ts "cgm" ;;
       if bool_decide (is_Some existing) then ret tt
       else add_reading (u_id user) ts (cr_glucose row) "cgm")%prog
      (λ _, ret tt) w
    = (Ok tt, add_unless_present user ts (cr_glucose row) w)) as Hstep.
  { intros ts w1. unfold add_unless_present, try_except, first_reading, query,
      flush. rewrite !bind_run. destruct (failing w1); [done|].
    unfold get_session at 1. cbv beta iota. unfold ret at 1. cbv beta iota.
    rewrite (bool_decide_ext _ _ (is_Some_head_filter _ _)).
    destruct (decide (Exists (is_cgm_at (u_id user) (as_stored ts))
                        (readings (session w1)))) as [Hex|Hex].
    - by rewrite !bool_decide_eq_true_2 by exact Hex.
    - rewrite !bool_decide_eq_false_2 by exact Hex.
      unfold add_reading. by destruct (storable_float _). }
  unfold store_cgm_reading, stored_row.
  destruct (cr_timestamp row) as [ts_str|].
  - unfold try_except at 1. rewrite bind_run, parse_cgm_timestamp_first_success.
    destruct (first_success _) as [ts|]; [|done].
    specialize (Hstep ts w). unfold try_except in Hstep. exact Hstep.
  - unfold try_except at 1. rewrite bind_run.
    unfold parse_cgm_timestamp, datetime_now at 1. cbv beta iota.
    specialize (Hstep (clock env (ticks w)) (datetime_now env w).2).
    unfold try_except in Hstep. exact Hstep.
Qed.

Lemma for_each_store_cgm_reading (user : User) (rows : list cgm_row) (w : world) :
  for_each rows (store_cgm_reading env user) w
  = (Ok tt, foldl (λ w row, stored_row env user row w) w rows).
Proof.
  revert w. induction rows as [|row rows IH]; intros w; [done|].
  simpl. unfold bind. by rewrite store_cgm_reading_stored_row, IH.
Qed.

(** Rows that are skipped leave no trace. *)
Lemma stored_rows_skip (user : User) (rows : list cgm_row) (w : world) :
  foldl (λ w row, stored_row env user row w) w rows
  = foldl (λ w row, stored_row env user row w) w
      (filter (λ row, ¬ skipped env row) rows).
Proof.
  revert w. induction rows as [|row rows IH]; intros w; [done|].
  rewrite filter_cons. case_decide as Hsk; simpl; [apply IH|].
  destruct Hsk as (ts_str & Hts & Hnone).
  unfold stored_row at 2. rewrite Hts, Hnone. apply IH.
Qed.

Lemma count_cgm_at_app uid t (rs1 rs2 : list GlucoseReading) :
  count_cgm_at uid t (rs1 ++ rs2)
  = (count_cgm_at uid t rs1 + count_cgm_at uid t rs2)%nat.
Proof. unfold count_cgm_at. by rewrite filter_app, length_app. Qed.

Lemma count_cgm_at_absent uid t (rs : list GlucoseReading) :
  ¬ Exists (is_cgm_at uid t) rs → count_cgm_at uid t rs = 0%nat.
Proof.
  intros H. unfold count_cgm_at.
  destruct (filter _ rs) as [|r l] eqn:E; [done|].
  destruct H. apply Exists_exists. exists r.
  assert (r ∈ filter (is_cgm_at uid t) rs) as Hr by (rewrite E; left).
  by apply list_elem_of_filter in Hr as [? ?].
Qed.

Lemma count_cgm_at_other_source uid t (rs : list GlucoseReading) :
  Forall (λ r, gr_source r ≠ "cgm") rs → count_cgm_at uid t rs = 0%nat.
Proof.
  intros H. apply count_cgm_at_absent. intros (r & Hr & _ & _ & Hsrc)%Exists_exists.
  rewrite Forall_forall in H. by apply (H r).
Qed.

Lemma count_cgm_at_singleton uid t (r : GlucoseReading) :
  count_cgm_at uid t [r] = if decide (is_cgm_at uid t r) then 1%nat else 0%nat.
Proof.
  unfold count_cgm_at. rewrite filter_cons, filter_nil. by case_decide.
Qed.

Lemma tables_eta (t : tables) : with_readings t (readings t ++ []) = t.
Proof. destruct t. unfold with_readings. simpl. by rewrite app_nil_r. Qed.

Lemma world_eta (w : world) :
  World (with_readings (session w) (readings (session w) ++ []))
    (committed w) (ticks w) (flashes w) (failing w) = w.
Proof. rewrite tables_eta. by destruct w. Qed.

Lemma count_kept_refl uid rs : count_kept uid rs rs.
Proof. intros t. by left. Qed.

Lemma count_kept_trans uid rs1 rs2 rs3 :
  count_kept uid rs1 rs2 → count_kept uid rs2 rs3 → count_kept uid rs1 rs3.
Proof. intros H1 H2 t. specialize (H1 t). specialize (H2 t). lia. Qed.

Lemma add_unless_present_effect (user : User) ts g (w : world) :
  ∃ added b,
    add_unless_present user ts g w
    = World (with_readings (session w) (readings (session w) ++ added))
        (committed w) (ticks w) (flashes w) b ∧
    Forall (λ r, gr_user_id r = u_id user ∧ gr_source r = "cgm") added ∧
    count_kept (u_id user) (readings (session w)) (readings (session w) ++ added) ∧
    (failing w = true → b = true) ∧
    (failing w = false → storable_float g = true →
     b = false ∧
     (1 ≤ count_cgm_at (u_id user) (as_stored ts)
            (readings (session w) ++ added))%nat).
Proof.
  unfold add_unless_present. destruct (failing w) eqn:Hf.
  { exists [], true. rewrite <- Hf at 1. rewrite world_eta, app_nil_r.
    split; [done|]. split; [done|]. split; [apply count_kept_refl|]. done. }
  case_bool_decide as Hex.
  - exists [], false. rewrite <- Hf at 1. rewrite world_eta, app_nil_r.
    split; [done|]. split; [done|]. split; [apply count_kept_refl|].
    split; [done|]. intros _ _. split; [done|].
    unfold count_cgm_at. apply Exists_exists in Hex as (r & Hr & HP).
    assert (r ∈ filter (is_cgm_at (u_id user) (as_stored ts)) (readings (session w)))
      as Hin by (by apply list_elem_of_filter).
    destruct (filter _ _); [by apply not_elem_of_nil in Hin | simpl; lia].
  - unfold add_reading. destruct (storable_float g) eqn:Hs.
    + eexists [_], false. unfold_prog. rewrite Hf.
      split; [reflexivity|]. split; [by repeat constructor|].
      pose proof (count_cgm_at_absent _ _ _ Hex) as H0.
      split; [|split; [done|]].
      * intros t. rewrite count_cgm_at_app, count_cgm_at_singleton.
        case_decide as Ht; [|left; lia].
        destruct Ht as (_ & Ht & _). simpl in Ht. subst t. right. lia.
      * intros _ _. split; [done|].
        rewrite count_cgm_at_app, count_cgm_at_singleton, decide_True by done. lia.
    + exists [], true. unfold add_refused. simpl. rewrite tables_eta, app_nil_r.
      split; [done|]. split; [done|]. split; [apply count_kept_refl|]. done.
Qed.

Lemma stored_row_effect (user : User) (row : cgm_row) (w : world) :
  ∃ added b,
    stored_row env user row w
    = World (with_readings (session w) (readings (session w) ++ added))
        (committed w) (ticks w + clock_reads [row]) (flashes w) b ∧
    Forall (λ r, gr_user_id r = u_id user ∧ gr_source r = "cgm") added ∧
    count_kept (u_id user) (readings (session w)) (readings (session w) ++ added) ∧
    (failing w = true → b = true) ∧
    (failing w = false → storable_float (cr_glucose row) = true →
     b = false ∧
     (∀ ts_str t,
        cr_timestamp row = Some ts_str →
        first_success (timestamp_attempts env ts_str) = Some t →
        (1 ≤ count_cgm_at (u_id user) (as_stored t)
               (readings (session w) ++ added))%nat) ∧
     (cr_timestamp row = None →
      (1 ≤ count_cgm_at (u_id user) (as_stored (clock env (ticks w)))
             (readings (session w) ++ added))%nat)).
Proof.
  assert (clock_reads [row]
          = if cr_timestamp row is Some _ then 0%nat else 1%nat) as ->.
  { unfold clock_reads. rewrite filter_cons, filter_nil.
    by destruct (cr_timestamp row). }
  unfold stored_row.
  destruct (cr_timestamp row) as [ts_str|].
  - rewrite Nat.add_0_r.
    destruct (first_success (timestamp_attempts env ts_str)) as [ts|] eqn:Hts.
    + destruct (add_unless_present_effect user ts (cr_glucose row) w)
        as (added & b & E & Hall & Hk & Hb & Hok).
      exists added, b. split; [done|]. split; [done|]. split; [done|].
      split; [done|]. intros Hf Hs. destruct (Hok Hf Hs) as [-> H1].
      split; [done|]. split; [|done]. intros ? ? [= <-] ?. by simplify_eq.
    + exists [], (failing w). rewrite world_eta, app_nil_r.
      split; [done|]. split; [done|]. split; [apply count_kept_refl|].
      split; [done|]. intros Hf _. split; [done|]. split; [|done].
      intros ? ? [= <-] ?. congruence.
  - destruct (add_unless_present_effect user (clock env (ticks w)) (cr_glucose row)
                (datetime_now env w).2)
      as (added & b & E & Hall & Hk & Hb & Hok).
    exists added, b. rewrite E. simpl.
    split; [f_equal; lia|]. split; [done|]. split; [done|].
    split; [done|]. intros Hf Hs. destruct (Hok Hf Hs) as [-> H1]. done.
Qed.

Lemma clock_reads_cons (row : cgm_row) (rows : list cgm_row) :
  clock_reads (row :: rows) = (clock_reads [row] + clock_reads rows)%nat.
Proof.
  unfold clock_reads. rewrite !filter_cons, filter_nil.
  by case_decide.
Qed.

Lemma stored_rows_effect (user : User) (rows : list cgm_row) (w : world) :
  ∃ added b,
    foldl (λ w row, stored_row env user row w) w rows
    = World (with_readings (session w) (readings (session w) ++ added))
        (committed w) (ticks w + clock_reads rows) (flashes w) b ∧
    Forall (λ r, gr_user_id r = u_id user ∧ gr_source r = "cgm") added ∧
    count_kept (u_id user) (readings (session w)) (readings (session w) ++ added) ∧
    (failing w = true → b = true) ∧
    (failing w = false → numbers rows →
     b = false ∧
     (∀ row ts_str t,
        row ∈ rows → cr_timestamp row = Some ts_str →
        first_success (timestamp_attempts env ts_str) = Some t →
        (1 ≤ count_cgm_at (u_id user) (as_stored t)
               (readings (session w) ++ added))%nat) ∧
     (∀ row,
        row ∈ rows → cr_timestamp row = None →
        ∃ n, (ticks w ≤ n < ticks w + clock_reads rows)%nat ∧
             (1 ≤ count_cgm_at (u_id user) (as_stored (clock env n))
                    (readings (session w) ++ added))%nat)).
Proof.
  revert w. induction rows as [|row rows IH]; intros w.
  - exists [], (failing w). simpl. unfold clock_reads. simpl.
    rewrite Nat.add_0_r, world_eta, app_nil_r.
    split; [done|]. split; [done|]. split; [apply count_kept_refl|].
    split; [done|]. intros Hf _. split; [done|].
    split; intros ? **; by match goal with H : _ ∈ [] |- _ =>
                              apply not_elem_of_nil in H end.
  - simpl. rewrite clock_reads_cons.
    destruct (stored_row_effect user row w)
      as (a1 & b1 & E1 & Hu1 & Hk1 & Hb1 & Hok1).
    rewrite E1.
    destruct (IH (World (with_readings (session w) (readings (session w) ++ a1))
                    (committed w) (ticks w + clock_reads [row]) (flashes w) b1))
      as (a2 & b2 & E2 & Hu2 & Hk2 & Hb2 & Hok2).
    simpl in E2, Hk2, Hb2, Hok2.
    exists (a1 ++ a2), b2. rewrite E2.
    split; [unfold with_readings; simpl; rewrite app_assoc; f_equal; lia|].
    split; [by apply Forall_app|].
    rewrite app_assoc.
    split; [by eapply count_kept_trans|].
    split; [by intros Hf; apply Hb2, Hb1|].
    intros Hf [Hrow Hrows]%Forall_cons.
    destruct (Hok1 Hf Hrow) as (-> & Hp1 & Hc1).
    destruct (Hok2 eq_refl Hrows) as (-> & Hp2 & Hc2).
    split; [done|]. split.
    + intros r ts_str t [->|Hin]%elem_of_cons Hts Hfirst.
      * specialize (Hp1 ts_str t Hts Hfirst).
        specialize (Hk2 (as_stored t)). lia.
      * by eapply Hp2.
    + intros r [->|Hin]%elem_of_cons Hts.
      * exists (ticks w). specialize (Hc1 Hts).
        specialize (Hk2 (as_stored (clock env (ticks w)))).
        unfold clock_reads at 1. rewrite filter_cons, decide_True by done.
        simpl. split; [lia|]. lia.
      * destruct (Hc2 r Hin Hts) as (n & Hn & Hcount).
        exists n. split; [lia|done].
Qed.

End cgm_facts.

(** *** Caching of the forecast *)

Section forecast_facts.
Import Db App Spec Spec2.
Context (env : environment).

Lemma add_reading_effect (uid : Z) (ts : Py.datetime) (g : float)
    (src : string) (w : world) :
  ∃ added b,
    add_reading uid ts g src w
    = (Ok tt,
       World (with_readings (session w) (readings (session w) ++ added))
         (committed w) (ticks w) (flashes w) b) ∧
    (failing w = true → b = true) ∧
    (failing w = false → storable_float g = true → b = false) ∧
    Forall (λ r, gr_user_id r = uid ∧ gr_source r = src) added ∧
    (b = false →
     added = [mkGlucoseReading (fresh_id (gr_id <$> readings (session w))) uid
                (as_stored ts) g src]).
Proof.
  unfold add_reading. destruct (storable_float g).
  - eexists [_], (failing w). unfold_prog.
    split; [reflexivity|]. split; [done|]. split; [done|].
    split; [by repeat constructor | done].
  - exists [], true. unfold add_refused. rewrite tables_eta.
    split; [done|]. split; [done|]. split; [done|]. split; [done|]. done.
Qed.

Lemma cache_forecast_point_run (user : User) (now : Py.datetime)
    (pt : forecast_point) (w : world) :
  cache_forecast_point env user now pt w
  = match point_time env now pt with
    | Some ts => add_reading (u_id user) ts (pt_glucose pt) "forecast" w
    | None => (Raise ValueError, w)
    end.
Proof.
  unfold cache_forecast_point, point_time. rewrite bind_run.
  destruct (pt_timestamp pt) as [| | | |s| |]; try done.
  unfold lift. by destruct (fromisoformat env s).
Qed.

Lemma timestamps_parse_cons (pt : forecast_point) (pts : list forecast_point)
    (now : Py.datetime) :
  timestamps_parse env (pt :: pts)
  ↔ is_Some (point_time env now pt) ∧ timestamps_parse env pts.
Proof.
  unfold timestamps_parse, point_time. rewrite Forall_cons.
  destruct (pt_timestamp pt); try done; split; intros [? ?]; by eauto.
Qed.

Lemma cache_loop (user : User) (now : Py.datetime)
    (pts : list forecast_point) (w : world) :
  ∃ added b,
    (for_each pts (cache_forecast_point env user now) w).2
    = World (with_readings (session w) (readings (session w) ++ added))
        (committed w) (ticks w) (flashes w) b ∧
    (failing w = true → b = true) ∧
    (failing w = false →
     Forall (λ pt, storable_float (pt_glucose pt) = true) pts → b = false) ∧
    Forall (λ r, gr_user_id r = u_id user ∧ gr_source r = "forecast") added ∧
    ((for_each pts (cache_forecast_point env user now) w).1 = Ok tt ∨
     (for_each pts (cache_forecast_point env user now) w).1 = Raise ValueError) ∧
    (timestamps_parse env pts →
     (for_each pts (cache_forecast_point env user now) w).1 = Ok tt) ∧
    ((for_each pts (cache_forecast_point env user now) w).1 = Ok tt →
     b = false → Forall2 (caches env user now) pts added).
Proof.
  revert w. induction pts as [|pt pts IH]; intros w.
  { exists [], (failing w). simpl. rewrite world_eta.
    split; [done|]. split; [done|]. split; [done|]. split; [done|].
    split; [by left|]. split; [done|]. by constructor. }
  simpl. rewrite bind_run, cache_forecast_point_run.
  destruct (point_time env now pt) as [ts|] eqn:Ept.
  - destruct (add_reading_effect (u_id user) ts (pt_glucose pt) "forecast" w)
      as (a1 & b1 & -> & Hb1 & Hn1 & Hall1 & Hrow).
    match goal with
    | |- context [for_each pts _ ?w1] =>
        destruct (IH w1) as (a2 & b2 & E & Hb2 & Hn2 & Hall2 & Hres & Hok & Hc)
    end.
    simpl in E, Hb2, Hn2. exists (a1 ++ a2), b2. rewrite E.
    split; [unfold with_readings; simpl; by rewrite app_assoc|].
    split; [by intros Hf; apply Hb2, Hb1|].
    split; [intros Hf [Hpt Hrest]%Forall_cons; by apply Hn2; [apply Hn1|]|].
    split; [by apply Forall_app|]. split; [exact Hres|].
    split; [rewrite (timestamps_parse_cons _ _ now); intros [_ Hp]; by apply Hok|].
    intros Hr Hb. subst b2.
    assert (b1 = false) as Hb1' by (destruct b1; [by specialize (Hb2 eq_refl)|done]).
    rewrite (Hrow Hb1'). constructor; [|by apply Hc].
    unfold caches. simpl. split; [done|]. split; [done|]. split; [done|].
    by exists ts.
  - exists [], (failing w). simpl. rewrite world_eta.
    split; [done|]. split; [done|]. split; [done|]. split; [done|].
    split; [by right|]. split; [|done].
    rewrite (timestamps_parse_cons _ _ now), Ept. intros [[? ?] _]. done.
Qed.

End forecast_facts.

(** *** The forecast API as a whole *)

Section api_forecast_facts.
Import Db App Spec Spec2.
Context (env : environment).

Lemma server_eta (s : server) : mkServer (db s) (clock_ticks s) (flashed s) = s.
Proof. by destruct s. Qed.

Lemma read_cgm_row_pure (row : gmap string string) (w : world) :
  read_cgm_row env row w
  = (match cgm_row_of env row with
     | Some r => Ok r
     | None => Raise ValueError
     end, w).
Proof.
  unfold read_cgm_row, cgm_row_of. rewrite bind_run.
  destruct (falsy _); [done|].
  unfold lift. by destruct (float_of_str env _).
Qed.

Lemma read_cgm_rows_pure (rows : list (gmap string string)) (w : world) :
  read_cgm_rows env rows w
  = (match mapM (cgm_row_of env) rows with
     | Some rs => Ok rs
     | None => Raise ValueError
     end, w).
Proof.
  induction rows as [|row rows IH]; [done|].
  simpl. rewrite bind_run, read_cgm_row_pure.
  destruct (cgm_row_of env row) as [r|]; [|done]. simpl.
  rewrite bind_run, IH. by destruct (mapM _ rows).
Qed.

Lemma read_upload_pure (file : upload) (w : world) :
  ∃ e, read_upload env file w
       = (match rows_of_upload env file with
          | Some rs => Ok rs
          | None => Raise e
          end, w) ∧ e ≠ BadRequest.
Proof.
  destruct file as [|rows]; simpl.
  - by exists UnicodeDecodeError.
  - exists ValueError. by rewrite read_cgm_rows_pure.
Qed.

Lemma readings_or_stored_run (user : User) (data : Py.value) (w : world) :
  failing w = false →
  readings_or_stored env user data w
  = (match data with
     | Py.VDict items =>
         let given := Py.dict_get items "readings" (Py.VList []) in
         Ok (if negb (Py.truthy given)
             then stored_readings_value env user (session w) else given)
     | _ => Raise AttributeError
     end, w).
Proof.
  intros Hf. unfold readings_or_stored, get_readings, stored_readings_value.
  destruct data; try done. unfold_prog.
  destruct (negb _); cbv beta; rewrite ?Hf; done.
Qed.

(** The tail of [api_forecast], started in a session without pending
    changes, commits all the points or nothing, and reads the clock once
    when the forecast service has answered. *)
Lemma forecast_and_cache_cases (user : User) (data : Py.value)
    (flag : bool) (w : world) :
  session w = committed w →
  failing w = false →
  match forecast_and_cache env user data flag w with
  | (Ok resp, w') =>
      ∃ rs pts added,
        (readings_or_stored env user data w).1 = Ok rs ∧
        forecast_glucose (ml env) rs = Some pts ∧
        resp = JsonForecast pts flag ∧
        committed w'
        = with_readings (committed w) (readings (committed w) ++ added) ∧
        Forall2 (caches env user (clock env (ticks w))) pts added ∧
        ticks w' = S (ticks w) ∧ flashes w' = flashes w
  | (Raise e, w') =>
      committed w' = committed w ∧ e ≠ BadRequest ∧ flashes w' = flashes w ∧
      (ticks w ≤ ticks w' ≤ S (ticks w))%nat
  end.
Proof.
  intros Hclean Hf. unfold forecast_and_cache. rewrite bind_run.
  rewrite readings_or_stored_run by done.
  destruct data as [| | | | | |items]; try (simpl; split; [done|]; split; [done|];
                                            split; [done|lia]).
  simpl. set (rs := if negb _ then _ else _).
  rewrite bind_run. unfold lift at 1.
  destruct (forecast_glucose (ml env) rs) as [pts|] eqn:Hpts.
  2:{ simpl. split; [done|]. split; [done|]. split; [done|lia]. }
  unfold ret at 1. rewrite bind_run. unfold datetime_now at 1.
  rewrite bind_run.
  match goal with
  | |- context [for_each pts ?body ?w1] =>
      destruct (cache_loop env user (clock env (ticks w)) pts w1)
        as (added & b & E & _ & _ & _ & Hres & _ & Hc);
      destruct (for_each pts body w1) as [[[]|e] w2] eqn:Eloop
  end; simpl in E, Hres, Hc; subst w2.
  - rewrite bind_run. unfold commit at 1. simpl. destruct b; simpl.
    + split; [done|]. split; [done|]. split; [done|lia].
    + unfold_prog. exists rs, pts, added.
      rewrite Hclean. split; [done|]. split; [done|]. split; [done|].
      split; [done|]. split; [by apply Hc|]. done.
  - simpl. split; [done|]. split; [|split; [done|lia]].
    destruct Hres as [?|[= ->]]; done.
Qed.

Lemma api_forecast_json_run (ctx : context) (user : User) (data : Py.value)
    (s : server) :
  current_user ctx = Some user →
  is_json (req ctx) = true →
  json (req ctx) = Some data →
  dispatch (api_forecast env ctx) s
  = match forecast_and_cache env user data false
            (mkWorld (db s) (db s) (clock_ticks s) (flashed s)) with
    | (r, w) =>
        (match r with
         | Ok resp => resp
         | Raise BadRequest => ErrorPage 400
         | Raise _ => ErrorPage 500
         end, mkServer (committed w) (ticks w) (flashes w))
    end.
Proof.
  intros Huser Hjson Hdata. unfold dispatch, api_forecast, login_required, get_json.
  by rewrite Huser, Hjson, Hdata.
Qed.

(** The world in which the forecast of an upload starts: the rows are
    ingested and committed, and the upload is logged. *)
Lemma api_forecast_upload_run (ctx : context) (user : User) (file : upload)
    (rows : list cgm_row) (s : server) :
  current_user ctx = Some user →
  is_json (req ctx) = false →
  files (req ctx) !! "file" = Some file →
  rows_of_upload env file = Some rows →
  let w1 := foldl (λ w row, stored_row env user row w)
              (mkWorld (db s) (db s) (clock_ticks s) (flashed s)) rows in
  let t3 := with_audit_logs (session w1)
              (audit_logs (session w1)
               ++ [audit_entry (session w1) (Some (u_id user)) "cgm_uploaded"
                     ("CGM data uploaded: "
                      +:+ Py.format_int (Z.of_nat (length rows)) +:+ " readings")
                     (remote_addr (req ctx))]) in
  failing w1 = false →
  dispatch (api_forecast env ctx) s
  = match forecast_and_cache env user
            (Py.VDict [("readings", Py.VList (cgm_row_value <$> rows))]) true
            (mkWorld t3 t3 (ticks w1) (flashes w1)) with
    | (r, w) =>
        (match r with
         | Ok resp => resp
         | Raise BadRequest => ErrorPage 400
         | Raise _ => ErrorPage 500
         end, mkServer (committed w) (ticks w) (flashes w))
    end.
Proof.
  intros Huser Hjson Hfile Hrows w1 t3 Hf.
  unfold dispatch, api_forecast, login_required.
  rewrite Huser, Hjson, Hfile. rewrite bind_run.
  destruct (read_upload_pure file
              (mkWorld (db s) (db s) (clock_ticks s) (flashed s)))
    as (e & -> & He).
  rewrite Hrows. cbv beta iota.
  rewrite bind_run, for_each_store_cgm_reading. fold w1. cbv beta iota.
  remember (forecast_and_cache env user
              (Py.VDict [("readings", Py.VList (cgm_row_value <$> rows))]) true)
    as tail eqn:Etail.
  subst t3. unfold with_audit_logs, audit_entry.
  revert Hf. generalize w1. intros w Hf. unfold_prog. rewrite Hf. unfold_prog.
  by destruct (falsy (remote_addr (req ctx))).
Qed.

(** An upload with a row that the store refuses ends at the commit: nothing
    of it is stored or logged. *)
Lemma api_forecast_upload_refused (ctx : context) (user : User) (file : upload)
    (rows : list cgm_row) (s : server) :
  current_user ctx = Some user →
  is_json (req ctx) = false →
  files (req ctx) !! "file" = Some file →
  rows_of_upload env file = Some rows →
  failing (foldl (λ w row, stored_row env user row w)
             (mkWorld (db s) (db s) (clock_ticks s) (flashed s)) rows) = true →
  dispatch (api_forecast env ctx) s
  = (ErrorPage 500,
     mkServer (db s) (clock_ticks s + clock_reads rows) (flashed s)).
Proof.
  intros Huser Hjson Hfile Hrows Hf.
  unfold dispatch, api_forecast, login_required.
  rewrite Huser, Hjson, Hfile. rewrite bind_run.
  destruct (read_upload_pure file
              (mkWorld (db s) (db s) (clock_ticks s) (flashed s)))
    as (e & -> & He).
  rewrite Hrows. cbv beta iota.
  rewrite bind_run, for_each_store_cgm_reading. cbv beta iota.
  destruct (stored_rows_effect env user rows
              (mkWorld (db s) (db s) (clock_ticks s) (flashed s)))
    as (cgm & b & E & _).
  rewrite E in Hf |- *. simpl in Hf. subst b.
  rewrite bind_run. unfold commit at 1. by simpl.
Qed.

(** A JSON request only caches the forecast. *)
Lemma api_forecast_json (ctx : context) (user : User) (s : server) :
  current_user ctx = Some user →
  is_json (req ctx) = true →
  ∃ added,
    db (dispatch (api_forecast env ctx) s).2
    = with_readings (db s) (readings (db s) ++ added) ∧
    Forall (λ r, gr_user_id r = u_id user ∧ gr_source r = "forecast") added ∧
    (∀ pts flag,
       (dispatch (api_forecast env ctx) s).1 = JsonForecast pts flag →
       flag = false ∧
       Forall2 (caches env user (clock env (clock_ticks s))) pts added ∧
       clock_ticks (dispatch (api_forecast env ctx) s).2 = S (clock_ticks s)).
Proof.
  intros Huser Hjson.
  destruct (json (req ctx)) as [data|] eqn:Hdata.
  2:{ exists []. unfold dispatch, api_forecast, login_required, get_json.
      rewrite Huser, Hjson, Hdata. simpl. rewrite tables_eta. by repeat split. }
  rewrite (api_forecast_json_run ctx user data s Huser Hjson Hdata).
  pose proof (forecast_and_cache_cases user data false
                (mkWorld (db s) (db s) (clock_ticks s) (flashed s))
                eq_refl eq_refl) as H.
  destruct (forecast_and_cache env user data false _) as [[resp|e] w'].
  - destruct H as (rs & pts & added & _ & _ & -> & E & Hc & Ht & _).
    simpl in E, Hc, Ht |- *. exists added. split; [done|]. split.
    { clear -Hc. induction Hc as [|pt r pts added (? & ? & _) _ IH]; by constructor. }
    intros pts' flag [= <- <-]. done.
  - destruct H as (E & He & _). simpl in E |- *. exists [].
    rewrite E, tables_eta. split; [done|]. split; [done|].
    intros pts flag Hr. by destruct e.
Qed.

(** An upload stores the new [cgm] readings, logs the upload and then
    caches the forecast; or it stores nothing at all. *)
Lemma api_forecast_upload (ctx : context) (user : User) (file : upload)
    (s : server) :
  current_user ctx = Some user →
  is_json (req ctx) = false →
  files (req ctx) !! "file" = Some file →
  match rows_of_upload env file with
  | None => dispatch (api_forecast env ctx) s = (ErrorPage 500, s)
  | Some rows =>
      let w1 := foldl (λ w row, stored_row env user row w)
                  (mkWorld (db s) (db s) (clock_ticks s) (flashed s)) rows in
      ∃ cgm fc,
        readings (db (dispatch (api_forecast env ctx) s).2)
        = (readings (db s) ++ cgm) ++ fc ∧
        Forall (λ r, gr_user_id r = u_id user ∧ gr_source r = "cgm") cgm ∧
        count_kept (u_id user) (readings (db s)) (readings (db s) ++ cgm) ∧
        Forall (λ r, gr_user_id r = u_id user ∧ gr_source r = "forecast") fc ∧
        (failing w1 = false → readings (session w1) = readings (db s) ++ cgm) ∧
        (∀ pts flag,
           (dispatch (api_forecast env ctx) s).1 = JsonForecast pts flag →
           flag = true ∧ failing w1 = false ∧
           Forall2 (caches env user (clock env (clock_ticks s + clock_reads rows)))
             pts fc ∧
           clock_ticks (dispatch (api_forecast env ctx) s).2
           = S (clock_ticks s + clock_reads rows))
  end.
Proof.
  intros Huser Hjson Hfile.
  destruct (rows_of_upload env file) as [rows|] eqn:Hrows.
  2:{ unfold dispatch, api_forecast, login_required.
      rewrite Huser, Hjson, Hfile, bind_run.
      destruct (read_upload_pure file
                  (mkWorld (db s) (db s) (clock_ticks s) (flashed s)))
        as (e & -> & He).
      rewrite Hrows. simpl. rewrite server_eta. by destruct e. }
  intros w1.
  destruct (stored_rows_effect env user rows
              (mkWorld (db s) (db s) (clock_ticks s) (flashed s)))
    as (cgm & b & E & Hcgm & Hk & _). fold w1 in E. simpl in E, Hk.
  destruct (failing w1) eqn:Hf.
  { rewrite (api_forecast_upload_refused ctx user file rows s) by done.
    exists [], []. simpl. rewrite !app_nil_r.
    split; [done|]. split; [done|]. split; [apply count_kept_refl|].
    split; [done|]. split; [done|]. intros ? ? [=]. }
  rewrite (api_forecast_upload_run ctx user file rows s) by done. fold w1.
  match goal with
  | |- context [forecast_and_cache env user ?d true ?w3] =>
      pose proof (forecast_and_cache_cases user d true w3 eq_refl eq_refl) as H;
      destruct (forecast_and_cache env user d true w3) as [[resp|e] w']
  end.
  - destruct H as (rs & pts & fc & _ & _ & -> & Ec & Hc & Ht & _).
    simpl in Ec, Hc, Ht |- *. exists cgm, fc. rewrite Ec, E. simpl.
    split; [done|]. split; [done|]. split; [done|]. split.
    { clear -Hc. induction Hc as [|pt r pts fc (? & ? & _) _ IH]; by constructor. }
    split; [done|]. intros pts' flag [= <- <-].
    rewrite E in Hc, Ht. simpl in Hc, Ht. done.
  - destruct H as (Ec & He & _). simpl in Ec |- *. exists cgm, [].
    rewrite Ec, E. simpl. rewrite app_nil_r.
    split; [done|]. split; [done|]. split; [done|]. split; [done|].
    split; [done|]. intros pts flag Hr. by destruct e.
Qed.

Lemma api_forecast_count_kept (ctx : context) (user : User) (s : server) :
  current_user ctx = Some user →
  count_kept (u_id user) (readings (db s))
    (readings (db (dispatch (api_forecast env ctx) s).2)).
Proof.
  intros Huser. destruct (is_json (req ctx)) eqn:Hjson.
  - destruct (api_forecast_json ctx user s Huser Hjson) as (added & -> & Hall & _).
    intros t. left. simpl. rewrite count_cgm_at_app.
    rewrite (count_cgm_at_other_source _ _ added); [lia|].
    eapply Forall_impl; [exact Hall|]. by intros r [_ ->].
  - destruct (files (req ctx) !! "file") as [file|] eqn:Hfile.
    + pose proof (api_forecast_upload ctx user file s Huser Hjson Hfile) as H.
      destruct (rows_of_upload env file) as [rows|].
      * destruct H as (cgm & fc & -> & _ & Hk & Hfc & _).
        intros t. rewrite count_cgm_at_app.
        rewrite (count_cgm_at_other_source _ _ fc).
        { specialize (Hk t). lia. }
        eapply Forall_impl; [exact Hfc|]. by intros r [_ ->].
      * rewrite H. apply count_kept_refl.
    + rewrite (api_forecast_no_data env ctx user s Huser Hjson Hfile).
      apply count_kept_refl.
Qed.

Lemma filter_cgm_forecast (fc : list GlucoseReading) :
  Forall (λ r, gr_source r = "forecast") fc →
  filter (λ r, gr_source r = "cgm") fc = [].
Proof.
  induction 1 as [|r l Hr _ IH]; [done|].
  rewrite filter_cons, decide_False; [exact IH|]. by rewrite Hr.
Qed.

(** C2, as the code has it, for the upload of a file whose glucose cells
    all convert to numbers. The timestamp string of a row is parsed by the
    first that succeeds of ISO-8601 with [Z] rewritten to [+00:00], then
    [%Y-%m-%d %H:%M:%S], then [%Y-%m-%dT%H:%M:%S]. The readings stored
    after the request are those that [stored_row] gives row by row,
    followed by the cached forecast: a row whose string parses has a [cgm]
    reading of the user at the parsed time as the store keeps it, a row
    without a timestamp string has one at a time the clock gave during the
    request, and the rows whose string fails all three attempts are
    skipped: the file without them stores the same. *)
Theorem cgm_rows_parsed_in_order_and_stored
    (ctx : context) (user : User) (file : upload) (rows : list cgm_row)
    (s : server) :
  current_user ctx = Some user →
  is_json (req ctx) = false →
  files (req ctx) !! "file" = Some file →
  rows_of_upload env file = Some rows →
  numbers rows →
  let w0 := mkWorld (db s) (db s) (clock_ticks s) (flashed s) in
  let s' := (dispatch (api_forecast env ctx) s).2 in
  (∀ ts_str w,
     parse_cgm_timestamp env (Some ts_str) w
     = (match first_success (timestamp_attempts env ts_str) with
        | Some ts => Ok ts
        | None => Raise ValueError
        end, w)) ∧
  (∃ fc,
     readings (db s')
     = readings (session (foldl (λ w row, stored_row env user row w) w0 rows))
       ++ fc ∧
     Forall (λ r, gr_source r = "forecast") fc) ∧
  (∀ row ts_str t,
     row ∈ rows → cr_timestamp row = Some ts_str →
     first_success (timestamp_attempts env ts_str) = Some t →
     (1 ≤ cgm_count (u_id user) (as_stored t) (db s'))%nat) ∧
  (∀ row,
     row ∈ rows → cr_timestamp row = None →
     ∃ n, (clock_ticks s ≤ n < clock_ticks s')%nat ∧
          (1 ≤ cgm_count (u_id user) (as_stored (clock env n)) (db s'))%nat) ∧
  foldl (λ w row, stored_row env user row w) w0 rows
  = foldl (λ w row, stored_row env user row w) w0
      (filter (λ row, ¬ skipped env row) rows) ∧
  ((∀ row, row ∈ rows → skipped env row) →
   filter (λ r, gr_source r = "cgm") (readings (db s'))
   = filter (λ r, gr_source r = "cgm") (readings (db s))).
Proof.
  intros Huser Hjson Hfile Hrows Hnum w0 s'.
  split; [intros; apply parse_cgm_timestamp_first_success|].
  destruct (stored_rows_effect env user rows w0)
    as (cgm & b & E & Hcgm & Hk & _ & Hok).
  destruct (Hok eq_refl Hnum) as (-> & Hp & Hc). clear Hok.
  assert (∃ fc,
            readings (db s')
            = readings (session (foldl (λ w row, stored_row env user row w)
                                   w0 rows)) ++ fc ∧
            Forall (λ r, gr_source r = "forecast") fc ∧
            (clock_ticks s + clock_reads rows ≤ clock_ticks s')%nat)
    as (fc & Es & Hfc & Hticks).
  { assert (failing (foldl (λ w row, stored_row env user row w) w0 rows) = false)
      as Hf by (by rewrite E).
    subst s'.
    rewrite (api_forecast_upload_run ctx user file rows s Huser Hjson Hfile
               Hrows Hf).
    fold w0. rewrite E.
    match goal with
    | |- context [forecast_and_cache env user ?d true ?w3] =>
        pose proof (forecast_and_cache_cases user d true w3 eq_refl eq_refl) as H;
        destruct (forecast_and_cache env user d true w3) as [[resp|e] w']
    end.
    - destruct H as (rs & pts & fc & _ & _ & _ & Ec & Hc' & Ht & _).
      simpl in Ec, Ht |- *. exists fc. rewrite Ec. simpl.
      split; [done|]. split; [|lia].
      clear -Hc'. induction Hc' as [|pt r pts fc (_ & ? & _) _ IH]; by constructor.
    - destruct H as (Ec & _ & _ & Ht). simpl in Ec, Ht |- *. exists [].
      rewrite Ec. simpl. rewrite app_nil_r. split; [done|]. split; [done|lia]. }
  split; [by exists fc|].
  rewrite E in Es. simpl in Es, Hp, Hc.
  split.
  { intros row ts_str t Hin Hts Hfirst. unfold cgm_count.
    rewrite Es, count_cgm_at_app. specialize (Hp row ts_str t Hin Hts Hfirst). lia. }
  split.
  { intros row Hin Hts. destruct (Hc row Hin Hts) as (n & Hn & Hcount).
    exists n. split; [lia|]. unfold cgm_count. rewrite Es, count_cgm_at_app. lia. }
  split; [apply stored_rows_skip|].
  intros Hall. rewrite Es, filter_app, (filter_cgm_forecast fc Hfc), app_nil_r.
  assert (foldl (λ w row, stored_row env user row w) w0 rows = w0) as Hskip.
  { rewrite stored_rows_skip.
    assert (filter (λ row, ¬ skipped env row) rows = []) as ->; [|done].
    clear -Hall. induction rows as [|row rows IH]; [done|].
    rewrite filter_cons, decide_False.
    - apply IH. intros r Hr. apply Hall. by right.
    - intros Hno. apply Hno, Hall. left. }
  rewrite E in Hskip. apply (f_equal (λ w, readings (session w))) in Hskip.
  simpl in Hskip. by rewrite Hskip.
Qed.

(** C3, for the upload of a file whose glucose cells all convert to
    numbers: through any forecast request of a user, a [cgm] reading the
    user already has at a timestamp is not stored again, and a timestamp
    with at most one such reading keeps at most one; after the upload,
    every timestamp parsed from one of the rows has, as the store keeps
    it, exactly one [cgm] reading of the user, however many rows carry it,
    and still exactly one after the same upload is sent again. *)
Theorem cgm_upload_deduplicates (ctx : context) (user : User) (s : server) :
  current_user ctx = Some user →
  let uid := u_id user in
  let s1 := (dispatch (api_forecast env ctx) s).2 in
  let s2 := (dispatch (api_forecast env ctx) s1).2 in
  (∀ t, (1 ≤ cgm_count uid t (db s))%nat →
        cgm_count uid t (db s1) = cgm_count uid t (db s)) ∧
  (∀ t, (cgm_count uid t (db s) ≤ 1)%nat → (cgm_count uid t (db s1) ≤ 1)%nat) ∧
  (∀ file rows row ts_str t,
     is_json (req ctx) = false →
     files (req ctx) !! "file" = Some file →
     rows_of_upload env file = Some rows →
     numbers rows →
     row ∈ rows → cr_timestamp row = Some ts_str →
     first_success (timestamp_attempts env ts_str) = Some t →
     (cgm_count uid (as_stored t) (db s) ≤ 1)%nat →
     cgm_count uid (as_stored t) (db s1) = 1%nat ∧
     cgm_count uid (as_stored t) (db s2) = 1%nat).
Proof.
  intros Huser uid s1 s2.
  pose proof (api_forecast_count_kept ctx user s Huser) as Hk1.
  pose proof (api_forecast_count_kept ctx user s1 Huser) as Hk2.
  fold s1 in Hk1. fold s2 in Hk2. unfold cgm_count.
  split; [intros t Ht; specialize (Hk1 t); fold uid in Hk1; lia|].
  split; [intros t Ht; specialize (Hk1 t); fold uid in Hk1; lia|].
  intros file rows row ts_str t Hjson Hfile Hrows Hnum Hin Hts Hfirst Hone.
  assert (1 ≤ count_cgm_at uid (as_stored t) (readings (db s1)))%nat as Hpresent.
  { pose proof (api_forecast_upload ctx user file s Huser Hjson Hfile) as H.
    rewrite Hrows in H. destruct H as (cgm & fc & E & _ & _ & _ & Hses & _).
    destruct (stored_rows_effect env user rows
                (mkWorld (db s) (db s) (clock_ticks s) (flashed s)))
      as (cgm' & b & E' & _ & _ & _ & Hok).
    destruct (Hok eq_refl Hnum) as (-> & Hp & _).
    rewrite E' in Hses. simpl in Hses, Hp. specialize (Hses eq_refl).
    subst s1. rewrite E, count_cgm_at_app, <- Hses.
    specialize (Hp row ts_str t Hin Hts Hfirst). fold uid in Hp. lia. }
  specialize (Hk1 (as_stored t)). specialize (Hk2 (as_stored t)).
  fold uid in Hk1, Hk2. lia.
Qed.

(** C7: when the forecast API answers with a forecast, the stored readings
    end with one reading per returned point, in order, each owned by the
    requesting user, with source [forecast], the point's glucose value,
    and, as the store keeps it, the point's own timestamp when that is a
    string (it then parsed) or the current time of the request otherwise:
    the value of the last call of the clock in the request, made once
    before the points are cached, which for a JSON request is its only
    call and for an upload follows one call for each row without a
    timestamp. Each of the readings is among the user's readings as later
    requests read them. *)
Theorem api_forecast_caches_points
    (ctx : context) (user : User) (s s' : server)
    (pts : list forecast_point) (flag : bool) :
  current_user ctx = Some user →
  dispatch (api_forecast env ctx) s = (JsonForecast pts flag, s') →
  ∃ n before cached,
    clock_ticks s' = S n ∧ (clock_ticks s ≤ n)%nat ∧
    (is_json (req ctx) = true → n = clock_ticks s) ∧
    (∀ file rows,
       is_json (req ctx) = false → files (req ctx) !! "file" = Some file →
       rows_of_upload env file = Some rows →
       n = (clock_ticks s + clock_reads rows)%nat) ∧
    readings (db s') = before ++ cached ∧
    Forall2 (caches env user (clock env n)) pts cached ∧
    Forall (λ r, r ∈ readings_of (u_id user) (db s')) cached.
Proof.
  intros Huser Hrun.
  assert (∃ n before cached,
            clock_ticks s' = S n ∧ (clock_ticks s ≤ n)%nat ∧
            (is_json (req ctx) = true → n = clock_ticks s) ∧
            (∀ file rows,
               is_json (req ctx) = false → files (req ctx) !! "file" = Some file →
               rows_of_upload env file = Some rows →
               n = (clock_ticks s + clock_reads rows)%nat) ∧
            readings (db s') = before ++ cached ∧
            Forall2 (caches env user (clock env n)) pts cached)
    as (n & before & cached & Ht & Hn & Hj & Hu & E & Hc).
  { destruct (is_json (req ctx)) eqn:Hjson.
    - destruct (api_forecast_json ctx user s Huser Hjson) as (added & E & _ & Hok).
      rewrite Hrun in E, Hok. simpl in E, Hok.
      destruct (Hok pts flag eq_refl) as (_ & H2 & H3).
      exists (clock_ticks s), (readings (db s)), added. rewrite E.
      split; [done|]. split; [done|]. split; [done|]. split; [done|]. done.
    - destruct (files (req ctx) !! "file") as [file|] eqn:Hfile.
      + pose proof (api_forecast_upload ctx user file s Huser Hjson Hfile) as H.
        destruct (rows_of_upload env file) as [rows|] eqn:Hrows.
        * destruct H as (cgm & fc & E & _ & _ & _ & _ & Hok).
          rewrite Hrun in E, Hok. simpl in E, Hok.
          destruct (Hok pts flag eq_refl) as (_ & _ & H2 & H3).
          exists (clock_ticks s + clock_reads rows)%nat, (readings (db s) ++ cgm), fc.
          split; [done|]. split; [lia|]. split; [done|].
          split; [|done]. intros f r _ [= <-] Hr. rewrite Hrows in Hr.
          by injection Hr as <-.
        * rewrite H in Hrun. discriminate.
      + rewrite (api_forecast_no_data env ctx user s Huser Hjson Hfile) in Hrun.
        discriminate. }
  exists n, before, cached. split; [done|]. split; [done|]. split; [done|].
  split; [done|]. split; [done|]. split; [done|].
  apply Forall_forall. intros r Hr. unfold readings_of.
  apply list_elem_of_filter. split.
  - apply list_elem_of_lookup in Hr as [i Hi].
    destruct (Forall2_lookup_r _ _ _ _ _ Hc Hi) as (pt & _ & Hcaches).
    by destruct Hcaches.
  - rewrite E. apply elem_of_app. by right.
Qed.

(** C9: a forecast request whose body is JSON stores only readings of
    source [forecast]: the [cgm] readings and the audit log stay as they
    were (no [cgm_uploaded] event), a returned [cgm_stored] flag is false,
    and the answer and the stored state do not depend on the uploaded
    files, so a file sent along with a JSON body is ignored. *)
Theorem api_forecast_json_ignores_upload
    (ctx : context) (user : User) (s : server) :
  current_user ctx = Some user →
  is_json (req ctx) = true →
  let out := dispatch (api_forecast env ctx) s in
  (∃ added,
     readings (db out.2) = readings (db s) ++ added ∧
     Forall (λ r, gr_source r = "forecast") added) ∧
  filter (λ r, gr_source r = "cgm") (readings (db out.2))
  = filter (λ r, gr_source r = "cgm") (readings (db s)) ∧
  audit_logs (db out.2) = audit_logs (db s) ∧
  (∀ pts flag, out.1 = JsonForecast pts flag → flag = false) ∧
  (∀ fs, dispatch (api_forecast env (with_files fs ctx)) s = out).
Proof.
  intros Huser Hjson out.
  destruct (api_forecast_json ctx user s Huser Hjson) as (added & E & Hall & Hok).
  fold out in E, Hok. rewrite E. simpl.
  assert (Forall (λ r, gr_source r = "forecast") added) as Hsrc.
  { eapply Forall_impl; [exact Hall|]. by intros r [_ ?]. }
  split; [by exists added|].
  split.
  { by rewrite filter_app, (filter_cgm_forecast added Hsrc), app_nil_r. }
  split; [done|].
  split; [intros pts flag Hr; by destruct (Hok pts flag Hr)|].
  intros fs. subst out. unfold dispatch, api_forecast, login_required, with_files.
  simpl. by rewrite Hjson.
Qed.

End api_forecast_facts.

(** *** The properties on the sample requests *)

(** Against C1 as stated: two calls of a logged-in user that store no
    prediction. The body of the first does not parse and the answer is the
    error page with status 400; the model service of the second raises and
    the answer is the error page with status 500. *)
Lemma authenticated_predict_call_may_store_nothing :
  App.current_user (as_patient empty_request) = Some patient_zero ∧
  App.dispatch (App.api_predict sample_env (as_patient empty_request))
    sample_server
  = (App.ErrorPage 400, sample_server) ∧
  App.dispatch (App.api_predict silent_env
                  (as_patient (json_request high_risk_payload))) sample_server
  = (App.ErrorPage 500, sample_server) ∧
  ¬ ∃ rp,
      Db.predictions
        (App.db (App.dispatch (App.api_predict sample_env (as_patient empty_request))
                   sample_server).2)
      = Db.predictions (App.db sample_server) ++ [rp].
Proof.
  split; [reflexivity|]. split; [vm_compute; reflexivity|].
  split; [vm_compute; reflexivity|].
  intros (rp & H). vm_compute in H. discriminate.
Qed.

Lemma sample_upload_numbers :
  Spec.numbers
    [App.mkCgmRow (Some "2024-01-01T08:00:00") 110%float;
     App.mkCgmRow (Some "2024-01-01T08:00:00") 95.5%float;
     App.mkCgmRow (Some "not a date") 140%float;
     App.mkCgmRow None 140%float].
Proof. repeat (apply Forall_cons_2; [reflexivity|]). apply Forall_nil_2. Defined.

Lemma cgm_rows_parsed_in_order_and_stored_witness :
  let s' := (App.dispatch (App.api_forecast sample_env (as_patient sample_upload))
               sample_server).2 in
  (1 ≤ Spec.cgm_count 1 morning (App.db s'))%nat ∧
  (∃ n, (0 ≤ n < App.clock_ticks s')%nat ∧
        (1 ≤ Spec.cgm_count 1 (sample_clock n) (App.db s'))%nat).
Proof.
  destruct (cgm_rows_parsed_in_order_and_stored sample_env
              (as_patient sample_upload) patient_zero
              (App.CsvRows
                 (list_to_map <$>
                  [[("timestamp", "2024-01-01T08:00:00"); ("glucose", "110")];
                   [("timestamp", "2024-01-01T08:00:00"); ("glucose", "95.5")];
                   [("timestamp", "not a date"); ("glucose", "140")];
                   [("glucose", "140")]]))
              [App.mkCgmRow (Some "2024-01-01T08:00:00") 110%float;
               App.mkCgmRow (Some "2024-01-01T08:00:00") 95.5%float;
               App.mkCgmRow (Some "not a date") 140%float;
               App.mkCgmRow None 140%float]
              sample_server)
    as (_ & _ & Hparsed & Habsent & _).
  - reflexivity.
  - reflexivity.
  - vm_compute. reflexivity.
  - vm_compute. reflexivity.
  - exact sample_upload_numbers.
  - split.
    + apply (Hparsed (App.mkCgmRow (Some "2024-01-01T08:00:00") 110%float)
               "2024-01-01T08:00:00" morning).
      * apply list_elem_of_here.
      * reflexivity.
      * reflexivity.
    + apply (Habsent (App.mkCgmRow None 140%float)).
      * do 3 apply list_elem_of_further. apply list_elem_of_here.
      * reflexivity.
Defined.

(** Against C2 as stated. The only row of the first upload has a timestamp
    string that fails the three formats: the request succeeds, and no
    [cgm] reading is stored for the row (the stored readings are the two
    cached forecast points). The only row of the second upload has no
    timestamp and the glucose cell [nan]: the store refuses the row, the
    answer is the error page with status 500 and no reading is stored. The
    third upload has a row without a timestamp and a row whose glucose
    cell is no number: the answer is the error page with status 500 and
    the server is as before, so the row without a timestamp is not
    stored. *)
Lemma unparsable_cgm_row_is_not_stored :
  Spec.first_success (Spec.timestamp_attempts sample_env "not a date") = None ∧
  App.status_code
    (App.dispatch (App.api_forecast sample_env (as_patient no_date_upload))
       sample_server).1 = 200 ∧
  Db.readings
    (App.db (App.dispatch (App.api_forecast sample_env (as_patient no_date_upload))
               sample_server).2)
  = [Db.mkGlucoseReading 1 1 noon 118%float "forecast";
     Db.mkGlucoseReading 2 1 (sample_clock 0) 121%float "forecast"] ∧
  (¬ ∃ r,
       r ∈ Db.readings
             (App.db (App.dispatch
                        (App.api_forecast sample_env (as_patient no_date_upload))
                        sample_server).2) ∧
       Db.gr_source r = "cgm") ∧
  (App.dispatch (App.api_forecast sample_env (as_patient nan_upload))
     sample_server).1 = App.ErrorPage 500 ∧
  Db.readings
    (App.db (App.dispatch (App.api_forecast sample_env (as_patient nan_upload))
               sample_server).2) = [] ∧
  App.dispatch (App.api_forecast sample_env (as_patient absent_and_bad_upload))
    sample_server
  = (App.ErrorPage 500, sample_server).
Proof.
  assert (Db.readings
            (App.db (App.dispatch
                       (App.api_forecast sample_env (as_patient no_date_upload))
                       sample_server).2)
          = [Db.mkGlucoseReading 1 1 noon 118%float "forecast";
             Db.mkGlucoseReading 2 1 (sample_clock 0) 121%float "forecast"]) as E
    by (vm_compute; reflexivity).
  split; [vm_compute; reflexivity|]. split; [vm_compute; reflexivity|].
  split; [exact E|]. split.
  - rewrite E. intros (r & Hr & Hsrc).
    apply list_elem_of_In in Hr. simpl in Hr.
    destruct Hr as [<-|[<-|[]]]; discriminate.
  - repeat split; vm_compute; reflexivity.
Qed.

Lemma cgm_upload_deduplicates_witness :
  let s1 := (App.dispatch (App.api_forecast sample_env (as_patient sample_upload))
               sample_server).2 in
  let s2 := (App.dispatch (App.api_forecast sample_env (as_patient sample_upload))
               s1).2 in
  Spec.cgm_count 1 morning (App.db s1) = 1%nat ∧
  Spec.cgm_count 1 morning (App.db s2) = 1%nat.
Proof.
  destruct (cgm_upload_deduplicates sample_env (as_patient sample_upload)
              patient_zero sample_server eq_refl) as (_ & _ & H).
  apply (H (App.CsvRows
              (list_to_map <$>
               [[("timestamp", "2024-01-01T08:00:00"); ("glucose", "110")];
                [("timestamp", "2024-01-01T08:00:00"); ("glucose", "95.5")];
                [("timestamp", "not a date"); ("glucose", "140")];
                [("glucose", "140")]]))
           [App.mkCgmRow (Some "2024-01-01T08:00:00") 110%float;
            App.mkCgmRow (Some "2024-01-01T08:00:00") 95.5%float;
            App.mkCgmRow (Some "not a date") 140%float;
            App.mkCgmRow None 140%float]
           (App.mkCgmRow (Some "2024-01-01T08:00:00") 110%float)
           "2024-01-01T08:00:00" morning).
  - reflexivity.
  - vm_compute. reflexivity.
  - vm_compute. reflexivity.
  - exact sample_upload_numbers.
  - apply list_elem_of_here.
  - reflexivity.
  - reflexivity.
  - vm_compute. lia.
Defined.

(** Against C3 as stated. Both uploads carry the same timestamp in two
    rows. The first has a third row whose glucose cell is no number at
    all: the answer is the error page with status 500 and the server is as
    before. The first row of the second has the glucose cell [nan]: the
    store refuses the row at the next flush, the answer is the error page
    with status 500, and nothing is stored. Either way the timestamp has no
    [cgm] reading afterwards, not exactly one. *)
Lemma repeated_timestamp_upload_may_store_nothing :
  App.dispatch (App.api_forecast sample_env (as_patient repeated_and_bad_upload))
    sample_server
  = (App.ErrorPage 500, sample_server) ∧
  Spec.cgm_count 1 morning
    (App.db (App.dispatch
               (App.api_forecast sample_env (as_patient repeated_and_bad_upload))
               sample_server).2) = 0%nat ∧
  App.dispatch (App.api_forecast sample_env (as_patient nan_first_upload))
    sample_server
  = (App.ErrorPage 500, sample_server) ∧
  Spec.cgm_count 1 morning
    (App.db (App.dispatch
               (App.api_forecast sample_env (as_patient nan_first_upload))
               sample_server).2) = 0%nat.
Proof. repeat split; vm_compute; reflexivity. Qed.

Lemma api_forecast_caches_points_witness :
  ∃ before cached,
    Db.readings
      (App.db (App.dispatch
                 (App.api_forecast sample_env (as_patient (json_request sample_readings)))
                 busy_server).2)
    = before ++ cached ∧
    Forall2 (Spec.caches sample_env patient_zero (sample_clock 4))
      sample_points cached.
Proof.
  destruct (api_forecast_caches_points sample_env
              (as_patient (json_request sample_readings)) patient_zero
              busy_server
              (App.dispatch
                 (App.api_forecast sample_env (as_patient (json_request sample_readings)))
                 busy_server).2
              sample_points false)
    as (n & before & cached & _ & _ & Hn & _ & H1 & H2 & _).
  - reflexivity.
  - vm_compute. reflexivity.
  - exists before, cached. split; [exact H1|].
    rewrite (Hn eq_refl) in H2. exact H2.
Defined.

Lemma api_forecast_json_ignores_upload_witness :
  Db.audit_logs
    (App.db (App.dispatch (App.api_forecast sample_env (as_patient json_with_file))
               sample_server).2)
  = [] ∧
  App.dispatch (App.api_forecast sample_env
                  (Spec.with_files ∅ (as_patient json_with_file))) sample_server
  = App.dispatch (App.api_forecast sample_env (as_patient json_with_file))
      sample_server.
Proof.
  destruct (api_forecast_json_ignores_upload sample_env
              (as_patient json_with_file) patient_zero sample_server)
    as (_ & _ & H1 & _ & H2).
  - reflexivity.
  - reflexivity.
  - split; [exact H1 | exact (H2 ∅)].
Defined.

(** The sample upload stores one [cgm] reading for the repeated timestamp
    and one for the row without a timestamp, skips the row that is no date,
    and then caches the two forecast points. *)
Example sample_upload_stored :
  Db.readings
    (App.db (App.dispatch (App.api_forecast sample_env (as_patient sample_upload))
               sample_server).2)
  = [Db.mkGlucoseReading 1 1 morning 110%float "cgm";
     Db.mkGlucoseReading 2 1 (sample_clock 0) 140%float "cgm";
     Db.mkGlucoseReading 3 1 noon 118%float "forecast";
     Db.mkGlucoseReading 4 1 (sample_clock 1) 121%float "forecast"].
Proof. vm_compute. reflexivity. Qed.

(** A timestamp with the marker [Z] parses to a value with the offset of
    UTC; the store keeps it without the offset, so it meets the reading of
    the same wall-clock time and is not stored again. *)
Example zulu_upload_stored :
  sample_fromisoformat (Py.replace "Z"%char "+00:00" "2024-01-01T08:00:00Z")
  = Some morning_utc ∧
  Db.as_stored morning_utc = morning ∧
  filter (λ r, Db.gr_source r = "cgm")
    (Db.readings
       (App.db (App.dispatch (App.api_forecast sample_env (as_patient zulu_upload))
                  sample_server).2))
  = [Db.mkGlucoseReading 1 1 morning 110%float "cgm"].
Proof. repeat split; vm_compute; reflexivity. Qed.

(** [replace] rewrites every [Z], not only a trailing one. *)
Example replace_rewrites_every_Z :
  Py.replace "Z"%char "+00:00" "2024-01-01T08:00:00Z" = "2024-01-01T08:00:00+00:00" ∧
  Py.replace "Z"%char "+00:00" "Z1Z" = "+00:001+00:00".
Proof. split; reflexivity. Qed.

(** Two decimals, ties of the exact binary value to even. *)
#[warnings="-inexact-float"]
Example format_2f_samples :
  Py.format_2f 0.7 = "0.70" ∧ Py.format_2f 0.875 = "0.88" ∧
  Py.format_2f 0.125 = "0.12" ∧ Py.format_2f 0.995 = "0.99" ∧
  Py.format_2f 1 = "1.00".
Proof. repeat split; vm_compute; reflexivity. Qed.

(** The registration form is stripped before it is stored. *)
Example strip_samples :
  Py.strip "  Ana " = "Ana" ∧ Py.strip "   " = "" ∧ Py.strip "a b" = "a b".
Proof. repeat split; reflexivity. Qed.

(** *** Further properties of the partitioning scripts *)

Section partition_more.
Import Partition.

(** X1: for any number of clients [k >= 1], whatever the number of rows,
    the utility succeeds and its [k] shards, read back in client order,
    carry the source's header and concatenate to the source rows: no row is
    dropped or duplicated. *)
Theorem shards_concatenate_for_any_client_count
    (fs : filesystem) (main_data : string) (df : DataFrame) (k : Z) :
  fs !! main_data = Some df →
  1 ≤ k →
  ∃ fs' shards,
    create_client_data_files k main_data fs = (Returned true, fs') ∧
    read_clients k fs' = Some shards ∧
    Z.of_nat (length shards) = k ∧
    Forall (λ d, columns d = columns df) shards ∧
    concat (rows <$> shards) = rows df.
Proof.
  intros Hmain Hk.
  exists (write_clients df k fs), (client_df df k <$> Py.range 1 (k + 1)).
  split.
  { unfold create_client_data_files. rewrite Hmain.
    destruct (Z.eqb_spec k 0); [lia | done]. }
  split; [apply read_clients_written|].
  split; [rewrite length_fmap; unfold Py.range; rewrite length_seqZ; lia|].
  split; [by apply Forall_fmap, Forall_forall|].
  by apply concat_client_rows.
Qed.

Lemma shards_concatenate_for_any_client_count_witness :
  ∃ fs' shards,
    create_client_data_files 8 "data/pima_sample.csv" sample_files
    = (Returned true, fs') ∧
    read_clients 8 fs' = Some shards ∧
    concat (rows <$> shards) = rows sample_frame.
Proof.
  destruct (shards_concatenate_for_any_client_count sample_files
              "data/pima_sample.csv" sample_frame 8)
    as (fs' & shards & H1 & H2 & _ & _ & H3).
  - reflexivity.
  - lia.
  - by exists fs', shards.
Defined.

(** X2: the utility writes nothing and reports failure when the source
    file is missing; a client count of [0] ends in the division error
    before anything is written; a negative client count writes nothing and
    still reports success. *)
Theorem create_client_data_files_edge_cases
    (fs : filesystem) (main_data : string) (k : Z) :
  (fs !! main_data = None →
   create_client_data_files k main_data fs = (Returned false, fs)) ∧
  (is_Some (fs !! main_data) →
   create_client_data_files 0 main_data fs = (ZeroDivisionError, fs)) ∧
  (is_Some (fs !! main_data) → k < 0 →
   create_client_data_files k main_data fs = (Returned true, fs)).
Proof.
  unfold create_client_data_files. split; [by intros ->|].
  split; intros [df ->]; [done|]. intros Hk.
  destruct (Z.eqb_spec k 0); [lia|].
  unfold write_clients, Py.range. by rewrite seqZ_nil by lia.
Qed.

Lemma create_client_data_files_edge_cases_witness :
  create_client_data_files 3 "data/other.csv" sample_files
  = (Returned false, sample_files) ∧
  create_client_data_files 0 "data/pima_sample.csv" sample_files
  = (ZeroDivisionError, sample_files) ∧
  create_client_data_files (-2) "data/pima_sample.csv" sample_files
  = (Returned true, sample_files).
Proof.
  split; [|split].
  - apply (create_client_data_files_edge_cases sample_files "data/other.csv" 3).
    reflexivity.
  - apply (create_client_data_files_edge_cases sample_files
             "data/pima_sample.csv" 3).
    by eexists.
  - apply (create_client_data_files_edge_cases sample_files
             "data/pima_sample.csv" (-2)); [by eexists | lia].
Defined.

Lemma write_clients_twice (df : DataFrame) (k : Z) (fs : filesystem) :
  write_clients df k (write_clients df k fs) = write_clients df k fs.
Proof.
  apply map_eq. intros p.
  destruct (decide (p ∈ client_file <$> Py.range 1 (k + 1))) as [Hp|Hp].
  - apply list_elem_of_fmap in Hp as (i & -> & Hi).
    unfold Py.range in Hi. apply elem_of_seqZ in Hi.
    by rewrite !write_clients_lookup by lia.
  - rewrite write_clients_other; [done|].
    intros i Hi ->. apply Hp. apply list_elem_of_fmap. exists i.
    split; [done|]. unfold Py.range. apply elem_of_seqZ. lia.
Qed.

(** X3: running the utility a second time changes nothing, provided the
    source file is not itself one of the client files: the second run
    returns the same value and leaves the files of the first run. *)
Theorem create_client_data_files_idempotent
    (fs : filesystem) (main_data : string) (k : Z) :
  (∀ i, 1 ≤ i ≤ k → main_data ≠ client_file i) →
  create_client_data_files k main_data
    (create_client_data_files k main_data fs).2
  = create_client_data_files k main_data fs.
Proof.
  intros Hmain. unfold create_client_data_files.
  destruct (fs !! main_data) as [df|] eqn:E; simpl; [|by rewrite E].
  destruct (Z.eqb_spec k 0); simpl; [by rewrite E|].
  rewrite write_clients_other, E by done.
  destruct (Z.eqb_spec k 0); [done|]. by rewrite write_clients_twice.
Qed.

Lemma create_client_data_files_idempotent_witness :
  create_client_data_files 2 "data/pima_sample.csv"
    (create_client_data_files 2 "data/pima_sample.csv" sample_files).2
  = create_client_data_files 2 "data/pima_sample.csv" sample_files.
Proof.
  apply create_client_data_files_idempotent.
  intros i _ E. by apply (client_file_not_main i).
Defined.

Lemma ensure_client_file_keeps (k : Z) (fs : filesystem) (i : Z) p d :
  fs !! p = Some d → ensure_client_file k fs i !! p = Some d.
Proof.
  intros Hp. unfold ensure_client_file.
  destruct (fs !! client_file i) eqn:Hi; [done|].
  destruct (fs !! "data/pima_sample.csv"); [|done].
  rewrite lookup_insert_ne; [done|]. intros <-. congruence.
Qed.

Lemma foldl_ensure_keeps (k : Z) (l : list Z) (fs : filesystem) p d :
  fs !! p = Some d → foldl (ensure_client_file k) fs l !! p = Some d.
Proof.
  revert fs. induction l as [|i l IH]; intros fs Hp; [done|].
  simpl. by apply IH, ensure_client_file_keeps.
Qed.

Lemma foldl_ensure_exists (k : Z) (l : list Z) (fs : filesystem) i :
  is_Some (fs !! "data/pima_sample.csv") → i ∈ l →
  is_Some (foldl (ensure_client_file k) fs l !! client_file i).
Proof.
  revert fs. induction l as [|x l IH]; intros fs [df Hmain] Hi.
  { by apply not_elem_of_nil in Hi. }
  simpl. apply elem_of_cons in Hi as [->|Hi].
  - assert (is_Some (ensure_client_file k fs x !! client_file x)) as [d Hd].
    { unfold ensure_client_file.
      destruct (fs !! client_file x) eqn:Hx; [by rewrite Hx|].
      rewrite Hmain, lookup_insert_eq. by eexists. }
    exists d. by apply foldl_ensure_keeps.
  - apply IH; [|done]. exists df. by apply ensure_client_file_keeps.
Qed.

(** X4: the inline split of the simulation driver never overwrites or
    removes a file that exists; without the main dataset it writes
    nothing; with it, every client file [1..k] exists afterwards. *)
Theorem ensure_client_files_keeps_existing (fs : filesystem) (k : Z) :
  (∀ p d, fs !! p = Some d → ensure_client_files k fs !! p = Some d) ∧
  (fs !! "data/pima_sample.csv" = None → ensure_client_files k fs = fs) ∧
  (is_Some (fs !! "data/pima_sample.csv") →
   ∀ i, 1 ≤ i ≤ k → is_Some (ensure_client_files k fs !! client_file i)).
Proof.
  unfold ensure_client_files. split; [|split].
  - intros p d. apply foldl_ensure_keeps.
  - intros Hmain. induction (Py.range 1 (k + 1)) as [|i l IH]; [done|].
    simpl. unfold ensure_client_file at 2. rewrite Hmain.
    by destruct (fs !! client_file i).
  - intros Hmain i Hi. apply foldl_ensure_exists; [done|].
    unfold Py.range. apply elem_of_seqZ. lia.
Qed.

Lemma ensure_client_files_keeps_existing_witness :
  ensure_client_files 2 stale_files !! client_file 1
  = Some (mkDataFrame ["Glucose"] [["1"]]) ∧
  ensure_client_files 2 (∅ : filesystem) = ∅ ∧
  is_Some (ensure_client_files 2 stale_files !! client_file 2).
Proof.
  split; [|split].
  - apply (ensure_client_files_keeps_existing stale_files 2). reflexivity.
  - apply (ensure_client_files_keeps_existing ∅ 2). reflexivity.
  - apply (ensure_client_files_keeps_existing stale_files 2); [by eexists | lia].
Defined.

Lemma ensure_client_files_fresh_witness :
  ensure_client_files 2 sample_files = write_clients sample_frame 2 sample_files.
Proof.
  apply ensure_client_files_fresh; [reflexivity|].
  intros i Hi. assert (i = 1 ∨ i = 2) as [-> | ->] by lia; reflexivity.
Defined.

End partition_more.

(** *** The database address *)

Section config_facts.
Import Config.

Lemma string_app_cons (a : Ascii.ascii) (p s : string) :
  String a p +:+ s = String a (p +:+ s).
Proof. done. Qed.

Lemma prefix_split (p s : string) :
  String.prefix p s = true → s = p +:+ skip (String.length p) s.
Proof.
  revert s. induction p as [|a p IH]; intros s H; [done|].
  destruct s as [|b s]; [done|]. simpl in H.
  destruct (Ascii.ascii_dec a b) as [->|]; [|done].
  rewrite string_app_cons. simpl. f_equal. by apply IH.
Qed.

Lemma string_prefix_app (p s : string) : String.prefix p (p +:+ s) = true.
Proof.
  induction p as [|a p IH].
  { change ("" +:+ s) with s. by destruct s. }
  rewrite string_app_cons. simpl. by destruct (Ascii.ascii_dec a a).
Qed.

Lemma skip_app (p s : string) : skip (String.length p) (p +:+ s) = s.
Proof.
  induction p as [|a p IH]; [reflexivity|].
  rewrite string_app_cons. simpl. exact IH.
Qed.

Lemma replace_first_head (old new s : string) :
  String.prefix old s = true →
  replace_first old new s = new +:+ skip (String.length old) s.
Proof. intros H. destruct s; cbn -[String.prefix skip]; by rewrite H. Qed.

Lemma database_uri_not_legacy (database_url : option string) (db_path : string) :
  startswith (database_uri database_url db_path) "postgres://" = false.
Proof.
  unfold database_uri.
  destruct database_url as [url|]; [|done].
  destruct (String.eqb url ""); [done|]. simpl.
  destruct (startswith url "postgres://") eqn:E; [|done].
  unfold replace_first. destruct url; [done|].
  unfold startswith in E. by rewrite E.
Qed.

Lemma database_uri_not_empty (database_url : option string) (db_path : string) :
  String.eqb (database_uri database_url db_path) "" = false.
Proof.
  unfold database_uri.
  destruct database_url as [url|]; [|done].
  destruct (String.eqb url "") eqn:E0; [done|]. simpl.
  destruct (startswith url "postgres://") eqn:E; [|done].
  unfold replace_first. destruct url; [done|].
  unfold startswith in E. by rewrite E.
Qed.

(** X5: the legacy scheme [postgres://] at the head of [DATABASE_URL] is
    rewritten to [postgresql://] and the rest of the address is kept; the
    configured address never starts with the legacy scheme; an address
    without it is taken as it is; without a value (unset or empty) the
    local file is used; and configuring again from the configured address
    gives the same address. *)
Theorem database_uri_rewrites_legacy_scheme
    (database_url : option string) (url rest db_path : string) :
  database_uri (Some ("postgres://" +:+ rest)) db_path = "postgresql://" +:+ rest ∧
  startswith (database_uri database_url db_path) "postgres://" = false ∧
  (url ≠ "" → startswith url "postgres://" = false →
   database_uri (Some url) db_path = url) ∧
  database_uri None db_path = "sqlite:///" +:+ db_path ∧
  database_uri (Some "") db_path = "sqlite:///" +:+ db_path ∧
  database_uri (Some (database_uri database_url db_path)) db_path
  = database_uri database_url db_path.
Proof.
  split.
  { unfold database_uri, startswith.
    destruct (String.eqb_spec ("postgres://" +:+ rest) "") as [E|_].
    { rewrite string_app_cons in E. discriminate. }
    simpl negb. cbv iota. rewrite string_prefix_app.
    rewrite replace_first_head by apply string_prefix_app. by rewrite skip_app. }
  split; [apply database_uri_not_legacy|].
  split.
  { intros Hne Hpre. unfold database_uri.
    destruct (String.eqb_spec url ""); [done|]. simpl. by rewrite Hpre. }
  split; [done|]. split; [done|].
  pose proof (database_uri_not_legacy database_url db_path) as H1.
  pose proof (database_uri_not_empty database_url db_path) as H2.
  generalize dependent (database_uri database_url db_path). intros r H1 H2.
  unfold database_uri. by rewrite H2, H1.
Qed.

Lemma database_uri_rewrites_legacy_scheme_witness :
  database_uri (Some "postgres://u:p@host:5432/app") "/srv/app.db"
  = "postgresql://u:p@host:5432/app" ∧
  database_uri (Some "mysql://host/app") "/srv/app.db" = "mysql://host/app".
Proof.
  destruct (database_uri_rewrites_legacy_scheme None "mysql://host/app"
              "u:p@host:5432/app" "/srv/app.db") as (H1 & _ & H2 & _).
  split; [exact H1|]. apply H2; [discriminate | reflexivity].
Defined.

End config_facts.

(** *** Further properties of the prediction API *)

Section predict_more.
Import Db App Spec Spec2.
Context (env : environment).

(** X6: the prediction API stores nothing when it does not reach a
    prediction: an anonymous call is redirected to the login page, a body
    that does not parse is answered with 400, and a model service that
    raises with 500; in each case the stored tables are as before. *)
Theorem api_predict_stores_nothing_on_failure (ctx : context) (s : server) :
  (current_user ctx = None →
   (dispatch (api_predict env ctx) s).1 = RedirectTo "login" ∧
   db (dispatch (api_predict env ctx) s).2 = db s) ∧
  (is_Some (current_user ctx) → json (req ctx) = None →
   (dispatch (api_predict env ctx) s).1 = ErrorPage 400 ∧
   db (dispatch (api_predict env ctx) s).2 = db s) ∧
  (∀ payload,
     is_Some (current_user ctx) → json (req ctx) = Some payload →
     (if federated_is_available (ml env) then federated_predict (ml env)
      else standard_predict (ml env)) payload = None →
     (dispatch (api_predict env ctx) s).1 = ErrorPage 500 ∧
     db (dispatch (api_predict env ctx) s).2 = db s).
Proof.
  unfold dispatch, api_predict, login_required, get_json.
  split; [by intros ->|].
  split.
  - intros [user ->] ->. done.
  - intros payload [user ->] -> Hnone. unfold_prog. by rewrite Hnone.
Qed.

(** X7: a prediction that is made is logged once: the audit log gains
    exactly one entry, for the calling user, with action [prediction_made],
    the label and the two-decimal probability in its details and the
    client address; users, profiles and readings stay as they were. *)
Theorem api_predict_logs_prediction
    (ctx : context) (user : User) (payload : Py.value)
    (pred : Z) (prob : float) (features : list string) (s : server) :
  current_user ctx = Some user →
  json (req ctx) = Some payload →
  (if federated_is_available (ml env) then federated_predict (ml env)
   else standard_predict (ml env)) payload = Some (pred, prob, features) →
  let s' := (dispatch (api_predict env ctx) s).2 in
  audit_logs (db s')
  = audit_logs (db s)
    ++ [audit_entry (db s) (Some (u_id user)) "prediction_made"
          ("Risk prediction: " +:+ Py.format_int pred +:+ ", probability: "
           +:+ Py.format_2f prob)
          (remote_addr (req ctx))] ∧
  users (db s') = users (db s) ∧
  profiles (db s') = profiles (db s) ∧
  readings (db s') = readings (db s).
Proof.
  intros Huser Hjson Hpredict s'. subst s'.
  unfold dispatch, api_predict, login_required, get_json.
  rewrite Huser, Hjson. unfold_prog. rewrite Hpredict. unfold_prog.
  unfold audit_entry.
  destruct (PrimFloat.leb _ prob); unfold_prog;
    by destruct (falsy (remote_addr (req ctx))).
Qed.

End predict_more.

Section predict_more_witnesses.
Import Db App Spec Spec2.

Lemma api_predict_stores_nothing_on_failure_witness :
  (dispatch (api_predict sample_env (anonymous (json_request high_risk_payload)))
     sample_server).1 = RedirectTo "login" ∧
  (dispatch (api_predict sample_env (as_patient empty_request))
     sample_server).1 = ErrorPage 400 ∧
  db (dispatch (api_predict silent_env
                  (as_patient (json_request high_risk_payload)))
        sample_server).2 = db sample_server.
Proof.
  split; [|split].
  - apply (api_predict_stores_nothing_on_failure sample_env
             (anonymous (json_request high_risk_payload)) sample_server).
    reflexivity.
  - apply (api_predict_stores_nothing_on_failure sample_env
             (as_patient empty_request) sample_server); [by eexists | reflexivity].
  - apply (api_predict_stores_nothing_on_failure silent_env
             (as_patient (json_request high_risk_payload)) sample_server)
      with (payload := high_risk_payload);
      [by eexists | reflexivity | reflexivity].
Defined.

Lemma api_predict_logs_prediction_witness :
  audit_logs
    (db (dispatch (api_predict sample_env
                     (as_patient (json_request high_risk_payload)))
           sample_server).2)
  = [mkAuditLog 1 (Some 1) "prediction_made"
       (Some "Risk prediction: 1, probability: 0.88") (Some "127.0.0.1")].
Proof.
  destruct (api_predict_logs_prediction sample_env
              (as_patient (json_request high_risk_payload)) patient_zero
              high_risk_payload 1 0.875%float sample_features sample_server)
    as (H & _); [reflexivity..|].
  exact H.
Defined.

End predict_more_witnesses.

(** *** Further properties of the forecast API *)

Section forecast_more.
Import Db App Spec Spec2.
Context (env : environment).

(** X8: a JSON forecast request stores all of its forecast or nothing:
    when the answer carries a forecast, exactly one reading per point was
    added; any other answer is an error page with status 400 or 500 and the
    stored tables are as before, also when only a later point fails. *)
Theorem api_forecast_json_all_or_nothing
    (ctx : context) (user : User) (s : server) :
  current_user ctx = Some user →
  is_json (req ctx) = true →
  let out := dispatch (api_forecast env ctx) s in
  (∃ pts flag added,
     out.1 = JsonForecast pts flag ∧
     db out.2 = with_readings (db s) (readings (db s) ++ added) ∧
     length added = length pts) ∨
  ((out.1 = ErrorPage 400 ∨ out.1 = ErrorPage 500) ∧ db out.2 = db s).
Proof.
  intros Huser Hjson out. subst out.
  destruct (json (req ctx)) as [data|] eqn:Hdata.
  2:{ right. unfold dispatch, api_forecast, login_required, get_json.
      rewrite Huser, Hjson, Hdata. simpl. by split; [left|]. }
  rewrite (api_forecast_json_run env ctx user data s Huser Hjson Hdata).
  pose proof (forecast_and_cache_cases env user data false
                (mkWorld (db s) (db s) (clock_ticks s) (flashed s))
                eq_refl eq_refl) as H.
  destruct (forecast_and_cache env user data false _) as [[resp|e] w'].
  - destruct H as (rs & pts & added & _ & _ & -> & E & Hc & _). left.
    exists pts, false, added. simpl in E |- *. split; [done|]. split; [done|].
    symmetry. by eapply Forall2_length.
  - destruct H as (E & He & _). right. simpl in E |- *. split; [|done].
    destruct e; by (left + right).
Qed.

(** X9: a JSON body that is an object without readings (no key
    [readings], or a value there that counts as empty) is forecast from the
    user's stored readings: the latest 50 by the store's descending order,
    handed over oldest first. The answer is the service's forecast for
    them, provided the timestamps of its points parse and their values are
    numbers. *)
Theorem api_forecast_falls_back_to_stored_readings
    (ctx : context) (user : User) (items : list (string * Py.value))
    (pts : list forecast_point) (s : server) :
  current_user ctx = Some user →
  is_json (req ctx) = true →
  json (req ctx) = Some (Py.VDict items) →
  Py.truthy (Py.dict_get items "readings" (Py.VList [])) = false →
  forecast_glucose (ml env) (stored_readings_value env user (db s)) = Some pts →
  timestamps_parse env pts →
  Forall (λ pt, storable_float (pt_glucose pt) = true) pts →
  (dispatch (api_forecast env ctx) s).1 = JsonForecast pts false.
Proof.
  intros Huser Hjson Hdata Hempty Hforecast Hparse Hnum.
  rewrite (api_forecast_json_run env ctx user _ s Huser Hjson Hdata).
  unfold forecast_and_cache. rewrite bind_run, readings_or_stored_run by done.
  cbv zeta. rewrite Hempty. simpl negb. cbv iota. simpl session.
  rewrite bind_run. rewrite Hforecast. unfold lift, ret at 1.
  rewrite bind_run. unfold datetime_now at 1. rewrite bind_run.
  match goal with
  | |- context [for_each pts ?body ?w1] =>
      destruct (cache_loop env user (clock env (clock_ticks s)) pts w1)
        as (added & b & E & _ & Hb & _ & _ & Hok & _);
      specialize (Hb eq_refl Hnum); subst b;
      pose proof (Hok Hparse : (for_each pts body w1).1 = Ok tt) as Hok';
      pose proof (E : (for_each pts body w1).2 = _) as E';
      destruct (for_each pts body w1) as [[[]|e] w2]
  end; simpl in Hok', E'; [|discriminate Hok'].
  subst w2. by unfold_prog.
Qed.

(** X10: a glucose cell that does not convert to a float aborts the whole
    upload: the answer is an error page with status 500 and the server is
    as before, so no row of the file is stored, not even the good ones. *)
Theorem upload_with_bad_glucose_cell_stores_nothing
    (ctx : context) (user : User)
    (raws : list (gmap string string)) (raw : gmap string string)
    (cell : string) (s : server) :
  current_user ctx = Some user →
  is_json (req ctx) = false →
  files (req ctx) !! "file" = Some (CsvRows raws) →
  raw ∈ raws → raw !! "glucose" = Some cell → cell ≠ "" →
  float_of_str env cell = None →
  dispatch (api_forecast env ctx) s = (ErrorPage 500, s).
Proof.
  intros Huser Hjson Hfile Hin Hcell Hne Hfloat.
  pose proof (api_forecast_upload env ctx user _ s Huser Hjson Hfile) as H.
  assert (rows_of_upload env (CsvRows raws) = None) as Hnone.
  { simpl. apply eq_None_not_Some. rewrite mapM_is_Some, Forall_forall.
    intros Hall. specialize (Hall raw Hin). unfold compose, cgm_row_of in Hall.
    rewrite Hcell in Hall. simpl in Hall.
    destruct (String.eqb_spec cell ""); [done|].
    rewrite Hfloat in Hall. simpl in Hall. by destruct Hall. }
  by rewrite Hnone in H.
Qed.

Lemma rows_of_upload_length (raws : list (gmap string string)) rows :
  rows_of_upload env (CsvRows raws) = Some rows → length rows = length raws.
Proof.
  simpl. intros H. apply mapM_Some_1 in H. symmetry. by eapply Forall2_length.
Qed.

(** The ingestion of rows whose values are numbers touches the readings
    only, and leaves a session that flushes. *)
Lemma stored_rows_session (user : User) (rows : list cgm_row) (s : server) :
  let w1 := foldl (λ w row, stored_row env user row w)
              (mkWorld (db s) (db s) (clock_ticks s) (flashed s)) rows in
  users (session w1) = users (db s) ∧ profiles (session w1) = profiles (db s) ∧
  predictions (session w1) = predictions (db s) ∧
  alerts (session w1) = alerts (db s) ∧
  audit_logs (session w1) = audit_logs (db s) ∧
  (numbers rows → failing w1 = false).
Proof.
  intros w1.
  destruct (stored_rows_effect env user rows
              (mkWorld (db s) (db s) (clock_ticks s) (flashed s)))
    as (cgm & b & E & _ & _ & _ & Hok). subst w1. rewrite E. simpl.
  repeat split. intros Hnum. by destruct (Hok eq_refl Hnum) as [-> _].
Qed.

(** X11: a readable upload whose glucose values are numbers is logged once,
    whatever becomes of its rows and of the forecast: the audit log gains
    exactly one entry, for the uploading user, with action [cgm_uploaded],
    and its details give the number of rows of the file, counting also the
    rows that were skipped or were already stored. *)
Theorem upload_is_logged_with_row_count
    (ctx : context) (user : User)
    (raws : list (gmap string string)) (rows : list cgm_row) (s : server) :
  current_user ctx = Some user →
  is_json (req ctx) = false →
  files (req ctx) !! "file" = Some (CsvRows raws) →
  rows_of_upload env (CsvRows raws) = Some rows →
  numbers rows →
  audit_logs (db (dispatch (api_forecast env ctx) s).2)
  = audit_logs (db s)
    ++ [audit_entry (db s) (Some (u_id user)) "cgm_uploaded"
          ("CGM data uploaded: " +:+ Py.format_int (Z.of_nat (length raws))
           +:+ " readings")
          (remote_addr (req ctx))].
Proof.
  intros Huser Hjson Hfile Hrows Hnum.
  destruct (stored_rows_session user rows s) as (_ & _ & _ & _ & Hlogs & Hf).
  rewrite (api_forecast_upload_run env ctx user _ rows s Huser Hjson Hfile Hrows
             (Hf Hnum)).
  rewrite (rows_of_upload_length raws rows Hrows).
  match goal with
  | |- context [forecast_and_cache env user ?d true ?w3] =>
      pose proof (forecast_and_cache_cases env user d true w3 eq_refl eq_refl) as H;
      destruct (forecast_and_cache env user d true w3) as [[resp|e] w']
  end.
  - destruct H as (rs & pts & added & _ & _ & _ & E & _). simpl in E |- *.
    rewrite E. simpl. unfold audit_entry. by rewrite Hlogs.
  - destruct H as [E _]. simpl in E |- *. rewrite E. simpl.
    unfold audit_entry. by rewrite Hlogs.
Qed.

(** X12: the rows of an upload whose glucose values are numbers are
    committed before the forecast is attempted. When the forecast then
    fails and the answer is the error page with status 500, the stored
    readings are still those of the ingestion: every timestamp parsed from
    a row of the file has, as the store keeps it, a [cgm] reading of the
    user. *)
Theorem upload_survives_forecast_failure
    (ctx : context) (user : User) (file : upload) (rows : list cgm_row)
    (s : server) :
  current_user ctx = Some user →
  is_json (req ctx) = false →
  files (req ctx) !! "file" = Some file →
  rows_of_upload env file = Some rows →
  numbers rows →
  (dispatch (api_forecast env ctx) s).1 = ErrorPage 500 →
  let s' := (dispatch (api_forecast env ctx) s).2 in
  readings (db s')
  = readings (session (foldl (λ w row, stored_row env user row w)
                         (mkWorld (db s) (db s) (clock_ticks s) (flashed s))
                         rows)) ∧
  (∀ row ts_str t,
     row ∈ rows → cr_timestamp row = Some ts_str →
     first_success (timestamp_attempts env ts_str) = Some t →
     (1 ≤ cgm_count (u_id user) (as_stored t) (db s'))%nat).
Proof.
  intros Huser Hjson Hfile Hrows Hnum Hresp s'.
  destruct (stored_rows_session user rows s) as (_ & _ & _ & _ & _ & Hf).
  assert (readings (db s')
          = readings (session (foldl (λ w row, stored_row env user row w)
                                 (mkWorld (db s) (db s) (clock_ticks s) (flashed s))
                                 rows))) as E.
  { subst s'. revert Hresp.
    rewrite (api_forecast_upload_run env ctx user _ rows s Huser Hjson Hfile Hrows
               (Hf Hnum)).
    match goal with
    | |- context [forecast_and_cache env user ?d true ?w3] =>
        pose proof (forecast_and_cache_cases env user d true w3 eq_refl eq_refl)
          as H;
        destruct (forecast_and_cache env user d true w3) as [[resp|e] w']
    end.
    - destruct H as (rs & pts & added & _ & _ & -> & _). discriminate.
    - destruct H as [E _]. simpl in E |- *. intros _. by rewrite E. }
  split; [done|]. intros row ts_str t Hin Hts Hfirst.
  unfold cgm_count. rewrite E.
  destruct (stored_rows_effect env user rows
              (mkWorld (db s) (db s) (clock_ticks s) (flashed s)))
    as (cgm & b & -> & _ & _ & _ & Hok).
  destruct (Hok eq_refl Hnum) as (_ & Hp & _).
  simpl. by eapply Hp.
Qed.

End forecast_more.

(** *** The stored tables only grow *)

Ltac grows_ok :=
  unfold Spec2.grows; simpl; repeat split;
  repeat (apply prefix_app_r); reflexivity.

Section grows_facts.
Import Db App Spec Spec2.
Context (env : environment).

Lemma grows_with_readings (t : tables) added :
  grows t (with_readings t (readings t ++ added)).
Proof. grows_ok. Qed.

Lemma register_grows (ctx : context) (s : server) :
  grows (db s) (db (dispatch (register env ctx) s).2).
Proof. unfold dispatch, register. run_handler; grows_ok. Qed.

Lemma create_clinician_grows (ctx : context) (s : server) :
  grows (db s) (db (dispatch (create_clinician env ctx) s).2).
Proof.
  unfold dispatch, create_clinician, login_required, role_required.
  destruct (current_user ctx) as [user|]; run_handler; grows_ok.
Qed.

Lemma seed_defaults_grows (s : server) :
  grows (db s) (db (run_seed_defaults env s)).
Proof. unfold run_seed_defaults, seed_defaults. run_handler; grows_ok. Qed.

Lemma api_predict_grows (ctx : context) (s : server) :
  grows (db s) (db (dispatch (api_predict env ctx) s).2).
Proof.
  unfold dispatch, api_predict, login_required, get_json.
  destruct (current_user ctx) as [user|]; [|grows_ok].
  destruct (json (req ctx)) as [payload|]; [|grows_ok]. unfold_prog.
  destruct (if federated_is_available (ml env) then _ else _) as [[[pred prob] fs]|];
    [|grows_ok].
  unfold_prog. destruct (PrimFloat.leb _ prob); unfold_prog; grows_ok.
Qed.

Lemma api_forecast_grows (ctx : context) (s : server) :
  grows (db s) (db (dispatch (api_forecast env ctx) s).2).
Proof.
  destruct (current_user ctx) as [user|] eqn:Huser.
  2:{ unfold dispatch, api_forecast, login_required. rewrite Huser. grows_ok. }
  destruct (is_json (req ctx)) eqn:Hjson.
  - destruct (api_forecast_json env ctx user s Huser Hjson) as (added & -> & _).
    apply grows_with_readings.
  - destruct (files (req ctx) !! "file") as [file|] eqn:Hfile.
    2:{ rewrite (api_forecast_no_data env ctx user s Huser Hjson Hfile). grows_ok. }
    destruct (rows_of_upload env file) as [rows|] eqn:Hrows.
    2:{ pose proof (api_forecast_upload env ctx user file s Huser Hjson Hfile) as H.
        rewrite Hrows in H. rewrite H. grows_ok. }
    destruct (stored_rows_effect env user rows
                (mkWorld (db s) (db s) (clock_ticks s) (flashed s)))
      as (cgm & b & Ew & _).
    destruct b.
    { rewrite (api_forecast_upload_refused env ctx user file rows s)
        by (by rewrite ?Ew).
      grows_ok. }
    rewrite (api_forecast_upload_run env ctx user _ rows s Huser Hjson Hfile Hrows)
      by (by rewrite Ew).
    rewrite Ew.
    match goal with
    | |- context [forecast_and_cache env user ?d true ?w3] =>
        pose proof (forecast_and_cache_cases env user d true w3 eq_refl eq_refl)
          as H;
        destruct (forecast_and_cache env user d true w3) as [[resp|e] w']
    end.
    + destruct H as (rs & pts & added & _ & _ & _ & E & _). simpl in E |- *.
      rewrite E. grows_ok.
    + destruct H as [E _]. simpl in E |- *. rewrite E. grows_ok.
Qed.

(** X13: registration, clinician creation, the prediction API, the
    forecast API and the seeding only ever add rows at the end of the
    stored tables: no user, profile, reading, prediction, alert or audit
    entry that is stored is removed or changed by them, whatever the
    request and its outcome. *)
Theorem handlers_only_append (ctx : context) (s : server) :
  grows (db s) (db (dispatch (register env ctx) s).2) ∧
  grows (db s) (db (dispatch (create_clinician env ctx) s).2) ∧
  grows (db s) (db (dispatch (api_predict env ctx) s).2) ∧
  grows (db s) (db (dispatch (api_forecast env ctx) s).2) ∧
  grows (db s) (db (run_seed_defaults env s)).
Proof.
  split; [apply register_grows|]. split; [apply create_clinician_grows|].
  split; [apply api_predict_grows|]. split; [apply api_forecast_grows|].
  apply seed_defaults_grows.
Qed.

End grows_facts.

(** *** Accounts *)

Section account_facts.
Import Db App Spec Spec2.
Context (env : environment).

Lemma found_iff_has_account (email : string) (l : list User) :
  is_Some (head (filter (λ u, u_email u = email) l)) ↔ email ∈ u_email <$> l.
Proof.
  rewrite is_Some_head_filter, Exists_exists, list_elem_of_fmap.
  split; intros (u & H1 & H2); exists u; done.
Qed.

Lemma not_found_no_account (email : string) (l : list User) :
  bool_decide (is_Some (head (filter (λ u, u_email u = email) l))) = false →
  email ∉ u_email <$> l.
Proof. intros H%bool_decide_eq_false_1. by rewrite <- found_iff_has_account. Qed.

Lemma add_user_unique (l : list User) (u : User) :
  u_email u ∉ u_email <$> l →
  NoDup (u_email <$> l) → NoDup (u_email <$> l ++ [u]).
Proof.
  intros Hnew Hl. rewrite fmap_app. apply NoDup_app. split; [done|].
  split; [|apply NoDup_singleton].
  intros e He [->|[]%not_elem_of_nil]%elem_of_cons. done.
Qed.

Ltac unique_ok :=
  unfold unique_emails in *; simpl;
  repeat (apply add_user_unique; [by apply not_found_no_account|]);
  assumption.

(** X14: registration, clinician creation and the seeding keep the emails
    of the stored users distinct: each looks the email up before it adds a
    user, the seeding also among the accounts it has just added. *)
Theorem account_creation_keeps_emails_unique (ctx : context) (s : server) :
  unique_emails (db s) →
  unique_emails (db (dispatch (register env ctx) s).2) ∧
  unique_emails (db (dispatch (create_clinician env ctx) s).2) ∧
  unique_emails (db (run_seed_defaults env s)).
Proof.
  intros Huniq. split; [|split].
  - unfold dispatch, register. run_handler; unique_ok.
  - unfold dispatch, create_clinician, login_required, role_required.
    destruct (current_user ctx) as [user|]; run_handler; unique_ok.
  - unfold run_seed_defaults, seed_defaults. run_handler; unique_ok.
Qed.

Lemma seed_defaults_when_present (s : server) :
  has_account "admin@example.com" (db s) →
  has_account "clinician@example.com" (db s) →
  has_account "patient@example.com" (db s) →
  run_seed_defaults env s = s.
Proof.
  unfold has_account. intros H1%found_iff_has_account
    H2%found_iff_has_account H3%found_iff_has_account.
  unfold run_seed_defaults, seed_defaults. unfold_prog.
  rewrite (bool_decide_eq_true_2 _ H1). unfold_prog.
  rewrite (bool_decide_eq_true_2 _ H2). unfold_prog.
  rewrite (bool_decide_eq_true_2 _ H3). unfold_prog.
  by destruct s.
Qed.

Lemma seed_defaults_accounts (s : server) :
  has_account "admin@example.com" (db (run_seed_defaults env s)) ∧
  has_account "clinician@example.com" (db (run_seed_defaults env s)) ∧
  has_account "patient@example.com" (db (run_seed_defaults env s)).
Proof.
  unfold run_seed_defaults, seed_defaults, has_account. run_handler.
  all: repeat match goal with
       | H : bool_decide _ = true |- _ =>
           apply bool_decide_eq_true_1, found_iff_has_account in H
       | H : bool_decide _ = false |- _ => clear H
       end.
  all: rewrite ?fmap_app in *; simpl in *;
    rewrite ?elem_of_app, ?list_elem_of_singleton in *; tauto.
Qed.

(** X15: after the seeding the three default accounts exist, and seeding
    again changes nothing: the second run finds the three emails and
    leaves the server as the first run left it. *)
Theorem seed_defaults_idempotent (s : server) :
  let s' := run_seed_defaults env s in
  has_account "admin@example.com" (db s') ∧
  has_account "clinician@example.com" (db s') ∧
  has_account "patient@example.com" (db s') ∧
  run_seed_defaults env s' = s'.
Proof.
  intros s'. destruct (seed_defaults_accounts s) as (H1 & H2 & H3).
  split; [done|]. split; [done|]. split; [done|].
  by apply seed_defaults_when_present.
Qed.

End account_facts.

(** *** Clinician creation and registration, continued *)

Section clinician_facts.
Import Db App Spec Spec2 Pages.
Context (env : environment).

Lemma in_roles_admin (role : string) :
  bool_decide (role ∈ ["admin"]) = bool_decide (role = "admin").
Proof. apply bool_decide_ext. by rewrite list_elem_of_singleton. Qed.

(** X16: clinician creation is for administrators only: a request without
    a logged-in user, or by a user whose role is not [admin], is redirected
    (to the login page, to the landing page) and leaves the stored tables
    as they were, whatever the form holds. *)
Theorem create_clinician_requires_admin (ctx : context) (s : server) :
  (∀ user, current_user ctx = Some user → u_role user ≠ "admin") →
  db (dispatch (create_clinician env ctx) s).2 = db s ∧
  (dispatch (create_clinician env ctx) s).1
  = RedirectTo (match current_user ctx with
                | Some _ => "index"
                | None => "login"
                end).
Proof.
  intros Hrole. unfold dispatch, create_clinician, login_required, role_required.
  destruct (current_user ctx) as [user|]; [|done].
  rewrite in_roles_admin, bool_decide_eq_false_2 by by apply Hrole. done.
Qed.

(** X17: clinician creation by an administrator. A POST whose email or
    password is missing or empty, whose password is shorter than 6
    characters, or whose email is registered leaves the stored tables as
    they were. A POST that passes adds exactly one user, with role
    [clinician] and no profile, and one audit entry [clinician_created]
    for the acting administrator; no confirmation of the password is
    asked for. *)
Theorem create_clinician_by_admin
    (ctx : context) (admin : User) (s : server) :
  current_user ctx = Some admin →
  u_role admin = "admin" →
  method (req ctx) = "POST" →
  let email := form (req ctx) !! "email" in
  let password := form (req ctx) !! "password" in
  let s' := (dispatch (create_clinician env ctx) s).2 in
  ((email = None ∨ email = Some "" ∨ password = None ∨ password = Some "" ∨
    Py.len (default "" password) < 6 ∨
    has_account (default "" email) (db s)) →
   db s' = db s) ∧
  (∀ e p,
     email = Some e → e ≠ "" → password = Some p → 6 ≤ Py.len p →
     ¬ has_account e (db s) →
     db s'
     = mkTables
         (users (db s)
          ++ [mkUser (fresh_id (u_id <$> users (db s))) e
                (generate_password_hash env p) "clinician"])
         (profiles (db s)) (readings (db s)) (predictions (db s))
         (alerts (db s))
         (audit_logs (db s)
          ++ [audit_entry (db s) (Some (u_id admin)) "clinician_created"
                ("Admin created clinician: " +:+ e) (remote_addr (req ctx))])).
Proof.
  intros Huser Hadmin Hpost email password s'. subst s'.
  unfold dispatch, create_clinician, login_required, role_required.
  rewrite Huser, in_roles_admin, bool_decide_eq_true_2 by done.
  rewrite bool_decide_eq_true_2 by done. cbn zeta.
  fold email password. split.
  - intros Hbad.
    destruct (falsy email || falsy password) eqn:E1; [done|].
    apply orb_false_iff in E1 as [[e [He He']]%falsy_false [p [Hp Hp']]%falsy_false].
    destruct (Py.len (default "" password) <? 6) eqn:E3; [done|].
    apply Z.ltb_ge in E3. unfold_prog.
    case_bool_decide as E4; [done|].
    exfalso. unfold email, password in *.
    destruct Hbad as [H|[H|[H|[H|[H|H]]]]]; try congruence.
    + lia.
    + apply E4. by apply found_iff_has_account.
  - intros e p He He' Hp Hlen Hfree. rewrite He, Hp. cbn.
    destruct e as [|c e]; [done|].
    destruct p as [|d p]; [unfold Py.len in Hlen; simpl in Hlen; lia|]. cbn.
    destruct (Py.len (String d p) <? 6) eqn:E3; [apply Z.ltb_lt in E3; lia|].
    unfold_prog.
    rewrite bool_decide_eq_false_2
      by (intros H; by apply Hfree, found_iff_has_account).
    unfold_prog. unfold audit_entry.
    by destruct (falsy (remote_addr (req ctx))).
Qed.

(** The stored tables after a registration that passes the validations. *)
Lemma register_success_db (ctx : context) (s : server) (e p : string) :
  method (req ctx) = "POST" →
  form (req ctx) !! "email" = Some e → e ≠ "" →
  form (req ctx) !! "password" = Some p → p ≠ "" →
  form (req ctx) !! "confirm_password" = Some p → 6 ≤ Py.len p →
  let first_name := Py.strip (default "" (form (req ctx) !! "first_name")) in
  let last_name := Py.strip (default "" (form (req ctx) !! "last_name")) in
  first_name ≠ "" → last_name ≠ "" →
  ¬ has_account e (db s) →
  let user_id := fresh_id (u_id <$> users (db s)) in
  db (dispatch (register env ctx) s).2
  = mkTables
      (users (db s) ++ [mkUser user_id e (generate_password_hash env p) "patient"])
      (profiles (db s)
       ++ [mkPatientProfile (fresh_id (pp_id <$> profiles (db s))) user_id
             first_name last_name (first_name +:+ " " +:+ last_name)])
      (readings (db s)) (predictions (db s)) (alerts (db s))
      (audit_logs (db s)
       ++ [audit_entry (db s) (Some user_id) "user_register"
             ("New patient registered: " +:+ e) (remote_addr (req ctx))]).
Proof.
  intros Hpost He He' Hp Hp' Hc Hlen first_name last_name Hf Hl Hfree user_id.
  unfold dispatch, register.
  rewrite bool_decide_eq_true_2 by done. cbn zeta.
  fold first_name last_name. rewrite He, Hp, Hc. cbn.
  destruct e as [|c e]; [done|]. destruct p as [|d p]; [done|]. cbn.
  rewrite bool_decide_eq_false_2 by (intros E; by apply E).
  destruct (Py.len (String d p) <? 6) eqn:E3; [apply Z.ltb_lt in E3; lia|].
  destruct first_name as [|c1 f1] eqn:Ef; [done|].
  destruct last_name as [|c2 l1] eqn:El; [done|].
  unfold_prog.
  rewrite bool_decide_eq_false_2
    by (intros H; by apply Hfree, found_iff_has_account).
  unfold_prog. unfold audit_entry.
  by destruct (falsy (remote_addr (req ctx))).
Qed.

(** X18: a registration that succeeds is logged once: the audit log gains
    exactly one entry, with action [user_register], for the user that was
    just created and with the email in its details; readings, predictions
    and alerts stay as they were. *)
Theorem register_logs_new_user
    (ctx : context) (s : server) (e p : string) :
  method (req ctx) = "POST" →
  form (req ctx) !! "email" = Some e → e ≠ "" →
  form (req ctx) !! "password" = Some p → p ≠ "" →
  form (req ctx) !! "confirm_password" = Some p → 6 ≤ Py.len p →
  Py.strip (default "" (form (req ctx) !! "first_name")) ≠ "" →
  Py.strip (default "" (form (req ctx) !! "last_name")) ≠ "" →
  ¬ has_account e (db s) →
  let s' := (dispatch (register env ctx) s).2 in
  audit_logs (db s')
  = audit_logs (db s)
    ++ [audit_entry (db s) (Some (fresh_id (u_id <$> users (db s))))
          "user_register" ("New patient registered: " +:+ e)
          (remote_addr (req ctx))] ∧
  (∃ u, last (users (db s')) = Some u ∧
        Some (u_id u) = log_user_id (default (audit_entry (db s) None "" "" None)
                                       (last (audit_logs (db s'))))) ∧
  readings (db s') = readings (db s) ∧
  predictions (db s') = predictions (db s) ∧
  alerts (db s') = alerts (db s).
Proof.
  intros Hpost He He' Hp Hp' Hc Hlen Hf Hl Hfree s'. subst s'.
  rewrite (register_success_db ctx s e p) by done. simpl.
  split; [done|]. split; [|done].
  eexists. rewrite !last_snoc. by split.
Qed.

Lemma fresh_id_above (ids : list Z) (x : Z) : x ∈ ids → x < fresh_id ids.
Proof.
  unfold fresh_id. induction ids as [|y ids IH]; intros Hx.
  { by apply not_elem_of_nil in Hx. }
  simpl. apply elem_of_cons in Hx as [->|Hx]; [lia|].
  specialize (IH Hx). lia.
Qed.

(** X19: the name shown for a user who has just registered is the
    stripped first name, a space, and the stripped last name, provided
    every stored profile belongs to a stored user. *)
Theorem registered_user_is_shown_by_name
    (ctx : context) (s : server) (e p : string) :
  method (req ctx) = "POST" →
  form (req ctx) !! "email" = Some e → e ≠ "" →
  form (req ctx) !! "password" = Some p → p ≠ "" →
  form (req ctx) !! "confirm_password" = Some p → 6 ≤ Py.len p →
  let first_name := Py.strip (default "" (form (req ctx) !! "first_name")) in
  let last_name := Py.strip (default "" (form (req ctx) !! "last_name")) in
  first_name ≠ "" → last_name ≠ "" →
  ¬ has_account e (db s) →
  (∀ pr, pr ∈ profiles (db s) → pp_user_id pr ∈ u_id <$> users (db s)) →
  let s' := (dispatch (register env ctx) s).2 in
  ∃ u,
    last (users (db s')) = Some u ∧ u_email u = e ∧
    (get_user_display_name u
       (mkWorld (db s') (db s') (clock_ticks s') (flashed s'))).1
    = Ok (first_name +:+ " " +:+ last_name).
Proof.
  intros Hpost He He' Hp Hp' Hc Hlen first_name last_name Hf Hl Hfree Href s'.
  subst s'. rewrite (register_success_db ctx s e p) by done.
  eexists. simpl. rewrite last_snoc. split; [done|]. split; [done|].
  fold first_name last_name. clearbody first_name last_name.
  unfold get_user_display_name. simpl. unfold_prog.
  rewrite filter_app.
  assert (filter (λ pr, pp_user_id pr = fresh_id (u_id <$> users (db s)))
            (profiles (db s)) = []) as ->.
  { destruct (filter _ (profiles (db s))) as [|pr l] eqn:E; [done|].
    assert (pr ∈ filter (λ pr, pp_user_id pr = fresh_id (u_id <$> users (db s)))
                   (profiles (db s))) as Hpr by (rewrite E; left).
    apply list_elem_of_filter in Hpr as [Hid Hpr].
    apply Href, fresh_id_above in Hpr. lia. }
  simpl. rewrite filter_cons, decide_True by done. simpl.
  unfold get_full_name. simpl.
  destruct first_name as [|c1 f1]; [done|].
  destruct last_name as [|c2 l1]; [done|]. done.
Qed.

End clinician_facts.

(** *** Signing in and out *)

Section session_facts.
Import Db App Spec Spec2 Pages.
Context (lib : libraries).

Lemma log_audit_run (request : request) (user_id : option Z)
    (action details : string) (w : world) :
  failing w = false →
  log_audit request user_id action (Some details) (remote_addr request) w
  = (Ok tt,
     let t := with_audit_logs (session w)
                (audit_logs (session w)
                 ++ [audit_entry (session w) user_id action details
                       (remote_addr request)]) in
     mkWorld t t (ticks w) (flashes w)).
Proof.
  intros Hf. unfold_prog. rewrite Hf. unfold with_audit_logs, audit_entry.
  by destruct (falsy (remote_addr request)).
Qed.

(** X20: a POST to the login page that does not sign in (no email in the
    form, an email that no stored user has, or a password that the stored
    hash does not match) gets one and the same treatment: the login page
    again, the cookie untouched, the message [Invalid credentials], and
    one audit entry [login_failed] without a user. Nothing in the answer
    tells an unknown email from a wrong password. *)
Theorem failed_login_is_uniform (ctx : context) (s : server) :
  method (req ctx) = "POST" →
  let email := form (req ctx) !! "email" in
  let password := form (req ctx) !! "password" in
  (∀ e u, email = Some e →
          head (filter (λ u, u_email u = e) (users (db s))) = Some u →
          check_password_hash lib (u_password_hash u) password = Some false) →
  dispatch_as (λ r, (r, Unchanged)) (login lib ctx) s
  = ((Template "login.html", Unchanged),
     mkServer
       (with_audit_logs (db s)
          (audit_logs (db s)
           ++ [audit_entry (db s) None "login_failed"
                 ("Failed login attempt for " +:+ format_opt email)
                 (remote_addr (req ctx))]))
       (clock_ticks s)
       (flashed s ++ [("Invalid credentials", "error")])).
Proof.
  intros Hpost email password Hbad.
  unfold dispatch_as, login. rewrite bool_decide_eq_true_2 by done.
  cbn zeta. fold email password.
  destruct email as [e|] eqn:He.
  - rewrite bind_run. unfold first_user_by_email at 1. unfold_prog.
    destruct (head (filter (λ u, u_email u = e) (users (db s)))) as [u|] eqn:Hu.
    + rewrite (Hbad e u eq_refl Hu). unfold_prog.
      unfold with_audit_logs, audit_entry.
      by destruct (falsy (remote_addr (req ctx))).
    + unfold_prog. unfold with_audit_logs, audit_entry.
      by destruct (falsy (remote_addr (req ctx))).
  - unfold_prog. unfold with_audit_logs, audit_entry.
    by destruct (falsy (remote_addr (req ctx))).
Qed.

(** X21: the login page signs in only a stored user whose email is the one
    submitted and whose stored hash matches the submitted password; the
    answer is then the redirect to the landing page and the audit log
    gains one entry [user_login] for that user. *)
Theorem login_signs_in_matching_account_only
    (ctx : context) (s : server) (id : Z) :
  let out := dispatch_as (λ r, (r, Unchanged)) (login lib ctx) s in
  out.1.2 = SignedIn id →
  ∃ e u,
    method (req ctx) = "POST" ∧
    form (req ctx) !! "email" = Some e ∧
    u ∈ users (db s) ∧ u_email u = e ∧ u_id u = id ∧
    check_password_hash lib (u_password_hash u) (form (req ctx) !! "password")
    = Some true ∧
    out.1.1 = RedirectTo "index" ∧
    db out.2
    = with_audit_logs (db s)
        (audit_logs (db s)
         ++ [audit_entry (db s) (Some id) "user_login"
               ("User " +:+ e +:+ " logged in") (remote_addr (req ctx))]).
Proof.
  intros out. subst out. unfold dispatch_as, login.
  case_bool_decide as Hpost; [|done]. cbn zeta.
  destruct (form (req ctx) !! "email") as [e|] eqn:He.
  2:{ unfold_prog. by destruct (falsy (remote_addr (req ctx))). }
  rewrite bind_run. unfold first_user_by_email at 1. unfold_prog.
  destruct (head (filter (λ u, u_email u = e) (users (db s)))) as [u|] eqn:Hu.
  2:{ unfold_prog. by destruct (falsy (remote_addr (req ctx))). }
  destruct (check_password_hash lib (u_password_hash u) _) as [[]|] eqn:Hcheck;
    unfold_prog; try done.
  assert (u ∈ filter (λ u, u_email u = e) (users (db s))) as Hin.
  { apply head_Some in Hu as [l ->]. left. }
  apply list_elem_of_filter in Hin as [Hmail Hin].
  intros Hid. exists e, u.
  assert (u_id u = id) as <-.
  { destruct (falsy (remote_addr (req ctx))); simpl in Hid; congruence. }
  unfold with_audit_logs, audit_entry.
  by destruct (falsy (remote_addr (req ctx))).
Qed.

(** X22: signing out. Without a logged-in user the request is sent to the
    login page and nothing is stored; with one, the cookie is cleared and
    the audit log gains one entry [user_logout] for that user. *)
Theorem logout_signs_out_and_logs (ctx : context) (s : server) :
  let out := dispatch_as (λ r, (r, Unchanged)) (logout ctx) s in
  match current_user ctx with
  | None =>
      out = ((RedirectTo "login", Unchanged),
             mkServer (db s) (clock_ticks s)
               (flashed s ++ [("Please log in to access this page.", "message")]))
  | Some user =>
      out = ((RedirectTo "login", SignedOut),
             mkServer
               (with_audit_logs (db s)
                  (audit_logs (db s)
                   ++ [audit_entry (db s) (Some (u_id user)) "user_logout"
                         ("User " +:+ u_email user +:+ " logged out")
                         (remote_addr (req ctx))]))
               (clock_ticks s) (flashed s))
  end.
Proof.
  intros out. subst out. unfold dispatch_as, logout, login_required_as.
  destruct (current_user ctx) as [user|]; [|done].
  rewrite bind_run, log_audit_run by done. done.
Qed.

End session_facts.

(** *** Deleting a user *)

Section delete_facts.
Import Db App Spec Spec2 Pages.
Context (lib : libraries).

Lemma head_filter_id (user_id : Z) (l : list User) (user : User) :
  head (filter (λ u, u_id u = user_id) l) = Some user →
  user ∈ l ∧ u_id user = user_id.
Proof.
  intros H.
  assert (user ∈ filter (λ u, u_id u = user_id) l) as Hin.
  { apply head_Some in H as [l' ->]. left. }
  by apply list_elem_of_filter in Hin as [? ?].
Qed.

Lemma head_filter_id_None (user_id : Z) (l : list User) :
  user_id ∉ u_id <$> l → head (filter (λ u, u_id u = user_id) l) = None.
Proof.
  intros H. destruct (head _) as [user|] eqn:E; [|done].
  apply head_filter_id in E as [Hin <-]. destruct H.
  apply list_elem_of_fmap. by exists user.
Qed.

(** X23: the deletion of a user is refused, and the stored tables are left
    as they were, for a request without a logged-in user (sent to the
    login page), by a user who is no administrator (sent to the landing
    page), for an id that no stored user has (status 404), and for the
    administrator's own id (sent back to the dashboard with a message). *)
Theorem delete_user_refusals (user_id : Z) (ctx : context) (s : server) :
  (∀ admin, current_user ctx = Some admin → u_role admin = "admin" →
            user_id ∉ u_id <$> users (db s) ∨ user_id = u_id admin) →
  let out := dispatch (delete_user lib user_id ctx) s in
  db out.2 = db s ∧
  out.1
  = match current_user ctx with
    | None => RedirectTo "login"
    | Some user =>
        if bool_decide (u_role user = "admin") then
          if bool_decide (user_id ∈ u_id <$> users (db s))
          then RedirectTo "admin_dashboard"
          else ErrorPage 404
        else RedirectTo "index"
    end.
Proof.
  intros Hguard out. subst out.
  unfold dispatch, delete_user, login_required, role_required.
  destruct (current_user ctx) as [cu|]; [|done].
  rewrite in_roles_admin. case_bool_decide as Hrole; [|done].
  rewrite bind_run. unfold query at 1. cbn.
  case_bool_decide as Hid.
  - destruct (Hguard cu eq_refl Hrole) as [Hno | ->]; [done|].
    destruct (head _) as [user|] eqn:E.
    + apply head_filter_id in E as [_ E]. by rewrite bool_decide_eq_true_2.
    + exfalso. apply eq_None_not_Some in E. apply E.
      apply is_Some_head_filter, Exists_exists.
      apply list_elem_of_fmap in Hid as (u & Hu & Hin). by exists u.
  - by rewrite head_filter_id_None.
Qed.

(** X24: an administrator deleting another stored user. When the store
    refuses the deletion, the answer is the error page with status 500 and
    the server is as before: nothing is deleted and nothing is logged.
    When the store accepts, the stored tables are those the store gives,
    with one audit entry [user_deleted] more, for the administrator and
    with the email of the deleted user. *)
Theorem delete_user_by_admin
    (user_id : Z) (ctx : context) (admin user : User) (s : server) :
  current_user ctx = Some admin →
  u_role admin = "admin" →
  head (filter (λ u, u_id u = user_id) (users (db s))) = Some user →
  user_id ≠ u_id admin →
  let out := dispatch (delete_user lib user_id ctx) s in
  match delete_and_commit lib user (db s) with
  | None => out = (ErrorPage 500, s)
  | Some t' =>
      out
      = (RedirectTo "admin_dashboard",
         mkServer
           (with_audit_logs t'
              (audit_logs t'
               ++ [audit_entry t' (Some (u_id admin)) "user_deleted"
                     ("Admin deleted user: " +:+ u_email user)
                     (remote_addr (req ctx))]))
           (clock_ticks s)
           (flashed s
            ++ [("User " +:+ u_email user +:+ " deleted successfully",
                 "success")]))
  end.
Proof.
  intros Huser Hrole Hfound Hother out. subst out.
  unfold dispatch, delete_user, login_required, role_required.
  rewrite Huser, in_roles_admin, bool_decide_eq_true_2 by done.
  rewrite bind_run. unfold query at 1. cbn. rewrite Hfound.
  apply head_filter_id in Hfound as [_ Hid].
  rewrite bool_decide_eq_false_2 by congruence.
  unfold delete_then_commit. unfold_prog.
  destruct (delete_and_commit lib user (db s)) as [t'|]; unfold_prog.
  - unfold with_audit_logs, audit_entry.
    by destruct (falsy (remote_addr (req ctx))).
  - by destruct s.
Qed.

End delete_facts.

(** *** The pages that only read *)

Section page_facts.
Import Db App Spec Spec2 Pages.
Context (env : environment) (lib : libraries) (ex : explainer).

(** X25: the landing page, the three dashboards, the CSV export and the
    explanation API never write: whatever the request and the logged-in
    user, the stored tables after the request are those before it. *)
Theorem pages_are_read_only (ctx : context) (patient_id : Z) (s : server) :
  db (dispatch (index ctx) s).2 = db s ∧
  db (dispatch_as Plain (patient_dashboard env lib ctx) s).2 = db s ∧
  db (dispatch_as Plain (clinician_dashboard lib ctx) s).2 = db s ∧
  db (dispatch_as Plain (admin_dashboard lib ctx) s).2 = db s ∧
  db (dispatch_as Plain (export_patient_csv env lib patient_id ctx) s).2 = db s ∧
  db (dispatch_as Plain (api_explain env ex ctx) s).2 = db s.
Proof.
  unfold dispatch, dispatch_as, index, patient_dashboard, clinician_dashboard,
    admin_dashboard, export_patient_csv, api_explain, login_required,
    login_required_as, role_required_as, get_json.
  destruct (current_user ctx) as [user|]; [|done].
  repeat split; run_handler; try done.
  - destruct (json (req ctx)) as [payload|]; [|done]. unfold_prog.
    destruct (standard_predict (ml env) payload) as [[[pred prob] f]|]; [|done].
    unfold_prog. by destruct (explain_prediction ex payload f).
Qed.

End page_facts.

(** *** What the pages show *)

Section show_facts.
Import Db App Spec Spec2 Pages.
Context (env : environment) (lib : libraries) (ex : explainer).

Lemma role_counts (l : list User) :
  (length (filter (λ u, u_role u = "patient") l)
   + length (filter (λ u, u_role u = "clinician") l)
   + length (filter (λ u, u_role u = "admin") l) ≤ length l)%nat ∧
  ((length (filter (λ u, u_role u = "patient") l)
    + length (filter (λ u, u_role u = "clinician") l)
    + length (filter (λ u, u_role u = "admin") l) = length l)%nat
   ↔ Forall (λ u, valid_role (u_role u)) l).
Proof.
  induction l as [|u l [IH1 IH2]]; [by split|].
  rewrite !filter_cons, Forall_cons, <- IH2. unfold valid_role.
  destruct (decide (u_role u = "patient")) as [E1|E1],
    (decide (u_role u = "clinician")) as [E2|E2],
    (decide (u_role u = "admin")) as [E3|E3];
    try congruence; simpl; (split; [lia|]);
    (split; [intros ?; first [lia | split; [tauto|lia]] | intros [H ?]; try lia]).
  by destruct H as [?|[?|?]].
Qed.

(** X26: the administrator's dashboard counts every stored user in the
    total, and the counts of patients, clinicians and administrators add
    up to the total exactly when every stored user has one of the three
    roles; at most 100 audit entries are shown. *)
Theorem admin_dashboard_counts (ctx : context) (admin : User) (s : server) :
  current_user ctx = Some admin →
  u_role admin = "admin" →
  ∃ total patients clinicians admins logs us,
    dispatch_as Plain (admin_dashboard lib ctx) s
    = (AdminPage total patients clinicians admins logs us, s) ∧
    total = Z.of_nat (length (users (db s))) ∧
    patients + clinicians + admins ≤ total ∧
    (patients + clinicians + admins = total
     ↔ Forall (λ u, valid_role (u_role u)) (users (db s))) ∧
    (length logs ≤ 100)%nat.
Proof.
  intros Huser Hrole.
  unfold dispatch_as, admin_dashboard, login_required_as, role_required_as.
  rewrite Huser, in_roles_admin, bool_decide_eq_true_2 by done.
  unfold_prog. do 6 eexists. split; [by destruct s|].
  destruct (role_counts (users (db s))) as [H1 H2].
  split; [done|]. split; [lia|]. split; [rewrite <- H2; lia|].
  rewrite length_take. lia.
Qed.

(** X27: the CSV export of a clinician, for a store whose ordering by
    timestamp rearranges the rows it is given. The file is named after the
    requested id and has the header [timestamp,glucose] and then one row
    per stored reading of that id, each the ISO timestamp and the glucose
    value of such a reading. An id without readings, also one that no
    user has, gives the header alone and no error. *)
Theorem export_patient_csv_rows
    (patient_id : Z) (ctx : context) (clinician : User) (s : server) :
  current_user ctx = Some clinician →
  u_role clinician = "clinician" →
  (∀ l, order_by_timestamp_asc lib l ≡ₚ l) →
  ∃ body,
    dispatch_as Plain (export_patient_csv env lib patient_id ctx) s
    = (CsvDownload ("patient_" +:+ Py.format_int patient_id +:+ "_glucose.csv")
         "text/csv" (["timestamp"; "glucose"] :: body), s) ∧
    length body = length (readings_of patient_id (db s)) ∧
    (∀ row, row ∈ body ↔
       ∃ r, r ∈ readings (db s) ∧ gr_user_id r = patient_id ∧
            row = [isoformat env (gr_timestamp r); float_repr lib (gr_glucose r)]) ∧
    ((∀ r, r ∈ readings (db s) → gr_user_id r ≠ patient_id) → body = []).
Proof.
  intros Huser Hrole Hperm.
  unfold dispatch_as, export_patient_csv, login_required_as, role_required_as.
  rewrite Huser.
  rewrite bool_decide_eq_true_2 by (rewrite Hrole; apply list_elem_of_here).
  unfold_prog. eexists. split; [by destruct s|].
  split; [by rewrite length_fmap, Hperm|]. split.
  - intros row. rewrite list_elem_of_fmap. split.
    + intros (r & -> & Hr). rewrite Hperm in Hr.
      apply list_elem_of_filter in Hr as [Hid Hr]. by exists r.
    + intros (r & Hr & Hid & ->). exists r. split; [done|].
      rewrite Hperm. by apply list_elem_of_filter.
  - intros Hnone.
    assert (readings_of patient_id (db s) = []) as E.
    { unfold readings_of. destruct (filter _ _) as [|r l] eqn:E; [done|].
      assert (r ∈ filter (λ r, gr_user_id r = patient_id) (readings (db s)))
        as Hr by (rewrite E; left).
      apply list_elem_of_filter in Hr as [Hid Hr]. by destruct (Hnone r Hr). }
    pose proof (Hperm (readings_of patient_id (db s))) as Hp.
    rewrite E in Hp |- *. by apply Permutation_nil_r in Hp as ->.
Qed.

(** X28: the landing page sends a logged-in user to the dashboard of the
    role: an administrator to the administrator's, a clinician to the
    clinician's, and a user with any other role to the patient's. A user
    with one of the three roles is served by the dashboard they are sent
    to; a user with a role outside the three is sent to the patient
    dashboard, which sends them back to the landing page. *)
Theorem index_leads_to_own_dashboard (ctx : context) (user : User) (s : server) :
  current_user ctx = Some user →
  let endpoint :=
    if bool_decide (u_role user = "admin") then "admin_dashboard"
    else if bool_decide (u_role user = "clinician") then "clinician_dashboard"
    else "patient_dashboard" in
  dispatch (index ctx) s = (RedirectTo endpoint, s) ∧
  ∃ view,
    dashboard_of env lib endpoint = Some view ∧
    (valid_role (u_role user) →
     ∀ r, (dispatch_as Plain (view ctx) s).1 ≠ Plain r) ∧
    (¬ valid_role (u_role user) →
     endpoint = "patient_dashboard" ∧
     view = patient_dashboard env lib ∧
     dispatch_as Plain (view ctx) s
     = (Plain (RedirectTo "index"),
        mkServer (db s) (clock_ticks s) (flashed s ++ [("Unauthorized", "error")]))).
Proof.
  intros Huser endpoint. subst endpoint.
  unfold dispatch, index, login_required. rewrite Huser.
  unfold valid_role.
  case_bool_decide as Ha; [|case_bool_decide as Hc].
  - split; [by destruct s|]. exists (admin_dashboard lib). split; [done|].
    unfold dispatch_as, admin_dashboard, login_required_as, role_required_as.
    rewrite Huser, in_roles_admin, bool_decide_eq_true_2 by done.
    split; [done|]. tauto.
  - split; [by destruct s|]. exists (clinician_dashboard lib). split; [done|].
    unfold dispatch_as, clinician_dashboard, login_required_as, role_required_as.
    rewrite Huser.
    rewrite bool_decide_eq_true_2 by (rewrite Hc; apply list_elem_of_here).
    split; [done|]. tauto.
  - split; [by destruct s|]. exists (patient_dashboard env lib). split; [done|].
    unfold dispatch_as, patient_dashboard, login_required_as, role_required_as.
    rewrite Huser. split.
    + intros [Hp|[?|?]]; [|done..].
      by rewrite bool_decide_eq_true_2 by (rewrite Hp; apply list_elem_of_here).
    + intros Hno. split; [done|]. split; [done|].
      rewrite bool_decide_eq_false_2; [done|].
      intros Hp%list_elem_of_singleton. tauto.
Qed.

(** X29: the patient dashboard shows a patient rows of their own only, for
    a store whose orderings return rows of the query: every reading,
    prediction and alert on the page is stored and belongs to the
    logged-in user, and the page has at most 100 readings, 20 predictions
    and 10 alerts. *)
Theorem patient_dashboard_shows_own_rows
    (ctx : context) (user : User) (s : server) :
  current_user ctx = Some user →
  u_role user = "patient" →
  (∀ l, order_by_timestamp_desc env l ⊆ l) →
  (∀ l, predictions_by_created_at_desc lib l ⊆ l) →
  (∀ l, alerts_by_created_at_desc lib l ⊆ l) →
  ∃ rs ps als,
    dispatch_as Plain (patient_dashboard env lib ctx) s
    = (PatientPage rs ps als, s) ∧
    (length rs ≤ 100 ∧ length ps ≤ 20 ∧ length als ≤ 10)%nat ∧
    (∀ r, r ∈ rs → r ∈ readings (db s) ∧ gr_user_id r = u_id user) ∧
    (∀ p, p ∈ ps → p ∈ predictions (db s) ∧ rp_user_id p = u_id user) ∧
    (∀ a, a ∈ als → a ∈ alerts (db s) ∧ al_user_id a = u_id user).
Proof.
  intros Huser Hrole Hr Hp Ha.
  unfold dispatch_as, patient_dashboard, login_required_as, role_required_as.
  rewrite Huser.
  rewrite bool_decide_eq_true_2 by (rewrite Hrole; apply list_elem_of_here).
  unfold_prog. do 3 eexists. split; [by destruct s|].
  split; [rewrite !length_take; lia|].
  split; [|split].
  - intros r Hin%subseteq_take%Hr. unfold readings_of in Hin.
    by apply list_elem_of_filter in Hin as [? ?].
  - intros p Hin%subseteq_take%Hp.
    by apply list_elem_of_filter in Hin as [? ?].
  - intros a Hin%subseteq_take%Ha.
    by apply list_elem_of_filter in Hin as [? ?].
Qed.

(** X30: the explanation API explains the standard model, also when the
    federated service is available: for one and the same payload the
    prediction API then answers with the prediction of the federated
    service, and the explanation API with the prediction of the standard
    service and the attributions for it; it stores nothing. *)
Theorem api_explain_explains_standard_model
    (ctx : context) (user : User) (payload : Py.value)
    (pred pred' : Z) (prob prob' : float) (features features' : list string)
    (shap_values : Py.value) (s : server) :
  current_user ctx = Some user →
  json (req ctx) = Some payload →
  standard_predict (ml env) payload = Some (pred, prob, features) →
  explain_prediction ex payload features = Some shap_values →
  dispatch_as Plain (api_explain env ex ctx) s
  = (JsonExplanation pred prob shap_values features, s) ∧
  (federated_is_available (ml env) = true →
   federated_predict (ml env) payload = Some (pred', prob', features') →
   (dispatch (api_predict env ctx) s).1 = JsonPrediction pred' prob' features').
Proof.
  intros Huser Hjson Hstd Hexplain. split.
  - unfold dispatch_as, api_explain, login_required_as, get_json.
    rewrite Huser, Hjson. unfold_prog. rewrite Hstd. unfold_prog.
    rewrite Hexplain. unfold_prog. by destruct s.
  - intros Havail Hfed.
    unfold dispatch, api_predict, login_required, get_json.
    rewrite Huser, Hjson, Havail. unfold_prog. rewrite Hfed. unfold_prog.
    destruct (PrimFloat.leb _ prob'); unfold_prog;
      by destruct (falsy (remote_addr (req ctx))).
Qed.

End show_facts.

(** *** The properties above on the sample inputs *)

Section sample_facts.
Import Db App Spec Spec2 Pages.

Lemma sample_insert_desc_perm (r : GlucoseReading) (l : list GlucoseReading) :
  sample_insert_desc r l ≡ₚ r :: l.
Proof.
  induction l as [|x l IH]; [done|]. simpl.
  destruct (_ <? _); [done|]. rewrite IH. apply Permutation_swap.
Qed.

Lemma sample_order_desc_perm (l : list GlucoseReading) :
  sample_order_desc l ≡ₚ l.
Proof.
  unfold sample_order_desc. induction l as [|x l IH]; [done|].
  simpl. by rewrite sample_insert_desc_perm, IH.
Qed.

Lemma sample_order_desc_subseteq (l : list GlucoseReading) :
  sample_order_desc l ⊆ l.
Proof. intros r. by rewrite sample_order_desc_perm. Qed.

Lemma reverse_subseteq {A} (l : list A) : reverse l ⊆ l.
Proof. intros x. by rewrite elem_of_reverse. Qed.

Lemma api_forecast_json_all_or_nothing_witness :
  let out := dispatch (api_forecast sample_env
                         (as_patient (json_request sample_readings)))
               sample_server in
  (∃ pts flag added,
     out.1 = JsonForecast pts flag ∧
     db out.2 = with_readings (db sample_server)
                  (readings (db sample_server) ++ added) ∧
     length added = length pts) ∨
  ((out.1 = ErrorPage 400 ∨ out.1 = ErrorPage 500) ∧ db out.2 = db sample_server).
Proof.
  apply (api_forecast_json_all_or_nothing sample_env
           (as_patient (json_request sample_readings)) patient_zero
           sample_server); reflexivity.
Defined.

Lemma api_forecast_falls_back_to_stored_readings_witness :
  (dispatch (api_forecast echo_env (as_patient (json_request (Py.VDict []))))
     long_server).1
  = JsonForecast [mkPoint Py.VNone 3%float; mkPoint Py.VNone 52%float] false.
Proof.
  apply (api_forecast_falls_back_to_stored_readings echo_env
           (as_patient (json_request (Py.VDict []))) patient_zero []
           [mkPoint Py.VNone 3%float; mkPoint Py.VNone 52%float] long_server).
  - reflexivity.
  - reflexivity.
  - reflexivity.
  - reflexivity.
  - vm_compute. reflexivity.
  - apply Forall_cons_2; [done|]. apply Forall_cons_2; [done|]. apply Forall_nil_2.
  - apply Forall_cons_2; [reflexivity|].
    apply Forall_cons_2; [reflexivity|]. apply Forall_nil_2.
Defined.

Lemma upload_with_bad_glucose_cell_stores_nothing_witness :
  dispatch (api_forecast sample_env (as_patient bad_glucose_upload)) sample_server
  = (ErrorPage 500, sample_server).
Proof.
  apply (upload_with_bad_glucose_cell_stores_nothing sample_env
           (as_patient bad_glucose_upload) patient_zero
           (list_to_map <$>
            [[("timestamp", "2024-01-01T08:00:00"); ("glucose", "110")];
             [("timestamp", "2024-01-01 08:05:00"); ("glucose", "abc")]])
           (list_to_map [("timestamp", "2024-01-01 08:05:00"); ("glucose", "abc")])
           "abc" sample_server).
  - reflexivity.
  - reflexivity.
  - vm_compute. reflexivity.
  - apply list_elem_of_further, list_elem_of_here.
  - vm_compute. reflexivity.
  - discriminate.
  - reflexivity.
Defined.

Lemma upload_is_logged_with_row_count_witness :
  audit_logs
    (db (dispatch (api_forecast sample_env (as_patient sample_upload))
           sample_server).2)
  = [mkAuditLog 1 (Some 1) "cgm_uploaded"
       (Some "CGM data uploaded: 4 readings") (Some "127.0.0.1")].
Proof.
  pose proof
    (upload_is_logged_with_row_count sample_env (as_patient sample_upload)
       patient_zero
       (list_to_map <$>
        [[("timestamp", "2024-01-01T08:00:00"); ("glucose", "110")];
         [("timestamp", "2024-01-01T08:00:00"); ("glucose", "95.5")];
         [("timestamp", "not a date"); ("glucose", "140")];
         [("glucose", "140")]])
       [mkCgmRow (Some "2024-01-01T08:00:00") 110%float;
        mkCgmRow (Some "2024-01-01T08:00:00") 95.5%float;
        mkCgmRow (Some "not a date") 140%float;
        mkCgmRow None 140%float]
       sample_server) as H.
  apply H.
  - reflexivity.
  - reflexivity.
  - vm_compute. reflexivity.
  - vm_compute. reflexivity.
  - exact sample_upload_numbers.
Defined.

Lemma upload_survives_forecast_failure_witness :
  (dispatch (api_forecast silent_env (as_patient sample_upload)) sample_server).1
  = ErrorPage 500 ∧
  (1 ≤ cgm_count 1 morning
         (db (dispatch (api_forecast silent_env (as_patient sample_upload))
                sample_server).2))%nat.
Proof.
  assert ((dispatch (api_forecast silent_env (as_patient sample_upload))
             sample_server).1 = ErrorPage 500) as Hresp
    by (vm_compute; reflexivity).
  split; [exact Hresp|].
  destruct (upload_survives_forecast_failure silent_env
              (as_patient sample_upload) patient_zero
              (CsvRows
                 (list_to_map <$>
                  [[("timestamp", "2024-01-01T08:00:00"); ("glucose", "110")];
                   [("timestamp", "2024-01-01T08:00:00"); ("glucose", "95.5")];
                   [("timestamp", "not a date"); ("glucose", "140")];
                   [("glucose", "140")]]))
              [mkCgmRow (Some "2024-01-01T08:00:00") 110%float;
               mkCgmRow (Some "2024-01-01T08:00:00") 95.5%float;
               mkCgmRow (Some "not a date") 140%float;
               mkCgmRow None 140%float]
              sample_server) as [_ H].
  - reflexivity.
  - reflexivity.
  - vm_compute. reflexivity.
  - vm_compute. reflexivity.
  - exact sample_upload_numbers.
  - exact Hresp.
  - apply (H (mkCgmRow (Some "2024-01-01T08:00:00") 110%float)
             "2024-01-01T08:00:00" morning).
    + apply list_elem_of_here.
    + reflexivity.
    + reflexivity.
Defined.

Lemma account_creation_keeps_emails_unique_witness :
  unique_emails (db (dispatch (register sample_env (anonymous good_form))
                       sample_server).2) ∧
  unique_emails (db (run_seed_defaults sample_env sample_server)).
Proof.
  destruct (account_creation_keeps_emails_unique sample_env
              (anonymous good_form) sample_server) as (H1 & _ & H3).
  - unfold unique_emails. simpl.
    apply NoDup_cons. split; [|apply NoDup_singleton].
    intros H%list_elem_of_singleton. discriminate.
  - by split.
Defined.

Lemma create_clinician_requires_admin_witness :
  db (dispatch (create_clinician sample_env (as_patient good_form))
        sample_server).2
  = db sample_server ∧
  (dispatch (create_clinician sample_env (as_patient good_form))
     sample_server).1
  = RedirectTo "index".
Proof.
  apply (create_clinician_requires_admin sample_env (as_patient good_form)
           sample_server).
  intros user [= <-]. discriminate.
Defined.

Lemma create_clinician_by_admin_witness :
  db (dispatch (create_clinician sample_env
                  (as_admin (form_request [("email", "doc@example.com");
                                           ("password", "secret1")])))
        sample_server).2
  = mkTables
      [patient_zero; admin_zero;
       mkUser 3 "doc@example.com" "hash:secret1" "clinician"]
      [] [] [] []
      [mkAuditLog 1 (Some 2) "clinician_created"
         (Some "Admin created clinician: doc@example.com") (Some "127.0.0.1")].
Proof.
  destruct (create_clinician_by_admin sample_env
              (as_admin (form_request [("email", "doc@example.com");
                                       ("password", "secret1")]))
              admin_zero sample_server eq_refl eq_refl eq_refl) as [_ H].
  apply (H "doc@example.com" "secret1").
  - reflexivity.
  - discriminate.
  - reflexivity.
  - unfold Py.len. simpl. lia.
  - unfold has_account. simpl. intros H'.
    apply elem_of_cons in H' as [H'|H']; [discriminate|].
    apply list_elem_of_singleton in H'. discriminate.
Defined.

Lemma register_logs_new_user_witness :
  audit_logs (db (dispatch (register sample_env (anonymous good_form))
                    sample_server).2)
  = [mkAuditLog 1 (Some 3) "user_register"
       (Some "New patient registered: ana@example.com") (Some "127.0.0.1")].
Proof.
  destruct (register_logs_new_user sample_env (anonymous good_form)
              sample_server "ana@example.com" "secret1") as [H _].
  - reflexivity.
  - reflexivity.
  - discriminate.
  - reflexivity.
  - discriminate.
  - reflexivity.
  - unfold Py.len. simpl. lia.
  - vm_compute. discriminate.
  - vm_compute. discriminate.
  - unfold has_account. simpl. intros H'.
    apply elem_of_cons in H' as [H'|H']; [discriminate|].
    apply list_elem_of_singleton in H'. discriminate.
  - exact H.
Defined.

Lemma registered_user_is_shown_by_name_witness :
  let s' := (dispatch (register sample_env (anonymous good_form))
               sample_server).2 in
  ∃ u,
    last (users (db s')) = Some u ∧ u_email u = "ana@example.com" ∧
    (get_user_display_name u
       (mkWorld (db s') (db s') (clock_ticks s') (flashed s'))).1
    = Ok "Ana Lopez".
Proof.
  apply (registered_user_is_shown_by_name sample_env (anonymous good_form)
           sample_server "ana@example.com" "secret1").
  - reflexivity.
  - reflexivity.
  - discriminate.
  - reflexivity.
  - discriminate.
  - reflexivity.
  - unfold Py.len. simpl. lia.
  - vm_compute. discriminate.
  - vm_compute. discriminate.
  - unfold has_account. simpl. intros H'.
    apply elem_of_cons in H' as [H'|H']; [discriminate|].
    apply list_elem_of_singleton in H'. discriminate.
  - intros pr H'. by apply not_elem_of_nil in H'.
Defined.

Lemma failed_login_is_uniform_witness :
  (dispatch_as (λ r, (r, Unchanged))
     (login sample_lib (anonymous (login_form "nobody@example.com" "password123")))
     sample_server).1
  = (Template "login.html", Unchanged) ∧
  (dispatch_as (λ r, (r, Unchanged))
     (login sample_lib (anonymous (login_form "patient@example.com" "wrong")))
     sample_server).1
  = (Template "login.html", Unchanged).
Proof.
  split.
  - refine (f_equal fst
              (failed_login_is_uniform sample_lib
                 (anonymous (login_form "nobody@example.com" "password123"))
                 sample_server eq_refl _)).
    intros e u He Hu. vm_compute in He. injection He as <-.
    vm_compute in Hu. discriminate.
  - refine (f_equal fst
              (failed_login_is_uniform sample_lib
                 (anonymous (login_form "patient@example.com" "wrong"))
                 sample_server eq_refl _)).
    intros e u He Hu. vm_compute in He. injection He as <-.
    vm_compute in Hu. injection Hu as <-. reflexivity.
Defined.

Lemma login_signs_in_matching_account_only_witness :
  ∃ u,
    u ∈ users (db sample_server) ∧ u_id u = 1 ∧
    check_password_hash sample_lib (u_password_hash u) (Some "password123")
    = Some true.
Proof.
  destruct (login_signs_in_matching_account_only sample_lib
              (anonymous (login_form "patient@example.com" "password123"))
              sample_server 1)
    as (e & u & _ & _ & Hin & _ & Hid & Hcheck & _).
  - vm_compute. reflexivity.
  - exists u. split; [exact Hin|]. split; [exact Hid|]. exact Hcheck.
Defined.

Lemma delete_user_refusals_witness :
  db (dispatch (delete_user sample_lib 2 (as_patient empty_request))
        sample_server).2
  = db sample_server ∧
  db (dispatch (delete_user sample_lib 2 (as_admin empty_request))
        sample_server).2
  = db sample_server.
Proof.
  split.
  - apply (delete_user_refusals sample_lib 2 (as_patient empty_request)
             sample_server).
    intros admin [= <-] H. discriminate.
  - apply (delete_user_refusals sample_lib 2 (as_admin empty_request)
             sample_server).
    intros admin [= <-] _. by right.
Defined.

Lemma delete_user_by_admin_witness :
  dispatch (delete_user sample_lib 1 (as_admin empty_request)) busy_server
  = (ErrorPage 500, busy_server) ∧
  users (db (dispatch (delete_user sample_lib 1 (as_admin empty_request))
               sample_server).2)
  = [admin_zero].
Proof.
  split.
  - pose proof (delete_user_by_admin sample_lib 1 (as_admin empty_request)
                  admin_zero patient_zero busy_server) as H.
    apply H; [reflexivity | reflexivity | reflexivity | simpl; lia].
  - pose proof (delete_user_by_admin sample_lib 1 (as_admin empty_request)
                  admin_zero patient_zero sample_server) as H.
    refine (f_equal (λ out, users (db out.2)) (H _ _ _ _));
      [reflexivity | reflexivity | reflexivity | simpl; lia].
Defined.

Lemma admin_dashboard_counts_witness :
  ∃ total patients clinicians admins logs us,
    dispatch_as Plain (admin_dashboard sample_lib (as_admin empty_request))
      busy_server
    = (AdminPage total patients clinicians admins logs us, busy_server) ∧
    total = 3 ∧ patients + clinicians + admins = total.
Proof.
  destruct (admin_dashboard_counts sample_lib (as_admin empty_request)
              admin_zero busy_server eq_refl eq_refl)
    as (t & p & c & a & l & u & H1 & H2 & _ & H3 & _).
  exists t, p, c, a, l, u. split; [exact H1|]. split; [exact H2|].
  apply H3.
  apply Forall_cons_2; [by left|].
  apply Forall_cons_2; [by right; right|].
  apply Forall_cons_2; [by right; left|]. apply Forall_nil_2.
Defined.

Lemma export_patient_csv_rows_witness :
  ∃ body,
    dispatch_as Plain
      (export_patient_csv sample_env sample_lib 1 (as_clinician empty_request))
      busy_server
    = (CsvDownload "patient_1_glucose.csv" "text/csv"
         (["timestamp"; "glucose"] :: body), busy_server) ∧
    length body = 2%nat.
Proof.
  destruct (export_patient_csv_rows sample_env sample_lib 1
              (as_clinician empty_request) clinician_zero busy_server
              eq_refl eq_refl)
    as (body & H1 & H2 & _).
  - intros l. simpl. by rewrite reverse_Permutation, sample_order_desc_perm.
  - exists body. split; [exact H1 | exact H2].
Defined.

Lemma index_leads_to_own_dashboard_witness :
  (dispatch (index (as_patient empty_request)) busy_server
   = (RedirectTo "patient_dashboard", busy_server) ∧
   ∀ r, (dispatch_as Plain
           (patient_dashboard sample_env sample_lib (as_patient empty_request))
           busy_server).1 ≠ Plain r) ∧
  (dispatch (index (as_admin empty_request)) busy_server
   = (RedirectTo "admin_dashboard", busy_server)) ∧
  (dispatch (index (mkContext empty_request (Some nurse_zero))) busy_server
   = (RedirectTo "patient_dashboard", busy_server) ∧
   (dispatch_as Plain
      (patient_dashboard sample_env sample_lib
         (mkContext empty_request (Some nurse_zero)))
      busy_server).1 = Plain (RedirectTo "index")).
Proof.
  split; [|split].
  - destruct (index_leads_to_own_dashboard sample_env sample_lib
                (as_patient empty_request) patient_zero busy_server eq_refl)
      as (H1 & view & H2 & H3 & _).
    split; [exact H1|]. injection H2 as <-. apply H3. by left.
  - apply (index_leads_to_own_dashboard sample_env sample_lib
             (as_admin empty_request) admin_zero busy_server eq_refl).
  - destruct (index_leads_to_own_dashboard sample_env sample_lib
                (mkContext empty_request (Some nurse_zero)) nurse_zero
                busy_server eq_refl)
      as (H1 & view & H2 & _ & H3).
    split; [exact H1|].
    destruct H3 as (_ & -> & H3).
    + intros [H|[H|H]]; discriminate H.
    + by rewrite H3.
Defined.

Lemma patient_dashboard_shows_own_rows_witness :
  ∃ rs ps als,
    dispatch_as Plain
      (patient_dashboard sample_env sample_lib (as_patient empty_request))
      busy_server
    = (PatientPage rs ps als, busy_server) ∧
    (∀ r, r ∈ rs → gr_user_id r = 1).
Proof.
  destruct (patient_dashboard_shows_own_rows sample_env sample_lib
              (as_patient empty_request) patient_zero busy_server
              eq_refl eq_refl)
    as (rs & ps & als & H1 & _ & H2 & _).
  - apply sample_order_desc_subseteq.
  - apply reverse_subseteq.
  - apply reverse_subseteq.
  - exists rs, ps, als. split; [exact H1|]. intros r Hr. by apply H2.
Defined.

Lemma api_explain_explains_standard_model_witness :
  (dispatch_as Plain
     (api_explain federated_env sample_explainer
        (as_patient (json_request low_risk_payload)))
     sample_server).1
  = JsonExplanation 0 0.125%float
      (Py.VList ((λ _, Py.VInt 0) <$> sample_features)) sample_features ∧
  (dispatch (api_predict federated_env
               (as_patient (json_request low_risk_payload)))
     sample_server).1
  = JsonPrediction 1 0.875%float sample_features.
Proof.
  destruct (api_explain_explains_standard_model federated_env sample_explainer
              (as_patient (json_request low_risk_payload)) patient_zero
              low_risk_payload 0 1 0.125%float 0.875%float
              sample_features sample_features
              (Py.VList ((λ _, Py.VInt 0) <$> sample_features)) sample_server)
    as [H1 H2]; [reflexivity..|].
  split; [by rewrite H1 | apply H2; reflexivity].
Defined.

End sample_facts.
